(** * Donation tracker: a shallow embedding of [donation-tracker.py]

    The program is a terminal menu over one SQLite connection.  The
    embedding has four layers:

    - [PyStr]: the Python built-ins the program calls on its input lines
      ([str.strip], [str.lower], [int], [float], [datetime.strptime]);
    - [Sql]: the SQL functions of the statements ([LOWER], [LIKE]);
    - the store: the four tables of [create_tables] with their constraints
      and foreign-key actions, one function per statement the program runs;
    - the operations: every menu function, written in a small monad that
      threads the store, the remaining input lines and the printed output,
      and that raises the Python exceptions the program leaves uncaught.

    Modelling conventions.  A character is one of the first 256 code points
    (Rocq's [ascii]); a Python [float] and an SQLite [REAL] is an IEEE
    binary64 value ([spec_float] with precision 53 and [emax] 1024); an SQLite
    [INTEGER] is a [Z].  Every mutating function of the program runs one
    statement and commits it at once, or fails and leaves nothing pending, so
    the connection never holds uncommitted changes between two calls and the
    model keeps a single store value.  The built-ins are those of
    Python 3.11 and SQLite 3.40.  Two limits that a line of input can reach
    are part of the model: [int] converts at most 4300 digits, and [LIKE]
    takes a pattern of at most 50000 bytes.  Resource limits of the storage
    engine (disk errors, rowid exhaustion, the largest text) are outside
    it. *)

From Stdlib Require Import Bool List ZArith NArith Lia.
From Stdlib Require Import Ascii String DecimalString.
From Stdlib Require Import SpecFloat.
From Stdlib Require Import Sorted Permutation.
Import ListNotations.

Local Open Scope string_scope.
Local Open Scope Z_scope.

(** ** Python built-ins used on input lines *)

Module PyStr.

Definition code (c : ascii) : N := N_of_ascii c.

Definition in_range (lo hi : N) (c : ascii) : bool :=
  ((lo <=? code c) && (code c <=? hi))%N.

(** [str.isspace] on one character: TAB..CR, FS..US, space, NEL, NBSP. *)
Definition isspace (c : ascii) : bool :=
  in_range 9 13 c || in_range 28 32 c
  || (code c =? 133)%N || (code c =? 160)%N.

Definition isdigit (c : ascii) : bool := in_range 48 57 c.

Definition digit_val (c : ascii) : Z := Z.of_N (code c) - 48.

Fixpoint lstrip (s : string) : string :=
  match s with
  | EmptyString => EmptyString
  | String c s' => if isspace c then lstrip s' else s
  end.

Fixpoint rstrip (s : string) : string :=
  match s with
  | EmptyString => EmptyString
  | String c s' =>
      match rstrip s' with
      | EmptyString => if isspace c then EmptyString else String c EmptyString
      | r => String c r
      end
  end.

(** [s.strip()] *)
Definition strip (s : string) : string := rstrip (lstrip s).

Definition map_string (f : ascii -> ascii) : string -> string :=
  fix go (s : string) : string :=
    match s with
    | EmptyString => EmptyString
    | String c s' => String (f c) (go s')
    end.

(** [str.lower] on one character of the first 256 code points: the ASCII
    capitals and the Latin-1 capitals (all of 192..222 but the sign 215). *)
Definition lower_char (c : ascii) : ascii :=
  if in_range 65 90 c
     || (in_range 192 222 c && negb (code c =? 215)%N)
  then ascii_of_N (code c + 32)
  else c.

(** [s.lower()] *)
Definition lower : string -> string := map_string lower_char.

(** A Python [digitpart]: [digit (["_"] digit)*].  [digitpart_rest] is
    entered after a first digit; it returns the value, the number of digits
    and the unread rest.  An underscore that no digit follows is left in the
    rest. *)
Fixpoint digitpart_rest (s : string) (acc : Z) (n : Z) : Z * Z * string :=
  match s with
  | String c s' =>
      if isdigit c then digitpart_rest s' (10 * acc + digit_val c) (n + 1)
      else if (c =? "_")%char then
        match s' with
        | String d s'' =>
            if isdigit d
            then digitpart_rest s'' (10 * acc + digit_val d) (n + 1)
            else (acc, n, s)
        | EmptyString => (acc, n, s)
        end
      else (acc, n, s)
  | EmptyString => (acc, n, s)
  end.

Definition digitpart (s : string) : option (Z * Z * string) :=
  match s with
  | String c s' =>
      if isdigit c then Some (digitpart_rest s' (digit_val c) 1) else None
  | EmptyString => None
  end.

(** An optional sign: [true] for a minus. *)
Definition sign (s : string) : bool * string :=
  match s with
  | String c s' =>
      if (c =? "-")%char then (true, s')
      else if (c =? "+")%char then (false, s')
      else (false, s)
  | EmptyString => (false, s)
  end.

(** The white space [int] and [float] skip around a number.  They turn the
    white-space characters above 127 (NEL, NBSP) into spaces and then skip
    the C-level white space, TAB..CR and space.  The separators FS..US,
    which [str.strip] removes, are not skipped: [int] and [float] raise
    [ValueError] on them. *)
Definition isspace_number (c : ascii) : bool :=
  in_range 9 13 c || (code c =? 32)%N
  || (code c =? 133)%N || (code c =? 160)%N.

Fixpoint lstrip_number (s : string) : string :=
  match s with
  | EmptyString => EmptyString
  | String c s' => if isspace_number c then lstrip_number s' else s
  end.

Fixpoint rstrip_number (s : string) : string :=
  match s with
  | EmptyString => EmptyString
  | String c s' =>
      match rstrip_number s' with
      | EmptyString =>
          if isspace_number c then EmptyString else String c EmptyString
      | r => String c r
      end
  end.

Definition strip_number (s : string) : string :=
  rstrip_number (lstrip_number s).

(** The largest number of digits [int] converts (Python 3.11 and later);
    a longer text is a [ValueError]. *)
Definition max_str_digits : Z := 4300.

(** [int(s)] in base 10: [None] stands for [ValueError]. *)
Definition int (s : string) : option Z :=
  let '(neg, body) := sign (strip_number s) in
  match digitpart body with
  | Some (v, n, EmptyString) =>
      if n <=? max_str_digits then Some (if neg then - v else v) else None
  | _ => None
  end.

(** *** [float(s)] *)

Definition prec : Z := 53.
Definition emax : Z := 1024.

Definition pyfloat : Type := spec_float.

Definition fzero : pyfloat := S754_zero false.

(** The binary64 value nearest to [m * 10 ^ e] (ties to even), as the
    correctly rounded conversion of [float] gives it. *)
Definition float_of_decimal (neg : bool) (m e : Z) : pyfloat :=
  match m with
  | Zpos p =>
      if 0 <=? e
      then binary_normalize prec emax (cond_Zopp neg (Zpos p * 10 ^ e)) 0 neg
      else
        let '(q, e', l) :=
          SFdiv_core_binary prec emax (Zpos p) 0 (10 ^ (- e)) 0 in
        binary_round_aux prec emax neg q e' l
  | _ => S754_zero neg
  end.

(** [number ::= [digitpart] "." digitpart | digitpart ["."]]: the mantissa
    as an integer and the number of digits after the point. *)
Definition number (s : string) : option (Z * Z * string) :=
  match digitpart s with
  | Some (i, _, String "." r) =>
      match digitpart r with
      | Some (f, k, r') => Some (i * 10 ^ k + f, k, r')
      | None => Some (i, 0, r)
      end
  | Some (i, _, r) => Some (i, 0, r)
  | None =>
      match s with
      | String "." r =>
          match digitpart r with
          | Some (f, k, r') => Some (f, k, r')
          | None => None
          end
      | _ => None
      end
  end.

(** [exponent ::= ("e" | "E") [sign] digitpart], optional. *)
Definition exponent (s : string) : option (Z * string) :=
  match s with
  | EmptyString => Some (0, s)
  | String c r =>
      if (c =? "e")%char || (c =? "E")%char then
        let '(neg, r') := sign r in
        match digitpart r' with
        | Some (x, _, r'') => Some (if neg then - x else x, r'')
        | None => None
        end
      else Some (0, s)
  end.

(** [float(s)]: [None] stands for [ValueError]. *)
Definition float (s : string) : option pyfloat :=
  let '(neg, body) := sign (strip_number s) in
  let word := lower body in
  if ((word =? "inf") || (word =? "infinity"))%string
  then Some (S754_infinity neg)
  else if (word =? "nan")%string then Some S754_nan
  else
    match number body with
    | Some (m, k, r) =>
        match exponent r with
        | Some (x, EmptyString) => Some (float_of_decimal neg m (x - k))
        | _ => None
        end
    | None => None
    end.

(** [a <= b] and [a < b] on floats; both are false when a NaN is involved. *)
Definition fle (a b : pyfloat) : bool := SFleb a b.
Definition flt (a b : pyfloat) : bool := SFltb a b.

End PyStr.

(** ** [datetime.strptime]

    [_strptime] turns the format into a regular expression: a run of white
    space becomes [\s+], a directive becomes the alternation of its table,
    any other character stands for itself.  The expression is matched at the
    start of the data with the usual backtracking, the first match must
    consume the whole data, and the fields must then form a valid
    [datetime]. *)

Module PyTime.

Import PyStr.

Inductive item : Type :=
| Dir (c : ascii)     (* a directive [%c] *)
| Ws                  (* [\s+] *)
| Lit (c : ascii).

Fixpoint compile_format (fmt : string) : list item :=
  match fmt with
  | EmptyString => []
  | String c r =>
      if (c =? "%")%char then
        match r with
        | String d r' => Dir d :: compile_format r'
        | EmptyString => [Lit c]
        end
      else if isspace c then
        match compile_format r with
        | Ws :: k => Ws :: k
        | k => Ws :: k
        end
      else Lit c :: compile_format r
  end.

(** Two digits whose value lies in [lo..hi]; one digit in [lo..hi]. *)
Definition two (lo hi : Z) (s : string) : list (Z * string) :=
  match s with
  | String a (String b r) =>
      let v := 10 * digit_val a + digit_val b in
      if isdigit a && isdigit b && (lo <=? v) && (v <=? hi)
      then [(v, r)] else []
  | _ => []
  end.

Definition one (lo hi : Z) (s : string) : list (Z * string) :=
  match s with
  | String a r =>
      if isdigit a && (lo <=? digit_val a) && (digit_val a <=? hi)
      then [(digit_val a, r)] else []
  | EmptyString => []
  end.

Definition four (s : string) : list (Z * string) :=
  match s with
  | String a (String b (String c (String d r))) =>
      if isdigit a && isdigit b && isdigit c && isdigit d
      then [(1000 * digit_val a + 100 * digit_val b
             + 10 * digit_val c + digit_val d, r)]
      else []
  | _ => []
  end.

Definition spaced_one (s : string) : list (Z * string) :=
  match s with
  | String " " r => one 1 9 r
  | _ => []
  end.

Record fields : Type := mkFields
  { year : Z; month : Z; day : Z; hour : Z; minute : Z; second : Z }.

Definition default_fields : fields := mkFields 1900 1 1 0 0 0.

(** The alternatives of one directive, in the order the regular expression
    tries them, each with the field it sets:
    [%Y] is [\d\d\d\d]; [%m] is [1[0-2]|0[1-9]|[1-9]];
    [%d] is [3[0-1]|[1-2]\d|0[1-9]|[1-9]| [1-9]];
    [%H] is [2[0-3]|[0-1]\d|\d]; [%M] is [[0-5]\d|\d];
    [%S] is [6[0-1]|[0-5]\d|\d].  The two-character branches of one
    directive exclude each other, so they are one [two] here.  A directive
    outside this table is [None] (the program uses no other). *)
Definition directive (c : ascii) (f : fields) (s : string)
  : option (list (fields * string)) :=
  let set (upd : Z -> fields) (l : list (Z * string)) :=
    Some (map (fun vr => (upd (fst vr), snd vr)) l) in
  if (c =? "Y")%char then
    set (fun v => mkFields v (month f) (day f) (hour f) (minute f) (second f))
        (four s)
  else if (c =? "m")%char then
    set (fun v => mkFields (year f) v (day f) (hour f) (minute f) (second f))
        (two 1 12 s ++ one 1 9 s)%list
  else if (c =? "d")%char then
    set (fun v => mkFields (year f) (month f) v (hour f) (minute f) (second f))
        (two 1 31 s ++ one 1 9 s ++ spaced_one s)%list
  else if (c =? "H")%char then
    set (fun v => mkFields (year f) (month f) (day f) v (minute f) (second f))
        (two 0 23 s ++ one 0 9 s)%list
  else if (c =? "M")%char then
    set (fun v => mkFields (year f) (month f) (day f) (hour f) v (second f))
        (two 0 59 s ++ one 0 9 s)%list
  else if (c =? "S")%char then
    set (fun v => mkFields (year f) (month f) (day f) (hour f) (minute f) v)
        (two 0 61 s ++ one 0 9 s)%list
  else None.

(** [\s+], greedy: the longest run first. *)
Fixpoint ws_alts (s : string) : list string :=
  match s with
  | String c r => if isspace c then (ws_alts r ++ [r])%list else []
  | EmptyString => []
  end.

(** All the matches of the compiled format at the start of [s], in
    backtracking order; [None] for a bad directive. *)
Fixpoint match_items (l : list item) (f : fields) (s : string)
  : option (list (fields * string)) :=
  match l with
  | [] => Some [(f, s)]
  | Lit c :: k =>
      match s with
      | String d r =>
          if (lower_char c =? lower_char d)%char
          then match_items k f r else Some []
      | EmptyString => Some []
      end
  | Ws :: k =>
      fold_right
        (fun r acc =>
           match match_items k f r, acc with
           | Some a, Some b => Some (a ++ b)%list
           | _, _ => None
           end)
        (Some []) (ws_alts s)
  | Dir c :: k =>
      match directive c f s with
      | None => None
      | Some alts =>
          fold_right
            (fun fr acc =>
               match match_items k (fst fr) (snd fr), acc with
               | Some a, Some b => Some (a ++ b)%list
               | _, _ => None
               end)
            (Some []) alts
      end
  end.

Definition is_leap (y : Z) : bool :=
  ((y mod 4 =? 0) && negb (y mod 100 =? 0)) || (y mod 400 =? 0).

Definition days_in_month (y m : Z) : Z :=
  if m =? 2 then (if is_leap y then 29 else 28)
  else if (m =? 4) || (m =? 6) || (m =? 9) || (m =? 11) then 30
  else 31.

(** The checks of the [datetime] constructor that the regular expression
    leaves open. *)
Definition valid_datetime (f : fields) : bool :=
  (1 <=? year f) && (year f <=? 9999)
  && (day f <=? days_in_month (year f) (month f))
  && (second f <=? 59).

(** [datetime.strptime(data, fmt)]: [None] stands for [ValueError]. *)
Definition strptime (data fmt : string) : option fields :=
  match match_items (compile_format fmt) default_fields data with
  | Some ((f, EmptyString) :: _) =>
      if valid_datetime f then Some f else None
  | _ => None
  end.

End PyTime.

(** ** SQL functions of the statements *)

Module Sql.

Import PyStr.

(** [LOWER(x)]: SQLite folds the 26 ASCII capitals and nothing else. *)
Definition lower_char (c : ascii) : ascii :=
  if in_range 65 90 c then ascii_of_N (code c + 32) else c.

Definition lower : string -> string := map_string lower_char.

(** The matcher of [LIKE] with the default settings: [%] stands for any
    run of characters, [_] for any one character, any other character for
    itself up to ASCII case; there is no escape character. *)
Fixpoint like_chars (p : string) : string -> bool :=
  match p with
  | EmptyString =>
      fun s => match s with EmptyString => true | _ => false end
  | String c p' =>
      if (c =? "%")%char then
        fix star (s : string) : bool :=
          like_chars p' s
          || match s with
             | EmptyString => false
             | String _ s' => star s'
             end
      else if (c =? "_")%char then
        fun s =>
          match s with
          | EmptyString => false
          | String _ s' => like_chars p' s'
          end
      else
        fun s =>
          match s with
          | EmptyString => false
          | String d s' => (lower_char c =? lower_char d)%char && like_chars p' s'
          end
  end.

(** The text up to its first NUL character. *)
Fixpoint until_nul (s : string) : string :=
  match s with
  | EmptyString => EmptyString
  | String c s' =>
      if (code c =? 0)%N then EmptyString else String c (until_nul s')
  end.

(** [s LIKE p]: SQLite's [LIKE] reads the pattern and the text as
    NUL-terminated strings, so either ends at its first NUL character. *)
Definition like (p s : string) : bool :=
  like_chars (until_nul p) (until_nul s).

(** The number of bytes of a text in UTF-8, the encoding the database
    holds it in: one byte for a character below 128, two for the others
    (the texts here are over the first 256 code points). *)
Fixpoint utf8_length (s : string) : N :=
  match s with
  | EmptyString => 0
  | String c s' => (if (code c <? 128)%N then 1 else 2) + utf8_length s'
  end.

(** [LIKE] refuses a pattern of more than 50000 bytes, whatever the text,
    with the error [LIKE or GLOB pattern too complex]. *)
Definition like_pattern_limit : N := 50000.

Definition like_refuses (p : string) : bool :=
  (like_pattern_limit <? utf8_length p)%N.

(** A value of a result row. *)
Inductive value : Type :=
| VNull
| VInt (z : Z)
| VReal (x : pyfloat)
| VText (s : string).

Inductive error : Type :=
| IntegrityError (detail : string)
| OperationalError (detail : string).

Definition is_integrity (e : error) : bool :=
  match e with IntegrityError _ => true | OperationalError _ => false end.

Definition detail (e : error) : string :=
  match e with IntegrityError d => d | OperationalError d => d end.

(** The range of an SQLite [INTEGER]; a Python [int] outside it cannot be
    bound to a statement. *)
Definition fits_int64 (z : Z) : bool :=
  (- 2 ^ 63 <=? z) && (z <? 2 ^ 63).

(** A Python [float] bound to a statement: a NaN is bound as [NULL]. *)
Definition bind_real (x : pyfloat) : option pyfloat :=
  match x with S754_nan => None | _ => Some x end.

End Sql.

(** ** The store: the tables of [create_tables] *)

Record donor : Type := mkDonor
  { donor_id : Z;                    (* INTEGER PRIMARY KEY AUTOINCREMENT *)
    donor_name : string;             (* TEXT NOT NULL *)
    donor_contact_info : string;     (* TEXT; the program always binds a str *)
    donor_created_at : string }.     (* TIMESTAMP DEFAULT CURRENT_TIMESTAMP *)

Record volunteer : Type := mkVolunteer
  { volunteer_id : Z;                (* INTEGER PRIMARY KEY AUTOINCREMENT *)
    volunteer_name : string;         (* TEXT NOT NULL UNIQUE *)
    volunteer_contact_info : string }.

Record event : Type := mkEvent
  { event_id : Z;                    (* INTEGER PRIMARY KEY AUTOINCREMENT *)
    event_name : string;             (* TEXT NOT NULL UNIQUE *)
    event_date : option string }.    (* TEXT, [None] is NULL *)

Record donation : Type := mkDonation
  { donation_id : Z;                 (* INTEGER PRIMARY KEY AUTOINCREMENT *)
    donation_donor_id : Z;           (* INTEGER NOT NULL, REFERENCES Donors *)
    amount : PyStr.pyfloat;          (* REAL NOT NULL CHECK(amount > 0) *)
    donation_date : string;          (* TIMESTAMP; the program binds a str *)
    donation_volunteer_id : option Z;(* REFERENCES Volunteers, SET NULL *)
    donation_event_id : option Z;    (* REFERENCES Events, SET NULL *)
    notes : string }.

(** The four tables, rows in rowid order, and the [sqlite_sequence] entry
    that [AUTOINCREMENT] keeps for each. *)
Record store : Type := mkStore
  { Donors : list donor;
    Volunteers : list volunteer;
    Events : list event;
    Donations : list donation;
    seq_Donors : Z;
    seq_Volunteers : Z;
    seq_Events : Z;
    seq_Donations : Z }.

(** The store after [create_tables] on a fresh file. *)
Definition empty_store : store := mkStore [] [] [] [] 0 0 0 0.

Inductive sql_result (A : Type) : Type :=
| SqlOk (s : store) (a : A)
| SqlError (e : Sql.error).
Arguments SqlOk {A} s a.
Arguments SqlError {A} e.

Definition max_rowid (ids : list Z) : Z := fold_right Z.max 0 ids.

(** The rowid [AUTOINCREMENT] gives: one more than the largest ever used. *)
Definition next_rowid (seq : Z) (ids : list Z) : Z :=
  Z.max seq (max_rowid ids) + 1.

(** [SELECT ... FROM Donors WHERE donor_id = ?], [fetchone()] *)
Definition select_donor (s : store) (id : Z) : option donor :=
  find (fun d => donor_id d =? id) (Donors s).

Definition select_volunteer (s : store) (id : Z) : option volunteer :=
  find (fun v => volunteer_id v =? id) (Volunteers s).

Definition select_event (s : store) (id : Z) : option event :=
  find (fun e => event_id e =? id) (Events s).

(** [INSERT INTO Donors (name, contact_info) VALUES (?, ?)]; the value is
    [lastrowid]. *)
Definition insert_donor (s : store) (name contact_info now : string)
  : sql_result Z :=
  let id := next_rowid (seq_Donors s) (map donor_id (Donors s)) in
  SqlOk (mkStore (Donors s ++ [mkDonor id name contact_info now])%list
                 (Volunteers s) (Events s) (Donations s)
                 id (seq_Volunteers s) (seq_Events s) (seq_Donations s))
        id.

(** [INSERT INTO Volunteers (name, contact_info) VALUES (?, ?)] *)
Definition insert_volunteer (s : store) (name contact_info : string)
  : sql_result Z :=
  if existsb (fun v => (volunteer_name v =? name)%string) (Volunteers s)
  then SqlError (Sql.IntegrityError "UNIQUE constraint failed: Volunteers.name")
  else
    let id := next_rowid (seq_Volunteers s) (map volunteer_id (Volunteers s)) in
    SqlOk (mkStore (Donors s)
                   (Volunteers s ++ [mkVolunteer id name contact_info])%list
                   (Events s) (Donations s)
                   (seq_Donors s) id (seq_Events s) (seq_Donations s))
          id.

(** [INSERT INTO Events (name, event_date) VALUES (?, ?)] *)
Definition insert_event (s : store) (name : string) (date : option string)
  : sql_result Z :=
  if existsb (fun e => (event_name e =? name)%string) (Events s)
  then SqlError (Sql.IntegrityError "UNIQUE constraint failed: Events.name")
  else
    let id := next_rowid (seq_Events s) (map event_id (Events s)) in
    SqlOk (mkStore (Donors s) (Volunteers s)
                   (Events s ++ [mkEvent id name date])%list (Donations s)
                   (seq_Donors s) (seq_Volunteers s) id (seq_Donations s))
          id.

Definition references {A : Type} (sel : Z -> option A) (fk : option Z) : bool :=
  match fk with
  | None => true
  | Some id => match sel id with Some _ => true | None => false end
  end.

(** [INSERT INTO Donations (donor_id, amount, donation_date, volunteer_id,
    event_id, notes) VALUES (?, ?, ?, ?, ?, ?)] with [foreign_keys = ON]. *)
Definition insert_donation (s : store) (donor : Z)
  (amount : option PyStr.pyfloat) (date : string)
  (volunteer event : option Z) (notes : string) : sql_result Z :=
  match amount with
  | None =>
      SqlError (Sql.IntegrityError "NOT NULL constraint failed: Donations.amount")
  | Some a =>
      if negb (PyStr.flt PyStr.fzero a)
      then SqlError (Sql.IntegrityError "CHECK constraint failed: amount > 0")
      else if references (select_donor s) (Some donor)
              && references (select_volunteer s) volunteer
              && references (select_event s) event
      then
        let id := next_rowid (seq_Donations s) (map donation_id (Donations s)) in
        SqlOk (mkStore (Donors s) (Volunteers s) (Events s)
                       (Donations s
                        ++ [mkDonation id donor a date volunteer event notes])%list
                       (seq_Donors s) (seq_Volunteers s) (seq_Events s) id)
              id
      else SqlError (Sql.IntegrityError "FOREIGN KEY constraint failed")
  end.

Definition set_donor (name contact_info : option string) (d : donor) : donor :=
  mkDonor (donor_id d)
          (match name with Some n => n | None => donor_name d end)
          (match contact_info with
           | Some c => c
           | None => donor_contact_info d
           end)
          (donor_created_at d).

(** [UPDATE Donors SET ... WHERE donor_id = ?] over the columns given; the
    value is [rowcount]. *)
Definition update_donors (s : store) (name contact_info : option string)
  (id : Z) : sql_result Z :=
  SqlOk (mkStore (map (fun d => if donor_id d =? id
                                then set_donor name contact_info d else d)
                      (Donors s))
                 (Volunteers s) (Events s) (Donations s)
                 (seq_Donors s) (seq_Volunteers s) (seq_Events s)
                 (seq_Donations s))
        (Z.of_nat (List.length (filter (fun d => donor_id d =? id) (Donors s)))).

(** [DELETE FROM Donors WHERE donor_id = ?]; [ON DELETE CASCADE] removes
    the donations of the donor.  The value is [rowcount]. *)
Definition delete_from_Donors (s : store) (id : Z) : sql_result Z :=
  SqlOk (mkStore (filter (fun d => negb (donor_id d =? id)) (Donors s))
                 (Volunteers s) (Events s)
                 (filter (fun d => negb (donation_donor_id d =? id))
                         (Donations s))
                 (seq_Donors s) (seq_Volunteers s) (seq_Events s)
                 (seq_Donations s))
        (Z.of_nat (List.length (filter (fun d => donor_id d =? id) (Donors s)))).

(** The schema also declares [ON DELETE SET NULL] for the volunteer and the
    event reference of a donation.  The program issues no [DELETE] on
    [Volunteers] or [Events], so that clause never runs; it has no
    definition here. *)

(** ** The program's effects *)

Inductive message : Type :=
| Text (s : string)
    (* one [print], or the prompt of one [input] *)
| DonationRecorded (amount : PyStr.pyfloat) (donor_name : string) (id : Z)
    (* "Donation of ${amount:.2f} from '{donor_name}' recorded
       successfully (ID: {id})." *)
| Rows (headers : list string) (rows : list (list Sql.value))
    (* the header line, the rule and one line per row *)
| ClearScreen.

(** The exceptions no function of the program catches. *)
Inductive exn : Type :=
| EOFError          (* [input()] at the end of the input *)
| OverflowError.    (* a Python [int] too large for an SQLite INTEGER *)

Record world : Type := mkWorld
  { db : store;                (* the database behind [conn] *)
    stdin : list string;       (* the lines still to be read *)
    stdout : list message;     (* what was printed, oldest first *)
    py_now : string;           (* [datetime.now()], formatted [%Y-%m-%d %H:%M:%S] *)
    sql_now : string }.        (* [CURRENT_TIMESTAMP] *)

Inductive result (A : Type) : Type :=
| Ret (a : A)
| Raise (e : exn).
Arguments Ret {A} a.
Arguments Raise {A} e.

Definition io (A : Type) : Type := world -> result A * world.

Definition ret {A : Type} (a : A) : io A := fun w => (Ret a, w).

Definition bind {A B : Type} (m : io A) (k : A -> io B) : io B :=
  fun w =>
    match m w with
    | (Ret a, w') => k a w'
    | (Raise e, w') => (Raise e, w')
    end.

Notation "x <- m ;; k" := (bind m (fun x => k))
  (at level 61, m at next level, right associativity).
Notation "m ;; k" := (bind m (fun _ => k))
  (at level 61, right associativity).

Definition raise {A : Type} (e : exn) : io A := fun w => (Raise e, w).

Definition emit (m : message) : io unit :=
  fun w =>
    (Ret tt, mkWorld (db w) (stdin w) (stdout w ++ [m])%list (py_now w) (sql_now w)).

Definition print (s : string) : io unit := emit (Text s).

(** [input(prompt)] *)
Definition input (prompt : string) : io string :=
  fun w =>
    let out := (stdout w ++ [Text prompt])%list in
    match stdin w with
    | [] => (Raise EOFError, mkWorld (db w) [] out (py_now w) (sql_now w))
    | l :: r => (Ret l, mkWorld (db w) r out (py_now w) (sql_now w))
    end.

Definition get_db : io store := fun w => (Ret (db w), w).

Definition get_py_now : io string := fun w => (Ret (py_now w), w).

Definition get_sql_now : io string := fun w => (Ret (sql_now w), w).

(** [cursor.execute(...)] of a statement that changes the store, followed
    by [conn.commit()] when it succeeds; a failed statement changes
    nothing, which is also what [conn.rollback()] leaves. *)
Definition execute {A : Type} (stmt : store -> sql_result A)
  : io (Sql.error + A) :=
  fun w =>
    match stmt (db w) with
    | SqlOk s a =>
        (Ret (inr a), mkWorld s (stdin w) (stdout w) (py_now w) (sql_now w))
    | SqlError e => (Ret (inl e), w)
    end.

(** Binding a Python [int] as a statement parameter. *)
Definition bind_int (z : Z) : io Z :=
  if Sql.fits_int64 z then ret z else raise OverflowError.

Definition nl : string := String (ascii_of_N 10) EmptyString.

(** [str(z)] *)
Definition str_of_Z (z : Z) : string := NilZero.string_of_int (Z.to_int z).

Definition nonempty (s : string) : bool :=
  match s with EmptyString => false | _ => true end.

(** ** The program *)

(** Insertion into a list sorted by [le]; [sort_by] is the stable sort it
    gives.  The order SQL leaves open among equal keys is the table's. *)
Fixpoint insert_by {A : Type} (le : A -> A -> bool) (x : A) (l : list A)
  : list A :=
  match l with
  | [] => [x]
  | y :: l' => if le x y then x :: l else y :: insert_by le x l'
  end.

Definition sort_by {A : Type} (le : A -> A -> bool) (l : list A) : list A :=
  fold_right (insert_by le) [] l.

(** The order of the [UNIQUE(name)] index of a table: by name, compared
    character by character. *)
Definition by_name (a b : Z * string) : bool := String.leb (snd a) (snd b).

(** The rows a [SELECT {column_name}_id FROM {table_name} WHERE
    LOWER(name) = LOWER(?)] scans, in the order of the scan: the table's
    pairs of identifier and name.  [Donors] is scanned in rowid order.
    [Volunteers] and [Events] have a [UNIQUE(name)] index that holds both
    columns of the query, and SQLite scans that index instead of the table:
    their rows come in the order of the names.  [Donations] has no [name]
    column, and a table has no identifier column of another table's
    name. *)
Definition id_name_rows (s : store) (table_name column_name : string)
  : option (list (Z * string)) :=
  let t := Sql.lower table_name in
  let c := Sql.lower (column_name ++ "_id") in
  if ((t =? "donors") && (c =? "donor_id"))%string then
    Some (map (fun d => (donor_id d, donor_name d)) (Donors s))
  else if ((t =? "volunteers") && (c =? "volunteer_id"))%string then
    Some (sort_by by_name
            (map (fun v => (volunteer_id v, volunteer_name v)) (Volunteers s)))
  else if ((t =? "events") && (c =? "event_id"))%string then
    Some (sort_by by_name
            (map (fun e => (event_id e, event_name e)) (Events s)))
  else None.

(** [WHERE LOWER(name) = LOWER(?)] on one row. *)
Definition name_matches (name_value : string) (row : Z * string) : bool :=
  (Sql.lower (snd row) =? Sql.lower name_value)%string.

Definition find_id_by_name (table_name column_name name_value : string)
  : io (option Z) :=
  s <- get_db ;;
  match id_name_rows s table_name column_name with
  | Some rows =>
      (* [fetchone()]: the first row of the scan that matches *)
      ret (option_map fst (find (name_matches name_value) rows))
  | None =>
      print ("Error finding ID in " ++ table_name
             ++ " by name: no such table or column") ;;
      ret None
  end.

Definition clear_screen : io unit := emit ClearScreen.

Definition display_results (headers : list string)
  (rows : list (list Sql.value)) (title : string) : io unit :=
  match rows with
  | [] => print (nl ++ "--- No " ++ PyStr.lower title ++ " found. ---")
  | _ :: _ =>
      print (nl ++ "--- " ++ title ++ " ---") ;;
      emit (Rows headers rows) ;;
      print "---------------"
  end.

Definition add_donor : io unit :=
  print (nl ++ "--- Add New Donor ---") ;;
  l1 <- input "Enter donor name: " ;;
  let name := PyStr.strip l1 in
  l2 <- input "Enter contact info (e.g., email/phone): " ;;
  let contact_info := PyStr.strip l2 in
  if negb (nonempty name) then
    print "Donor name cannot be empty."
  else
    now <- get_sql_now ;;
    r <- execute (fun s => insert_donor s name contact_info now) ;;
    match r with
    | inr lastrowid =>
        print ("Donor '" ++ name ++ "' added successfully (ID: "
               ++ str_of_Z lastrowid ++ ").")
    | inl e =>
        if Sql.is_integrity e then
          print "Error: A donor with a similar unique constraint might already exist."
        else print ("Error adding donor: " ++ Sql.detail e)
    end.

Definition donor_values (d : donor) : list Sql.value :=
  [Sql.VInt (donor_id d); Sql.VText (donor_name d);
   Sql.VText (donor_contact_info d); Sql.VText (donor_created_at d)].

Definition view_donors : io unit :=
  print (nl ++ "--- View All Donors ---") ;;
  s <- get_db ;;
  (* SELECT donor_id, name, contact_info, created_at FROM Donors ORDER BY name *)
  let donors :=
    sort_by (fun a b => String.leb (donor_name a) (donor_name b)) (Donors s) in
  display_results ["donor_id"; "name"; "contact_info"; "created_at"]
                  (map donor_values donors) "All Donors".

Definition update_donor : io unit :=
  print (nl ++ "--- Update Donor ---") ;;
  l0 <- input "Enter the ID of the donor to update: " ;;
  match PyStr.int l0 with
  | None => print "Invalid ID. Please enter a number."
  | Some n =>
      donor_id <- bind_int n ;;
      s <- get_db ;;
      match select_donor s donor_id with
      | None => print ("Donor with ID " ++ str_of_Z donor_id ++ " not found.")
      | Some donor =>
          print ("Updating Donor ID: " ++ str_of_Z donor_id
                 ++ ", Current Name: " ++ donor_name donor
                 ++ ", Current Contact: " ++ donor_contact_info donor) ;;
          l1 <- input ("Enter new name (leave blank to keep '"
                       ++ donor_name donor ++ "'): ") ;;
          let new_name := PyStr.strip l1 in
          l2 <- input ("Enter new contact info (leave blank to keep '"
                       ++ donor_contact_info donor ++ "'): ") ;;
          let new_contact_info := PyStr.strip l2 in
          let update_name :=
            if nonempty new_name then Some new_name else None in
          let update_contact_info :=
            if nonempty new_contact_info then Some new_contact_info else None in
          match update_name, update_contact_info with
          | None, None => print "No changes specified."
          | _, _ =>
              r <- execute (fun s => update_donors s update_name
                                                   update_contact_info donor_id) ;;
              match r with
              | inr rowcount =>
                  if 0 <? rowcount then
                    print ("Donor ID " ++ str_of_Z donor_id
                           ++ " updated successfully.")
                  else
                    print ("Donor ID " ++ str_of_Z donor_id
                           ++ " not found or no changes made.")
              | inl e => print ("Error updating donor: " ++ Sql.detail e)
              end
          end
      end
  end.

Definition delete_donor : io unit :=
  print (nl ++ "--- Delete Donor ---") ;;
  l0 <- input "Enter the ID of the donor to delete: " ;;
  match PyStr.int l0 with
  | None => print "Invalid ID. Please enter a number."
  | Some n =>
      donor_id <- bind_int n ;;
      s <- get_db ;;
      match select_donor s donor_id with
      | None => print ("Donor with ID " ++ str_of_Z donor_id ++ " not found.")
      | Some donor =>
          l1 <- input ("Are you sure you want to delete donor '"
                       ++ donor_name donor ++ "' (ID: " ++ str_of_Z donor_id
                       ++ ")? This will also delete associated donations. (yes/no): ") ;;
          let confirm := PyStr.lower l1 in
          if negb (confirm =? "yes")%string then
            print "Deletion cancelled."
          else
            r <- execute (fun s => delete_from_Donors s donor_id) ;;
            match r with
            | inr rowcount =>
                if 0 <? rowcount then
                  print ("Donor ID " ++ str_of_Z donor_id
                         ++ " and associated donations deleted successfully.")
                else
                  print ("Donor ID " ++ str_of_Z donor_id ++ " not found.")
            | inl e => print ("Error deleting donor: " ++ Sql.detail e)
            end
      end
  end.

Definition add_volunteer : io unit :=
  print (nl ++ "--- Add New Volunteer ---") ;;
  l1 <- input "Enter volunteer name: " ;;
  let name := PyStr.strip l1 in
  l2 <- input "Enter contact info (optional): " ;;
  let contact_info := PyStr.strip l2 in
  if negb (nonempty name) then
    print "Volunteer name cannot be empty."
  else
    r <- execute (fun s => insert_volunteer s name contact_info) ;;
    match r with
    | inr lastrowid =>
        print ("Volunteer '" ++ name ++ "' added successfully (ID: "
               ++ str_of_Z lastrowid ++ ").")
    | inl e =>
        if Sql.is_integrity e then
          print ("Error: A volunteer with the name '" ++ name
                 ++ "' might already exist (names must be unique).")
        else print ("Error adding volunteer: " ++ Sql.detail e)
    end.

Definition add_event : io unit :=
  print (nl ++ "--- Add New Event ---") ;;
  l1 <- input "Enter event name: " ;;
  let name := PyStr.strip l1 in
  l2 <- input "Enter event date (YYYY-MM-DD, optional): " ;;
  let event_date_str := PyStr.strip l2 in
  if negb (nonempty name) then
    print "Event name cannot be empty."
  else
    let bad_date :=
      nonempty event_date_str
      && match PyTime.strptime event_date_str "%Y-%m-%d" with
         | Some _ => false
         | None => true
         end in
    if bad_date then
      print "Invalid date format. Please use YYYY-MM-DD."
    else
      r <- execute (fun s =>
                      insert_event s name
                        (if nonempty event_date_str
                         then Some event_date_str else None)) ;;
      match r with
      | inr lastrowid =>
          print ("Event '" ++ name ++ "' added successfully (ID: "
                 ++ str_of_Z lastrowid ++ ").")
      | inl e =>
          if Sql.is_integrity e then
            print ("Error: An event with the name '" ++ name
                   ++ "' might already exist (names must be unique).")
          else print ("Error adding event: " ++ Sql.detail e)
      end.

Definition add_donation : io unit :=
  print (nl ++ "--- Add New Donation ---") ;;
  l1 <- input "Enter the donor's name: " ;;
  let donor_name := PyStr.strip l1 in
  found <- find_id_by_name "Donors" "donor" donor_name ;;
  match found with
  | None =>
      print ("Donor '" ++ donor_name ++ "' not found. Please add the donor first.")
  | Some donor_id =>
      l2 <- input "Enter donation amount: " ;;
      match PyStr.float l2 with
      | None => print "Invalid amount. Please enter a number."
      | Some amount =>
          if PyStr.fle amount PyStr.fzero then
            print "Donation amount must be positive."
          else
            l3 <- input "Enter donation date (YYYY-MM-DD HH:MM:SS, leave blank for current time): " ;;
            let donation_date_str := PyStr.strip l3 in
            checked <-
              (if nonempty donation_date_str then
                 match PyTime.strptime donation_date_str "%Y-%m-%d %H:%M:%S" with
                 | Some _ => ret (Some donation_date_str)
                 | None =>
                     print "Invalid date format. Please use YYYY-MM-DD HH:MM:SS." ;;
                     ret None
                 end
               else
                 now <- get_py_now ;;
                 ret (Some now)) ;;
            match checked with
            | None => ret tt
            | Some donation_date =>
                l4 <- input "Enter volunteer name (leave blank if none): " ;;
                let volunteer_name := PyStr.strip l4 in
                volunteer_id <-
                  (if nonempty volunteer_name
                   then find_id_by_name "Volunteers" "volunteer" volunteer_name
                   else ret None) ;;
                (match nonempty volunteer_name, volunteer_id with
                 | true, None =>
                     print ("Warning: Volunteer '" ++ volunteer_name
                            ++ "' not found. Donation will be added without volunteer link.")
                 | _, _ => ret tt
                 end) ;;
                l5 <- input "Enter event name (leave blank if none): " ;;
                let event_name := PyStr.strip l5 in
                event_id <-
                  (if nonempty event_name
                   then find_id_by_name "Events" "event" event_name
                   else ret None) ;;
                (match nonempty event_name, event_id with
                 | true, None =>
                     print ("Warning: Event '" ++ event_name
                            ++ "' not found. Donation will be added without event link.")
                 | _, _ => ret tt
                 end) ;;
                l6 <- input "Enter any notes for this donation (optional): " ;;
                let notes := PyStr.strip l6 in
                r <- execute (fun s =>
                                insert_donation s donor_id (Sql.bind_real amount)
                                  donation_date volunteer_id event_id notes) ;;
                match r with
                | inr lastrowid =>
                    emit (DonationRecorded amount donor_name lastrowid)
                | inl e => print ("Error adding donation: " ++ Sql.detail e)
                end
            end
      end
  end.

(** One row of the query of [search_donations]. *)
Record search_row : Type := mkSearchRow
  { sr_donation_id : Z;
    sr_donor_name : string;
    sr_amount : PyStr.pyfloat;
    sr_donation_date : string;
    sr_volunteer_name : option string;
    sr_event_name : option string;
    sr_notes : string }.

(** [FROM Donations d JOIN Donors dn ON d.donor_id = dn.donor_id
    LEFT JOIN Volunteers v ON d.volunteer_id = v.volunteer_id
    LEFT JOIN Events e ON d.event_id = e.event_id] for one donation: no row
    without its donor, [None] for a missing volunteer or event.  The joins
    are on primary keys, so a donation gives at most one row. *)
Definition join_donation (s : store) (d : donation) : option search_row :=
  match select_donor s (donation_donor_id d) with
  | None => None
  | Some dn =>
      Some (mkSearchRow
              (donation_id d) (donor_name dn) (amount d) (donation_date d)
              (match donation_volunteer_id d with
               | Some v => option_map volunteer_name (select_volunteer s v)
               | None => None
               end)
              (match donation_event_id d with
               | Some e => option_map event_name (select_event s e)
               | None => None
               end)
              (notes d))
  end.

Fixpoint joined_rows (s : store) (ds : list donation) : list search_row :=
  match ds with
  | [] => []
  | d :: ds' =>
      match join_donation s d with
      | Some r => r :: joined_rows s ds'
      | None => joined_rows s ds'
      end
  end.

(** [WHERE LOWER(col) LIKE LOWER(?)]; a NULL column never satisfies it. *)
Definition where_like (col : option string) (param : string) : bool :=
  match col with
  | Some n => Sql.like (Sql.lower param) (Sql.lower n)
  | None => false
  end.

(** The column the choice searches, [None] for an invalid choice. *)
Definition search_column (choice : string)
  : option (search_row -> option string) :=
  if (choice =? "1")%string then Some (fun r => Some (sr_donor_name r))
  else if (choice =? "2")%string then Some sr_volunteer_name
  else if (choice =? "3")%string then Some sr_event_name
  else None.

Definition search_title (choice search_term : string) : string :=
  (if (choice =? "1")%string then "Donations by Donor matching '"
   else if (choice =? "2")%string then "Donations by Volunteer matching '"
   else "Donations by Event matching '") ++ search_term ++ "'".

(** [... ORDER BY d.donation_date DESC]: the stored texts compared as SQLite
    compares TEXT, character by character. *)
Definition date_desc (a b : search_row) : bool :=
  String.leb (sr_donation_date b) (sr_donation_date a).

(** The rows of the query of [search_donations] with its [WHERE] and
    [ORDER BY]. *)
Definition search_query (s : store) (col : search_row -> option string)
  (search_term : string) : list search_row :=
  let params := "%" ++ search_term ++ "%" in
  sort_by date_desc
          (filter (fun r => where_like (col r) params)
                  (joined_rows s (Donations s))).

(** The query fails with [sqlite3.OperationalError] instead of giving its
    rows when [LIKE] refuses the pattern.  [LIKE] is run on every joined
    row, also where the column is NULL, so it takes a row for the query to
    fail. *)
Definition search_refused (s : store) (search_term : string) : bool :=
  let params := "%" ++ search_term ++ "%" in
  match joined_rows s (Donations s) with
  | [] => false
  | _ :: _ => Sql.like_refuses (Sql.lower params)
  end.

Definition opt_text (o : option string) : Sql.value :=
  match o with Some t => Sql.VText t | None => Sql.VNull end.

Definition search_values (r : search_row) : list Sql.value :=
  [Sql.VInt (sr_donation_id r); Sql.VText (sr_donor_name r);
   Sql.VReal (sr_amount r); Sql.VText (sr_donation_date r);
   opt_text (sr_volunteer_name r); opt_text (sr_event_name r);
   Sql.VText (sr_notes r)].

Definition search_headers : list string :=
  ["donation_id"; "donor_name"; "amount"; "donation_date";
   "volunteer_name"; "event_name"; "notes"].

Definition search_donations : io unit :=
  print (nl ++ "--- Search Donations ---") ;;
  print "Search by:" ;;
  print "1. Donor Name" ;;
  print "2. Volunteer Name" ;;
  print "3. Event Name" ;;
  choice <- input "Enter your choice (1-3): " ;;
  l1 <- input "Enter the name to search for: " ;;
  let search_term := PyStr.strip l1 in
  if negb (nonempty search_term) then
    print "Search term cannot be empty."
  else
    match search_column choice with
    | None => print "Invalid choice."
    | Some col =>
        s <- get_db ;;
        if search_refused s search_term then
          (* [except sqlite3.Error as e] *)
          print ("Error searching donations: "
                 ++ "LIKE or GLOB pattern too complex")
        else
          let results := search_query s col search_term in
          display_results search_headers (map search_values results)
                          (search_title choice search_term)
    end.

Definition display_menu : io unit :=
  print (nl ++ "--- Donor Management Menu ---") ;;
  print "1. Add Donor" ;;
  print "2. View All Donors" ;;
  print "3. Update Donor" ;;
  print "4. Delete Donor" ;;
  print "---------------------------" ;;
  print "5. Add Volunteer" ;;
  print "6. Add Event" ;;
  print "---------------------------" ;;
  print "7. Add Donation" ;;
  print "8. Search Donations" ;;
  print "---------------------------" ;;
  print "0. Exit" ;;
  print "---------------------------".

(** The [if]/[elif] chain of [main] for a choice other than ["0"]. *)
Definition menu_action (choice : string) : io unit :=
  if (choice =? "1")%string then add_donor
  else if (choice =? "2")%string then view_donors
  else if (choice =? "3")%string then update_donor
  else if (choice =? "4")%string then delete_donor
  else if (choice =? "5")%string then add_volunteer
  else if (choice =? "6")%string then add_event
  else if (choice =? "7")%string then add_donation
  else if (choice =? "8")%string then search_donations
  else print "Invalid choice. Please try again.".

(** The loop of [main], for at most [fuel] rounds: [true] when the program
    has exited through choice ["0"]. *)
Fixpoint main_loop (fuel : nat) : io bool :=
  match fuel with
  | O => ret false
  | S fuel' =>
      clear_screen ;;
      display_menu ;;
      choice <- input "Enter your choice: " ;;
      clear_screen ;;
      if (choice =? "0")%string then
        print "Exiting application." ;;
        ret true
      else
        menu_action choice ;;
        input (nl ++ "Press Enter to continue...") ;;
        main_loop fuel'
  end.

(** [main]: [create_tables] changes no existing table, then the loop. *)
Definition main (fuel : nat) : io bool :=
  print "Database tables checked/created successfully." ;;
  main_loop fuel.

(** The stores the program can leave behind: the empty store of a fresh
    file, and the store after any menu action run on a reachable store,
    whatever the input, the output so far and the clocks. *)
Inductive reachable : store -> Prop :=
| reachable_empty : reachable empty_store
| reachable_action (choice : string) (w : world) :
    reachable (db w) -> reachable (db (snd (menu_action choice w))).

(** Running an action on given input lines, with empty output so far. *)
Definition start (s : store) (lines : list string) (pnow snow : string)
  : world :=
  mkWorld s lines [] pnow snow.

Definition final_db {A : Type} (m : io A) (w : world) : store := db (snd (m w)).

Definition printed {A : Type} (m : io A) (w : world) : list message :=
  stdout (snd (m w)).

(** ** Notions the properties are stated with *)

(** What [find_id_by_name] returns, as a function of the store. *)
Definition resolve (s : store) (table_name column_name name_value : string)
  : option Z :=
  match id_name_rows s table_name column_name with
  | Some rows => option_map fst (find (name_matches name_value) rows)
  | None => None
  end.

(** Two characters that are equal, or the two cases of one of the 26
    letters. *)
Definition same_letter (c d : ascii) : bool :=
  (c =? d)%char
  || (PyStr.in_range 65 90 c && (PyStr.code d =? PyStr.code c + 32)%N)
  || (PyStr.in_range 65 90 d && (PyStr.code c =? PyStr.code d + 32)%N).

(** Equality of two names ignoring letter case: the same length, and the
    same letter at every position. *)
Fixpoint eq_ignoring_case (a b : string) : bool :=
  match a, b with
  | EmptyString, EmptyString => true
  | String c a', String d b' => same_letter c d && eq_ignoring_case a' b'
  | _, _ => false
  end.

(** Equality ignoring letter case in the words of the specification:
    every letter is folded, as [str.lower] folds it. *)
Definition eq_ignoring_letter_case (a b : string) : bool :=
  (PyStr.lower a =? PyStr.lower b)%string.

(** [t] occurs in [s] as a run of consecutive characters. *)
Definition occurs_in (t s : string) : Prop :=
  exists pre post : string, s = pre ++ t ++ post.

Fixpoint occurs_inb (t s : string) : bool :=
  String.prefix t s
  || match s with
     | EmptyString => false
     | String _ s' => occurs_inb t s'
     end.

(** A name contains a term as the search compares them: the term occurs
    in the name, read up to its first NUL character, once the letters
    [A]..[Z] of both are brought to lower case. *)
Definition contains_ci (term name : string) : bool :=
  occurs_inb (Sql.lower term) (Sql.lower (Sql.until_nul name)).

Definition column_contains (col : option string) (term : string) : bool :=
  match col with
  | Some n => contains_ci term n
  | None => false
  end.

(** The term has neither of the two wildcards of [LIKE]. *)
Fixpoint wildcard_free (t : string) : bool :=
  match t with
  | EmptyString => true
  | String c t' =>
      negb (c =? "%")%char && negb (c =? "_")%char && wildcard_free t'
  end.

(** The text has no NUL character. *)
Fixpoint nul_free (t : string) : bool :=
  match t with
  | EmptyString => true
  | String c t' => negb (PyStr.code c =? 0)%N && nul_free t'
  end.

(** A date answer that [add_donation] accepts: blank, or well-formed. *)
Definition date_accepted (line : string) : bool :=
  negb (nonempty (PyStr.strip line))
  || match PyTime.strptime (PyStr.strip line) "%Y-%m-%d %H:%M:%S" with
     | Some _ => true
     | None => false
     end.

(** The value [add_donation] stores as the donation date. *)
Definition date_stored (line now : string) : string :=
  if nonempty (PyStr.strip line) then PyStr.strip line else now.

(** An optional name of [add_donation]: looked up only when given. *)
Definition resolve_optional (s : store) (table_name column_name line : string)
  : option Z :=
  if nonempty (PyStr.strip line)
  then resolve s table_name column_name (PyStr.strip line)
  else None.

(** A name as the program stores it: not empty, no white space around. *)
Definition clean_name (n : string) : Prop :=
  n <> EmptyString /\ PyStr.strip n = n.

(** One statement that changes the store. *)
Inductive db_step (s : store) : store -> Prop :=
| step_insert_donor (name contact_info now : string) (s' : store) (id : Z) :
    clean_name name ->
    insert_donor s name contact_info now = SqlOk s' id ->
    db_step s s'
| step_update_donors (name contact_info : option string) (id : Z)
    (s' : store) (n : Z) :
    (forall x, name = Some x -> clean_name x) ->
    update_donors s name contact_info id = SqlOk s' n ->
    db_step s s'
| step_delete_from_Donors (id : Z) (s' : store) (n : Z) :
    delete_from_Donors s id = SqlOk s' n ->
    db_step s s'
| step_insert_volunteer (name contact_info : string) (s' : store) (id : Z) :
    clean_name name ->
    insert_volunteer s name contact_info = SqlOk s' id ->
    db_step s s'
| step_insert_event (name : string) (date : option string) (s' : store)
    (id : Z) :
    clean_name name ->
    insert_event s name date = SqlOk s' id ->
    db_step s s'
| step_insert_donation (donor : Z) (a : option PyStr.pyfloat) (date : string)
    (v e : option Z) (notes : string) (s' : store) (id : Z) :
    insert_donation s donor a date v e notes = SqlOk s' id ->
    db_step s s'.

(** Every donation references an existing donor. *)
Definition donors_exist (s : store) : Prop :=
  forall d, In d (Donations s) ->
            exists dn, In dn (Donors s) /\ donor_id dn = donation_donor_id d.

(** Every stored name is clean. *)
Definition names_clean (s : store) : Prop :=
  (forall d, In d (Donors s) -> clean_name (donor_name d))
  /\ (forall v, In v (Volunteers s) -> clean_name (volunteer_name v))
  /\ (forall e, In e (Events s) -> clean_name (event_name e)).

(** No two volunteers and no two events have the same name. *)
Definition names_unique (s : store) : Prop :=
  NoDup (map volunteer_name (Volunteers s))
  /\ NoDup (map event_name (Events s)).


(** All the characters, for facts checked character by character. *)
Definition all_chars : list ascii :=
  map (fun n => ascii_of_nat n) (seq 0 256).

(** A string that does not start with white space. *)
Definition starts_clean (s : string) : Prop :=
  match s with
  | EmptyString => True
  | String c _ => PyStr.isspace c = false
  end.

(** A line of white space only. *)
Fixpoint all_space (s : string) : bool :=
  match s with
  | EmptyString => true
  | String c s' => PyStr.isspace c && all_space s'
  end.

(** A string whose characters are all of one case already. *)
Definition lowered (s : string) : Prop := Sql.lower s = s.

(** The store [add_donation] leaves when all six prompts are answered. *)
Definition add_donation_result (s : store) (l1 l2 l3 l4 l5 l6 now : string)
  : store :=
  match resolve s "Donors" "donor" (PyStr.strip l1) with
  | None => s
  | Some id =>
      match PyStr.float l2 with
      | None => s
      | Some a =>
          if PyStr.fle a PyStr.fzero then s
          else if date_accepted l3 then
            match insert_donation s id (Sql.bind_real a) (date_stored l3 now)
                    (resolve_optional s "Volunteers" "volunteer" l4)
                    (resolve_optional s "Events" "event" l5)
                    (PyStr.strip l6) with
            | SqlOk s' _ => s'
            | SqlError _ => s
            end
          else s
      end
  end.

(** The stores and inputs the closed examples run on. *)
Definition ex_now : string := "2024-06-01 12:00:00".

Definition ex_world (s : store) (lines : list string) : world :=
  start s lines ex_now ex_now.

(** The store after donor Ada Lovelace is added to a fresh database. *)
Definition ex_store1 : store :=
  db (snd (menu_action "1" (ex_world empty_store ["Ada Lovelace"; "ada@example.org"]))).

(** ... and after a donation of 50.00 is added for "ada lovelace". *)
Definition ex_store2 : store :=
  db (snd (menu_action "7"
             (ex_world ex_store1 ["ada lovelace"; "50.00"; ""; ""; ""; "first"]))).

(** An action that stays among the reachable stores. *)
Definition keeps_reachable {A : Type} (m : io A) : Prop :=
  forall w, reachable (db w) -> reachable (db (snd (m w))).

(** ... after volunteer Bob, then the event Spring Gala, are added, and
    after a second donation, linked to both, is added. *)
Definition ex_store3 : store :=
  db (snd (menu_action "5" (ex_world ex_store2 ["Bob"; "bob@example.org"]))).

Definition ex_store4 : store :=
  db (snd (menu_action "6" (ex_world ex_store3 ["Spring Gala"; "2024-05-01"]))).

Definition ex_store5 : store :=
  db (snd (menu_action "7"
             (ex_world ex_store4
                ["Ada Lovelace"; "20"; "2024-05-01 18:30:00"; "bob";
                 "spring gala"; "at the gala"]))).

(** The store of the examples after a second donor, Grace Hopper, is added
    and a donation of hers is linked to the same volunteer and event. *)
Definition ex_store6 : store :=
  db (snd (menu_action "1" (ex_world ex_store5 ["Grace Hopper"; ""]))).

Definition ex_store7 : store :=
  db (snd (menu_action "7"
             (ex_world ex_store6
                ["grace hopper"; "15"; "2024-05-01 19:00:00"; "Bob";
                 "Spring Gala"; ""]))).

(** The names [Emile] and [emile] with an acute accent on the first letter,
    the capital (code point 201) and the small one (code point 233). *)
Definition name_Emile : string := String (ascii_of_N 201) "mile".
Definition name_emile : string := String (ascii_of_N 233) "mile".

(** The store after a donor of the first name is added to a fresh
    database, and after a donation of 5 is added for that donor. *)
Definition ex_store_emile1 : store :=
  db (snd (menu_action "1" (ex_world empty_store [name_Emile; ""]))).

Definition ex_store_emile2 : store :=
  db (snd (menu_action "7"
             (ex_world ex_store_emile1 [name_Emile; "5"; ""; ""; ""; ""]))).

(** The store after the volunteers [bob], then [Bob], are added to a fresh
    database. *)
Definition ex_store_bobs : store :=
  db (snd (menu_action "5"
             (ex_world
                (db (snd (menu_action "5" (ex_world empty_store ["bob"; ""]))))
                ["Bob"; ""]))).

(** A name contains a term case-insensitively in the words of the
    specification: the term occurs in the name once every letter of both
    is folded, as [str.lower] folds it. *)
Definition contains_ignoring_letter_case (term name : string) : bool :=
  occurs_inb (PyStr.lower term) (PyStr.lower name).

(** A search term that is one NUL character. *)
Definition nul_term : string := String (ascii_of_N 0) EmptyString.

(** A name of 49999 letters. *)
Definition long_name : string := N.iter 49999 (String "a") EmptyString.

(** The store after a donor of that name is added to a fresh database, and
    after a donation of 5 is added for that donor. *)
Definition ex_store_long1 : store :=
  db (snd (menu_action "1" (ex_world empty_store [long_name; ""]))).

Definition ex_store_long2 : store :=
  db (snd (menu_action "7"
             (ex_world ex_store_long1 [long_name; "5"; ""; ""; ""; ""]))).

(** The store after two donations are added for Ada Lovelace, the first
    dated 1 December 2024 and the second 5 February 2024, the month, the
    day and the time of the second entered without leading zeros. *)
Definition ex_store_dates1 : store :=
  db (snd (menu_action "7"
             (ex_world ex_store1
                ["Ada Lovelace"; "10"; "2024-12-01 00:00:00"; ""; "";
                 "december"]))).

Definition ex_store_dates2 : store :=
  db (snd (menu_action "7"
             (ex_world ex_store_dates1
                ["Ada Lovelace"; "10"; "2024-2-5 1:2:3"; ""; "";
                 "february"]))).

(** The line [search_donations] prints when the query fails. *)
Definition search_error_line : string :=
  "Error searching donations: LIKE or GLOB pattern too complex".

(** The store with one more donation. *)
Definition with_donation (s : store) (row : donation) : store :=
  mkStore (Donors s) (Volunteers s) (Events s) (Donations s ++ [row])%list
          (seq_Donors s) (seq_Volunteers s) (seq_Events s) (donation_id row).

(** The row [add_donation] inserts for accepted answers. *)
Definition new_donation (s : store) (id : Z) (a : PyStr.pyfloat)
  (l3 l4 l5 l6 now : string) : donation :=
  mkDonation (next_rowid (seq_Donations s) (map donation_id (Donations s)))
             id a (date_stored l3 now)
             (resolve_optional s "Volunteers" "volunteer" l4)
             (resolve_optional s "Events" "event" l5)
             (PyStr.strip l6).

(** ** Notions for the further properties *)

(** An event date as [add_event] lets it through: NULL, or a text that
    [strptime] accepts for [%Y-%m-%d]. *)
Definition event_date_ok (date : option string) : Prop :=
  match date with
  | None => True
  | Some d => d <> EmptyString /\ PyTime.strptime d "%Y-%m-%d" <> None
  end.

(** What one menu action does to the store: nothing, or one statement
    with the values the action binds to it. *)
Inductive action_step (s : store) : store -> Prop :=
| act_none : action_step s s
| act_add_donor (name contact_info now : string) (s' : store) (id : Z) :
    clean_name name ->
    insert_donor s name contact_info now = SqlOk s' id ->
    action_step s s'
| act_update_donor (name contact_info : option string) (id : Z)
    (s' : store) (n : Z) :
    select_donor s id <> None ->
    (forall x, name = Some x -> clean_name x) ->
    update_donors s name contact_info id = SqlOk s' n ->
    action_step s s'
| act_delete_donor (id : Z) (s' : store) (n : Z) :
    select_donor s id <> None ->
    delete_from_Donors s id = SqlOk s' n ->
    action_step s s'
| act_add_volunteer (name contact_info : string) (s' : store) (id : Z) :
    clean_name name ->
    insert_volunteer s name contact_info = SqlOk s' id ->
    action_step s s'
| act_add_event (name : string) (date : option string) (s' : store) (id : Z) :
    clean_name name ->
    event_date_ok date ->
    insert_event s name date = SqlOk s' id ->
    action_step s s'
| act_add_donation (donor : Z) (a : option PyStr.pyfloat) (date : string)
    (v e : option Z) (notes : string) (s' : store) (id : Z) :
    insert_donation s donor a date v e notes = SqlOk s' id ->
    action_step s s'.

(** The identifiers of a table are distinct, positive and at most the
    table's [sqlite_sequence] entry. *)
Definition keys_ok (ids : list Z) (seq : Z) : Prop :=
  NoDup ids /\ 0 <= seq /\ forall id, In id ids -> 1 <= id <= seq.

Definition primary_keys_ok (s : store) : Prop :=
  keys_ok (map donor_id (Donors s)) (seq_Donors s)
  /\ keys_ok (map volunteer_id (Volunteers s)) (seq_Volunteers s)
  /\ keys_ok (map event_id (Events s)) (seq_Events s)
  /\ keys_ok (map donation_id (Donations s)) (seq_Donations s).

(** Every donation has an amount greater than 0. *)
Definition amounts_positive (s : store) : Prop :=
  forall d, In d (Donations s) -> PyStr.flt PyStr.fzero (amount d) = true.

(** Every volunteer or event reference of a donation names a row. *)
Definition links_exist (s : store) : Prop :=
  forall d, In d (Donations s) ->
            references (select_volunteer s) (donation_volunteer_id d) = true
            /\ references (select_event s) (donation_event_id d) = true.

(** Every event date is NULL or a valid calendar date. *)
Definition event_dates_ok (s : store) : Prop :=
  forall e, In e (Events s) -> event_date_ok (event_date e).

(** The donors in the order [view_donors] lists them. *)
Definition donors_by_name (s : store) : list donor :=
  sort_by (fun a b => String.leb (donor_name a) (donor_name b)) (Donors s).

(** The lines of [display_menu]. *)
Definition menu_lines : list message :=
  [Text (nl ++ "--- Donor Management Menu ---");
   Text "1. Add Donor"; Text "2. View All Donors"; Text "3. Update Donor";
   Text "4. Delete Donor"; Text "---------------------------";
   Text "5. Add Volunteer"; Text "6. Add Event";
   Text "---------------------------";
   Text "7. Add Donation"; Text "8. Search Donations";
   Text "---------------------------"; Text "0. Exit";
   Text "---------------------------"].

(** A text laid out as a pattern says: a digit where the pattern has
    [d], the pattern's own character elsewhere. *)
Fixpoint fits_layout (pat s : string) : bool :=
  match pat, s with
  | EmptyString, EmptyString => true
  | String p pat', String c s' =>
      (if (p =? "d")%char then PyStr.isdigit c else (c =? p)%char)
      && fits_layout pat' s'
  | _, _ => false
  end.

(** A zero-padded timestamp, as [strftime('%Y-%m-%d %H:%M:%S')] writes
    it. *)
Definition padded_timestamp (s : string) : bool :=
  fits_layout "dddd-dd-dd dd:dd:dd" s.

(** The number of digits of a text, and the number its digits spell,
    other characters skipped: 20240501183000 for
    "2024-05-01 18:30:00". *)
Fixpoint digit_count (s : string) : Z :=
  match s with
  | EmptyString => 0
  | String c s' =>
      if PyStr.isdigit c then 1 + digit_count s' else digit_count s'
  end.

Fixpoint digits_number (s : string) : Z :=
  match s with
  | EmptyString => 0
  | String c s' =>
      if PyStr.isdigit c
      then PyStr.digit_val c * 10 ^ digit_count s' + digits_number s'
      else digits_number s'
  end.

(** ** Facts about the built-ins *)

Lemma all_chars_complete (c : ascii) : In c all_chars.
Proof.
  assert (H : existsb (Ascii.eqb c) all_chars = true).
  { destruct c as [[] [] [] [] [] [] [] []]; vm_compute; reflexivity. }
  apply existsb_exists in H. destruct H as [d [Hin Heq]].
  apply Ascii.eqb_eq in Heq. now subst.
Qed.

(** A boolean property of one character holds of all when it evaluates
    to [true] over the 256 of them. *)
Lemma by_chars (P : ascii -> bool) :
  forallb P all_chars = true -> forall c, P c = true.
Proof.
  intros H c. rewrite forallb_forall in H. apply H, all_chars_complete.
Qed.

Lemma by_chars2 (P : ascii -> ascii -> bool) :
  forallb (fun c => forallb (P c) all_chars) all_chars = true ->
  forall c d, P c d = true.
Proof.
  intros H c d.
  pose proof (by_chars _ H c) as Hc. cbv beta in Hc.
  exact (by_chars _ Hc d).
Qed.

Lemma lower_char_same_letter (c d : ascii) :
  (Sql.lower_char c =? Sql.lower_char d)%char = same_letter c d.
Proof.
  apply eqb_prop.
  exact (by_chars2
           (fun c d => Bool.eqb (Sql.lower_char c =? Sql.lower_char d)%char
                                (same_letter c d))
           ltac:(vm_compute; reflexivity) c d).
Qed.

Lemma lower_char_idem (c : ascii) :
  Sql.lower_char (Sql.lower_char c) = Sql.lower_char c.
Proof.
  apply Ascii.eqb_eq.
  exact (by_chars (fun c => (Sql.lower_char (Sql.lower_char c)
                             =? Sql.lower_char c)%char)
                  ltac:(vm_compute; reflexivity) c).
Qed.

Lemma lower_char_percent (c : ascii) :
  (Sql.lower_char c =? "%")%char = (c =? "%")%char.
Proof.
  apply eqb_prop.
  exact (by_chars (fun c => Bool.eqb (Sql.lower_char c =? "%")%char
                                     (c =? "%")%char)
                  ltac:(vm_compute; reflexivity) c).
Qed.

Lemma lower_char_underscore (c : ascii) :
  (Sql.lower_char c =? "_")%char = (c =? "_")%char.
Proof.
  apply eqb_prop.
  exact (by_chars (fun c => Bool.eqb (Sql.lower_char c =? "_")%char
                                     (c =? "_")%char)
                  ltac:(vm_compute; reflexivity) c).
Qed.

Lemma sql_lower_eq_iff (a b : string) :
  Sql.lower a = Sql.lower b <-> eq_ignoring_case a b = true.
Proof.
  revert b. induction a as [|c a IH]; intros [|d b]; simpl;
    try (split; (discriminate || reflexivity)).
  rewrite andb_true_iff, <- IH, <- lower_char_same_letter, Ascii.eqb_eq.
  split.
  - intros H. injection H as H1 H2. now split.
  - intros [H1 H2]. now f_equal.
Qed.

(** *** [strip] *)

Lemma lstrip_starts_clean (s : string) : starts_clean (PyStr.lstrip s).
Proof.
  induction s as [|c s IH]; simpl; [exact I|].
  destruct (PyStr.isspace c) eqn:E; [exact IH | exact E].
Qed.

Lemma lstrip_fixed (s : string) : starts_clean s -> PyStr.lstrip s = s.
Proof.
  destruct s as [|c s]; simpl; intros H; [reflexivity | now rewrite H].
Qed.

Lemma rstrip_starts_clean (s : string) :
  starts_clean s -> starts_clean (PyStr.rstrip s).
Proof.
  destruct s as [|c s]; simpl; intros H; [exact I|].
  destruct (PyStr.rstrip s); [rewrite H|]; exact H.
Qed.

Lemma rstrip_idem (s : string) :
  PyStr.rstrip (PyStr.rstrip s) = PyStr.rstrip s.
Proof.
  induction s as [|c s IH]; simpl; [reflexivity|].
  destruct (PyStr.rstrip s) as [|d r] eqn:E.
  - destruct (PyStr.isspace c) eqn:Ec; simpl; [reflexivity | now rewrite Ec].
  - change (PyStr.rstrip (String c (String d r))) with
      (match PyStr.rstrip (String d r) with
       | EmptyString =>
           if PyStr.isspace c then EmptyString else String c EmptyString
       | x => String c x
       end).
    now rewrite IH.
Qed.

Lemma strip_idem (s : string) : PyStr.strip (PyStr.strip s) = PyStr.strip s.
Proof.
  unfold PyStr.strip.
  rewrite (lstrip_fixed (PyStr.rstrip (PyStr.lstrip s))).
  - apply rstrip_idem.
  - apply rstrip_starts_clean, lstrip_starts_clean.
Qed.

Lemma nonempty_false (s : string) : nonempty s = false <-> s = EmptyString.
Proof. destruct s; simpl; split; congruence. Qed.

Lemma nonempty_true (s : string) : nonempty s = true <-> s <> EmptyString.
Proof. destruct s; simpl; split; congruence. Qed.

Lemma strip_clean (l : string) :
  nonempty (PyStr.strip l) = true -> clean_name (PyStr.strip l).
Proof.
  intros H. split; [now apply nonempty_true | apply strip_idem].
Qed.

Lemma strip_all_space (s : string) :
  all_space s = true <-> PyStr.strip s = EmptyString.
Proof.
  unfold PyStr.strip. induction s as [|c s IH]; simpl.
  - split; reflexivity.
  - destruct (PyStr.isspace c) eqn:E; simpl; [exact IH|].
    split; [discriminate|].
    destruct (PyStr.rstrip s); rewrite ?E; discriminate.
Qed.

(** *** [LIKE] and occurrence *)

Lemma prefix_append (t s : string) :
  String.prefix t s = true <-> exists post, s = t ++ post.
Proof.
  revert s. induction t as [|c t IH]; intros s.
  - split; [intros _; now exists s | destruct s; reflexivity].
  - destruct s as [|d s]; simpl;
      [split; [discriminate | intros [p Hp]; discriminate]|].
    destruct (ascii_dec c d) as [->|Hne].
    + rewrite IH. split; intros [p Hp]; exists p; congruence.
    + split; [discriminate | intros [p Hp]; congruence].
Qed.

Lemma occurs_inb_spec (t s : string) :
  occurs_inb t s = true <-> occurs_in t s.
Proof.
  unfold occurs_in. induction s as [|d s IH].
  - unfold occurs_inb. rewrite orb_false_r, prefix_append. split.
    + intros [post H]. now exists EmptyString, post.
    + intros [[|c pre] [post H]]; [now exists post | discriminate].
  - change (occurs_inb t (String d s))
      with (String.prefix t (String d s) || occurs_inb t s).
    rewrite orb_true_iff, IH, prefix_append. split.
    + intros [[post H] | [pre [post H]]].
      * now exists EmptyString, post.
      * exists (String d pre), post. simpl. now rewrite H.
    + intros [[|c pre] [post H]].
      * left. now exists post.
      * right. exists pre, post. simpl in H. congruence.
Qed.

Lemma lowered_lower (s : string) : lowered (Sql.lower s).
Proof.
  unfold lowered. induction s as [|c s IH]; simpl; [reflexivity|].
  rewrite lower_char_idem. f_equal. exact IH.
Qed.

Lemma lowered_cons (c : ascii) (s : string) :
  lowered (String c s) -> Sql.lower_char c = c /\ lowered s.
Proof. unfold lowered. simpl. intros H. injection H as H1 H2. now split. Qed.

Lemma wildcard_free_lower (t : string) :
  wildcard_free (Sql.lower t) = wildcard_free t.
Proof.
  induction t as [|c t IH]; simpl; [reflexivity|].
  now rewrite lower_char_percent, lower_char_underscore, IH.
Qed.

Lemma like_percent (p s : string) :
  Sql.like_chars (String "%" p) s
  = Sql.like_chars p s
    || match s with
       | EmptyString => false
       | String _ s' => Sql.like_chars (String "%" p) s'
       end.
Proof. destruct s; reflexivity. Qed.

Lemma like_percent_end (s : string) : Sql.like_chars "%" s = true.
Proof.
  induction s as [|d s IH]; [reflexivity|].
  rewrite like_percent, IH. apply orb_true_r.
Qed.

(** A pattern without wildcards followed by [%] matches the strings it is
    a prefix of. *)
Lemma like_literal_prefix (t s : string) :
  wildcard_free t = true -> lowered t -> lowered s ->
  Sql.like_chars (t ++ "%") s = String.prefix t s.
Proof.
  revert s. induction t as [|c t IH]; intros s Hw Ht Hs.
  - change (EmptyString ++ "%") with "%". rewrite like_percent_end.
    destruct s; reflexivity.
  - simpl in Hw. apply andb_true_iff in Hw. destruct Hw as [Hw Hw3].
    apply andb_true_iff in Hw. destruct Hw as [Hw1 Hw2].
    apply negb_true_iff in Hw1, Hw2.
    apply lowered_cons in Ht. destruct Ht as [Hc Ht].
    simpl. rewrite Hw1, Hw2.
    destruct s as [|d s]; [reflexivity|].
    apply lowered_cons in Hs. destruct Hs as [Hd Hs].
    rewrite Hc, Hd, (IH s Hw3 Ht Hs).
    simpl (String.prefix (String c t) (String d s)).
    destruct (ascii_dec c d) as [->|Hne].
    + now rewrite Ascii.eqb_refl.
    + apply Ascii.eqb_neq in Hne. now rewrite Hne.
Qed.

(** The pattern [%t%] for a term without wildcards matches where the term
    occurs. *)
Lemma like_contains (t s : string) :
  wildcard_free t = true -> lowered t -> lowered s ->
  Sql.like_chars ("%" ++ t ++ "%") s = occurs_inb t s.
Proof.
  intros Hw Ht. induction s as [|d s IH]; intros Hs.
  - change ("%" ++ t ++ "%") with (String "%" (t ++ "%")).
    rewrite like_percent, like_literal_prefix by assumption. reflexivity.
  - change ("%" ++ t ++ "%") with (String "%" (t ++ "%")) in *.
    rewrite like_percent, like_literal_prefix by assumption.
    apply lowered_cons in Hs. destruct Hs as [_ Hs].
    rewrite (IH Hs). reflexivity.
Qed.

Lemma lower_append (a b : string) :
  Sql.lower (a ++ b) = Sql.lower a ++ Sql.lower b.
Proof. induction a as [|c a IH]; simpl; [reflexivity | now rewrite IH]. Qed.

(** [LOWER] keeps a NUL character and makes none. *)
Lemma lower_char_nul (c : ascii) :
  (PyStr.code (Sql.lower_char c) =? 0)%N = (PyStr.code c =? 0)%N.
Proof.
  apply eqb_prop.
  exact (by_chars (fun c => Bool.eqb (PyStr.code (Sql.lower_char c) =? 0)%N
                                     (PyStr.code c =? 0)%N)
                  ltac:(vm_compute; reflexivity) c).
Qed.

Lemma until_nul_lower (s : string) :
  Sql.until_nul (Sql.lower s) = Sql.lower (Sql.until_nul s).
Proof.
  induction s as [|c s IH]; [reflexivity|].
  change (Sql.lower (String c s))
    with (String (Sql.lower_char c) (Sql.lower s)).
  cbn [Sql.until_nul]. rewrite lower_char_nul.
  destruct (PyStr.code c =? 0)%N; [reflexivity|].
  rewrite IH. reflexivity.
Qed.

Lemma nul_free_lower (s : string) : nul_free (Sql.lower s) = nul_free s.
Proof.
  induction s as [|c s IH]; [reflexivity|].
  change (Sql.lower (String c s))
    with (String (Sql.lower_char c) (Sql.lower s)).
  cbn [nul_free]. now rewrite lower_char_nul, IH.
Qed.

(** Where the first part has a NUL the text ends in it; otherwise it ends
    in the second part. *)
Lemma until_nul_append (a b : string) :
  Sql.until_nul (a ++ b)
  = if nul_free a then a ++ Sql.until_nul b else Sql.until_nul a.
Proof.
  induction a as [|c a IH]; [reflexivity|].
  change (String c a ++ b) with (String c (a ++ b)).
  cbn [Sql.until_nul nul_free].
  destruct (PyStr.code c =? 0)%N; [reflexivity|].
  cbn [negb andb]. rewrite IH.
  destruct (nul_free a); reflexivity.
Qed.

Lemma until_nul_free (s : string) :
  nul_free s = true -> Sql.until_nul s = s.
Proof.
  induction s as [|c s IH]; [reflexivity|].
  cbn [Sql.until_nul nul_free]. intros H.
  apply andb_true_iff in H. destruct H as [H1 H2].
  apply negb_true_iff in H1. rewrite H1, (IH H2). reflexivity.
Qed.

(** The pattern of the search as [LIKE] reads it, for a term without NUL. *)
Lemma pattern_until_nul (t : string) :
  nul_free t = true ->
  Sql.until_nul (Sql.lower ("%" ++ t ++ "%")) = "%" ++ Sql.lower t ++ "%".
Proof.
  intros H. rewrite !lower_append.
  change (Sql.lower "%") with "%".
  change ("%" ++ Sql.lower t ++ "%") with (String "%" (Sql.lower t ++ "%")).
  change (Sql.until_nul (String "%" (Sql.lower t ++ "%")))
    with (String "%" (Sql.until_nul (Sql.lower t ++ "%"))).
  rewrite until_nul_append, nul_free_lower, H. reflexivity.
Qed.

(** The [WHERE] clause of the search, for a term without wildcards and
    without NUL. *)
Lemma where_like_contains (col : option string) (term : string) :
  wildcard_free term = true ->
  nul_free term = true ->
  where_like col ("%" ++ term ++ "%") = column_contains col term.
Proof.
  intros Hw Hz. destruct col as [n|]; [|reflexivity].
  unfold where_like, column_contains, contains_ci, Sql.like.
  rewrite (pattern_until_nul term Hz), until_nul_lower.
  apply like_contains.
  - now rewrite wildcard_free_lower.
  - apply lowered_lower.
  - apply lowered_lower.
Qed.

(** *** Sorting *)

Lemma insert_by_perm {A : Type} (le : A -> A -> bool) (x : A) (l : list A) :
  Permutation (x :: l) (insert_by le x l).
Proof.
  induction l as [|y l IH]; simpl; [apply Permutation_refl|].
  destruct (le x y); [apply Permutation_refl|].
  eapply perm_trans; [apply perm_swap | now apply perm_skip].
Qed.

Lemma sort_by_perm {A : Type} (le : A -> A -> bool) (l : list A) :
  Permutation l (sort_by le l).
Proof.
  induction l as [|x l IH]; simpl; [apply perm_nil|].
  eapply perm_trans; [apply perm_skip, IH | apply insert_by_perm].
Qed.

Lemma sort_by_In {A : Type} (le : A -> A -> bool) (l : list A) (x : A) :
  In x (sort_by le l) <-> In x l.
Proof.
  split; intros H.
  - exact (Permutation_in _ (Permutation_sym (sort_by_perm le l)) H).
  - exact (Permutation_in _ (sort_by_perm le l) H).
Qed.

Section Sorting.

Variable A : Type.
Variable le : A -> A -> bool.
Hypothesis le_total : forall x y, le x y = true \/ le y x = true.
Hypothesis le_trans :
  forall x y z, le x y = true -> le y z = true -> le x z = true.

Let R (x y : A) : Prop := le x y = true.

Lemma insert_by_sorted (x : A) (l : list A) :
  StronglySorted R l -> StronglySorted R (insert_by le x l).
Proof.
  induction 1 as [|y l Hs IH Hall]; simpl.
  - constructor; constructor.
  - destruct (le x y) eqn:E.
    + constructor; [now constructor|].
      constructor; [exact E|].
      eapply Forall_impl; [|exact Hall].
      intros z Hz. exact (le_trans _ _ _ E Hz).
    + constructor; [exact IH|].
      assert (Hyx : R y x).
      { destruct (le_total x y) as [H|H]; [congruence | exact H]. }
      eapply Permutation_Forall; [apply insert_by_perm|].
      now constructor.
Qed.

Lemma sort_by_sorted (l : list A) : StronglySorted R (sort_by le l).
Proof.
  induction l as [|x l IH]; simpl; [constructor | now apply insert_by_sorted].
Qed.

End Sorting.

Lemma string_leb_trans (a b c : string) :
  String.leb a b = true -> String.leb b c = true -> String.leb a c = true.
Proof.
  revert b c. induction a as [|x a IH]; intros [|y b] [|z c];
    try reflexivity; try discriminate.
  unfold String.leb in *. simpl. unfold Ascii.compare.
  destruct (N.compare_spec (N_of_ascii x) (N_of_ascii y)) as [E1|L1|G1];
    destruct (N.compare_spec (N_of_ascii y) (N_of_ascii z)) as [E2|L2|G2];
    destruct (N.compare_spec (N_of_ascii x) (N_of_ascii z)) as [E3|L3|G3];
    try reflexivity; try discriminate; try lia.
  apply IH.
Qed.

Lemma date_desc_total (x y : search_row) :
  date_desc x y = true \/ date_desc y x = true.
Proof. unfold date_desc. apply String.leb_total. Qed.

Lemma date_desc_trans (x y z : search_row) :
  date_desc x y = true -> date_desc y z = true -> date_desc x z = true.
Proof.
  unfold date_desc. intros H1 H2. exact (string_leb_trans _ _ _ H2 H1).
Qed.

(** ** Facts about the operations *)

Ltac io_unfold :=
  unfold final_db, printed, find_id_by_name, bind_int in *;
  unfold bind, print, emit, input, ret, raise, execute,
    get_db, get_py_now, get_sql_now in *.

Lemma find_id_by_name_resolve (t c n : string) (w : world) :
  fst (find_id_by_name t c n w) = Ret (resolve (db w) t c n)
  /\ db (snd (find_id_by_name t c n w)) = db w
  /\ stdin (snd (find_id_by_name t c n w)) = stdin w.
Proof.
  unfold resolve. io_unfold.
  destruct (id_name_rows (db w) t c); repeat split; reflexivity.
Qed.

Lemma add_donor_step (w : world) :
  final_db add_donor w = db w \/ db_step (db w) (final_db add_donor w).
Proof.
  destruct w as [s inp out pn sn]. unfold add_donor. io_unfold. simpl.
  destruct inp as [|l1 [|l2 rest]]; simpl; auto.
  destruct (nonempty (PyStr.strip l1)) eqn:E; simpl; auto.
  right. eapply step_insert_donor; [apply strip_clean, E | reflexivity].
Qed.

Lemma update_donor_step (w : world) :
  final_db update_donor w = db w \/ db_step (db w) (final_db update_donor w).
Proof.
  destruct w as [s inp out pn sn]. unfold update_donor. io_unfold. simpl.
  destruct inp as [|l0 inp]; simpl; auto.
  destruct (PyStr.int l0) as [n|]; simpl; auto.
  destruct (Sql.fits_int64 n); simpl; auto.
  destruct (select_donor s n) as [d|]; simpl; auto.
  destruct inp as [|l1 [|l2 rest]]; simpl; auto.
  destruct (nonempty (PyStr.strip l1)) eqn:E1;
    destruct (nonempty (PyStr.strip l2)) eqn:E2; simpl; auto;
    destruct (0 <? _); simpl; right;
    (eapply step_update_donors; [|reflexivity]);
    intros x Hx; inversion Hx; subst; now apply strip_clean.
Qed.

Lemma delete_donor_step (w : world) :
  final_db delete_donor w = db w \/ db_step (db w) (final_db delete_donor w).
Proof.
  destruct w as [s inp out pn sn]. unfold delete_donor. io_unfold. simpl.
  destruct inp as [|l0 inp]; simpl; auto.
  destruct (PyStr.int l0) as [n|]; simpl; auto.
  destruct (Sql.fits_int64 n); simpl; auto.
  destruct (select_donor s n) as [d|]; simpl; auto.
  destruct inp as [|l1 rest]; simpl; auto.
  destruct (PyStr.lower l1 =? "yes")%string; simpl; auto.
  destruct (0 <? _); simpl; right;
    eapply step_delete_from_Donors; reflexivity.
Qed.

Lemma add_volunteer_step (w : world) :
  final_db add_volunteer w = db w \/ db_step (db w) (final_db add_volunteer w).
Proof.
  destruct w as [s inp out pn sn]. unfold add_volunteer. io_unfold. simpl.
  destruct inp as [|l1 [|l2 rest]]; simpl; auto.
  destruct (nonempty (PyStr.strip l1)) eqn:E; simpl; auto.
  destruct (insert_volunteer s (PyStr.strip l1) (PyStr.strip l2)) as [s' id|e] eqn:Ei;
    simpl.
  - right. eapply step_insert_volunteer; [apply strip_clean, E | exact Ei].
  - destruct (Sql.is_integrity e); simpl; auto.
Qed.

Lemma add_event_step (w : world) :
  final_db add_event w = db w \/ db_step (db w) (final_db add_event w).
Proof.
  destruct w as [s inp out pn sn]. unfold add_event. io_unfold. simpl.
  destruct inp as [|l1 [|l2 rest]]; simpl; auto.
  destruct (nonempty (PyStr.strip l1)) eqn:E; simpl; auto.
  match goal with |- context [if ?b then _ else _] => destruct b end;
    simpl; auto.
  match goal with
  | |- context [insert_event ?a ?b ?c] =>
      destruct (insert_event a b c) as [s' id|e] eqn:Ei
  end; simpl.
  - right. eapply step_insert_event; [apply strip_clean, E | exact Ei].
  - destruct (Sql.is_integrity e); simpl; auto.
Qed.

Lemma view_donors_db (w : world) : final_db view_donors w = db w.
Proof.
  destruct w as [s inp out pn sn]. unfold view_donors, display_results.
  io_unfold. simpl.
  destruct (map donor_values _); reflexivity.
Qed.

Lemma search_donations_db (w : world) : final_db search_donations w = db w.
Proof.
  destruct w as [s inp out pn sn]. unfold search_donations, display_results.
  io_unfold. simpl.
  destruct inp as [|l0 [|l1 rest]]; simpl; auto.
  destruct (nonempty (PyStr.strip l1)); simpl; auto.
  destruct (search_column l0); simpl; auto.
  destruct (search_refused s (PyStr.strip l1)); [reflexivity|].
  destruct (map search_values _); reflexivity.
Qed.

Ltac crunch_lhs :=
  repeat
    (simpl;
     match goal with
     | |- ?L = _ =>
         match L with
         | context [nonempty (PyStr.strip ?l)] =>
             destruct (nonempty (PyStr.strip l)) eqn:?
         | context [PyTime.strptime ?a ?b] =>
             destruct (PyTime.strptime a b) eqn:?
         | context [find ?f ?l] => destruct (find f l) as [[? ?]|] eqn:?
         | context [insert_donation ?a ?b ?c ?d ?e ?f ?g] =>
             destruct (insert_donation a b c d e f g) eqn:?
         end
     end).

Lemma add_donation_db (s : store) (l1 l2 l3 l4 l5 l6 : string)
  (rest : list string) (out : list message) (pn sn : string) :
  final_db add_donation
    (mkWorld s (l1 :: l2 :: l3 :: l4 :: l5 :: l6 :: rest) out pn sn)
  = add_donation_result s l1 l2 l3 l4 l5 l6 pn.
Proof.
  unfold add_donation, add_donation_result, resolve_optional, resolve,
    date_accepted, date_stored.
  io_unfold. cbv beta iota zeta. simpl.
  destruct (find (name_matches (PyStr.strip l1)) _) as [[id nm]|]; simpl; auto.
  destruct (PyStr.float l2) as [a|]; simpl; auto.
  destruct (PyStr.fle a PyStr.fzero); simpl; auto.
  crunch_lhs; reflexivity.
Qed.

Ltac crunch_goal :=
  repeat
    (simpl;
     match goal with
     | |- context [nonempty (PyStr.strip ?l)] =>
         destruct (nonempty (PyStr.strip l)) eqn:?
     | |- context [PyTime.strptime ?a ?b] =>
         destruct (PyTime.strptime a b) eqn:?
     | |- context [PyStr.float ?a] => destruct (PyStr.float a) eqn:?
     | |- context [PyStr.fle ?a ?b] => destruct (PyStr.fle a b) eqn:?
     | |- context [find ?f ?l] => destruct (find f l) as [[? ?]|] eqn:?
     end).

(** When the input ends before the six prompts are answered, nothing is
    inserted. *)
Lemma add_donation_short (w : world) :
  (List.length (stdin w) < 6)%nat -> final_db add_donation w = db w.
Proof.
  destruct w as [s inp out pn sn]. simpl. intros Hlen.
  unfold add_donation. io_unfold. cbv beta iota zeta.
  destruct inp as [|l1 [|l2 [|l3 [|l4 [|l5 [|l6 rest]]]]]];
    try (simpl in Hlen; lia); crunch_goal; reflexivity.
Qed.

Lemma add_donation_result_step (s : store) (l1 l2 l3 l4 l5 l6 now : string) :
  add_donation_result s l1 l2 l3 l4 l5 l6 now = s
  \/ db_step s (add_donation_result s l1 l2 l3 l4 l5 l6 now).
Proof.
  unfold add_donation_result.
  destruct (resolve s "Donors" "donor" (PyStr.strip l1)); auto.
  destruct (PyStr.float l2); auto.
  destruct (PyStr.fle _ _); auto.
  destruct (date_accepted l3); auto.
  destruct (insert_donation _ _ _ _ _ _ _) eqn:E; auto.
  right. eapply step_insert_donation. exact E.
Qed.

Lemma add_donation_step (w : world) :
  final_db add_donation w = db w \/ db_step (db w) (final_db add_donation w).
Proof.
  destruct (Nat.lt_ge_cases (List.length (stdin w)) 6) as [Hlt|Hge].
  - left. now apply add_donation_short.
  - destruct w as [s inp out pn sn].
    destruct inp as [|l1 [|l2 [|l3 [|l4 [|l5 [|l6 rest]]]]]];
      try (simpl in Hge; lia).
    rewrite add_donation_db. apply add_donation_result_step.
Qed.

Lemma print_db (t : string) (w : world) : final_db (print t) w = db w.
Proof. reflexivity. Qed.

(** Every menu action leaves the store as it was or changes it by one
    statement. *)
Lemma menu_action_step (choice : string) (w : world) :
  final_db (menu_action choice) w = db w
  \/ db_step (db w) (final_db (menu_action choice) w).
Proof.
  unfold menu_action.
  repeat match goal with
         | |- context [if ?b then _ else _] => destruct b
         end.
  - apply add_donor_step.
  - left. apply view_donors_db.
  - apply update_donor_step.
  - apply delete_donor_step.
  - apply add_volunteer_step.
  - apply add_event_step.
  - apply add_donation_step.
  - left. apply search_donations_db.
  - left. apply print_db.
Qed.

(** A property of stores that holds of the empty store and that every
    statement preserves holds of every reachable store. *)
Lemma reachable_ind_step (P : store -> Prop) :
  P empty_store ->
  (forall s s', P s -> db_step s s' -> P s') ->
  forall s, reachable s -> P s.
Proof.
  intros H0 Hstep s Hr. induction Hr as [|choice w Hr IH]; [exact H0|].
  destruct (menu_action_step choice w) as [E|E]; unfold final_db in E.
  - now rewrite E.
  - exact (Hstep _ _ IH E).
Qed.

(** *** The invariants *)

Lemma select_donor_some (s : store) (id : Z) :
  (exists dn, In dn (Donors s) /\ donor_id dn = id)
  <-> select_donor s id <> None.
Proof.
  unfold select_donor. split.
  - intros [dn [Hin Hid]] Hnone.
    apply (find_none _ _ Hnone) in Hin. simpl in Hin. lia.
  - destruct (find _ _) as [dn|] eqn:E; [intros _|congruence].
    apply find_some in E. destruct E as [Hin Hid].
    exists dn. split; [exact Hin | lia].
Qed.

Lemma donors_exist_step (s s' : store) :
  donors_exist s -> db_step s s' -> donors_exist s'.
Proof.
  unfold donors_exist. intros H Hs.
  destruct Hs as [name c now s' id _ E | name c id s' n _ E | id s' n E
                 | name c s' id _ E | name dt s' id _ E
                 | dn a dt v e nt s' id E].
  - injection E as <- _. simpl. intros d Hd.
    destruct (H d Hd) as [x [Hx1 Hx2]]. exists x. split; [|exact Hx2].
    apply in_or_app. now left.
  - injection E as <- _. simpl. intros d Hd.
    destruct (H d Hd) as [x [Hx1 Hx2]].
    exists (if donor_id x =? id then set_donor name c x else x). split.
    + apply in_map_iff. exists x. now split.
    + destruct (donor_id x =? id); exact Hx2.
  - injection E as <- _. simpl. intros d Hd.
    apply filter_In in Hd. destruct Hd as [Hd Hne].
    destruct (H d Hd) as [x [Hx1 Hx2]]. exists x. split; [|exact Hx2].
    apply filter_In. split; [exact Hx1|]. now rewrite Hx2.
  - unfold insert_volunteer in E. destruct (existsb _ _); [discriminate|].
    injection E as <- _. simpl. exact H.
  - unfold insert_event in E. destruct (existsb _ _); [discriminate|].
    injection E as <- _. simpl. exact H.
  - unfold insert_donation in E. destruct a as [a|]; [|discriminate].
    destruct (negb _); [discriminate|].
    destruct (references (select_donor s) (Some dn) && _ && _) eqn:R;
      [|discriminate].
    injection E as <- _. simpl. intros d Hd.
    apply in_app_or in Hd. destruct Hd as [Hd|[<-|[]]]; [now apply H|].
    simpl. apply select_donor_some.
    apply andb_true_iff in R. destruct R as [R _].
    apply andb_true_iff in R. destruct R as [R _].
    unfold references in R. destruct (select_donor s dn); congruence.
Qed.

Theorem reachable_donors_exist (s : store) : reachable s -> donors_exist s.
Proof.
  apply reachable_ind_step.
  - intros d [].
  - apply donors_exist_step.
Qed.

Lemma names_clean_step (s s' : store) :
  names_clean s -> db_step s s' -> names_clean s'.
Proof.
  unfold names_clean. intros [Hd [Hv He]] Hs.
  destruct Hs as [name c now s' id Hc E | name c id s' n Hc E | id s' n E
                 | name c s' id Hc E | name dt s' id Hc E
                 | dn a dt v e nt s' id E].
  - injection E as <- _. simpl. split; [|split]; auto.
    intros d Hin. apply in_app_or in Hin.
    destruct Hin as [Hin|[<-|[]]]; [now apply Hd | exact Hc].
  - injection E as <- _. simpl. split; [|split]; auto.
    intros d Hin. apply in_map_iff in Hin. destruct Hin as [x [<- Hx]].
    destruct (donor_id x =? id); [|now apply Hd].
    unfold set_donor. simpl. destruct name as [x'|]; [now apply Hc | now apply Hd].
  - injection E as <- _. simpl. split; [|split]; auto.
    intros d Hin. apply filter_In in Hin. now apply Hd.
  - unfold insert_volunteer in E. destruct (existsb _ _); [discriminate|].
    injection E as <- _. simpl. split; [|split]; auto.
    intros x Hin. apply in_app_or in Hin.
    destruct Hin as [Hin|[<-|[]]]; [now apply Hv | exact Hc].
  - unfold insert_event in E. destruct (existsb _ _); [discriminate|].
    injection E as <- _. simpl. split; [|split]; auto.
    intros x Hin. apply in_app_or in Hin.
    destruct Hin as [Hin|[<-|[]]]; [now apply He | exact Hc].
  - unfold insert_donation in E. destruct a as [a|]; [|discriminate].
    destruct (negb _); [discriminate|].
    destruct (_ && _); [|discriminate].
    injection E as <- _. simpl. split; [|split]; auto.
Qed.

Lemma reachable_names_clean (s : store) : reachable s -> names_clean s.
Proof.
  apply reachable_ind_step.
  - split; [|split]; intros x [].
  - apply names_clean_step.
Qed.

Lemma NoDup_snoc {A : Type} (l : list A) (x : A) :
  NoDup l -> ~ In x l -> NoDup (l ++ [x]).
Proof.
  intros Hl Hx. apply NoDup_app; [exact Hl | repeat constructor; intros [] |].
  intros a Ha [<-|[]]. contradiction.
Qed.

Lemma existsb_name_false {A : Type} (f : A -> string) (name : string)
  (l : list A) :
  existsb (fun r => (f r =? name)%string) l = false <-> ~ In name (map f l).
Proof.
  induction l as [|r l IH]; simpl.
  - split; [intros _ [] | reflexivity].
  - rewrite orb_false_iff, IH, String.eqb_neq. tauto.
Qed.

Lemma names_unique_step (s s' : store) :
  names_unique s -> db_step s s' -> names_unique s'.
Proof.
  unfold names_unique. intros [Hv He] Hs.
  destruct Hs as [name c now s' id Hc E | name c id s' n Hc E | id s' n E
                 | name c s' id Hc E | name dt s' id Hc E
                 | dn a dt v e nt s' id E].
  - injection E as <- _. simpl. now split.
  - injection E as <- _. simpl. now split.
  - injection E as <- _. simpl. now split.
  - unfold insert_volunteer in E.
    destruct (existsb _ _) eqn:X; [discriminate|].
    injection E as <- _. simpl. split; [|exact He].
    rewrite map_app. simpl. apply NoDup_snoc; [exact Hv|].
    now apply existsb_name_false.
  - unfold insert_event in E.
    destruct (existsb _ _) eqn:X; [discriminate|].
    injection E as <- _. simpl. split; [exact Hv|].
    rewrite map_app. simpl. apply NoDup_snoc; [exact He|].
    now apply existsb_name_false.
  - unfold insert_donation in E. destruct a as [a|]; [|discriminate].
    destruct (negb _); [discriminate|].
    destruct (_ && _); [|discriminate].
    injection E as <- _. simpl. now split.
Qed.

Lemma reachable_names_unique (s : store) : reachable s -> names_unique s.
Proof.
  apply reachable_ind_step.
  - split; constructor.
  - apply names_unique_step.
Qed.

Lemma keeps_ret {A : Type} (a : A) : keeps_reachable (ret a).
Proof. intros w H. exact H. Qed.

Lemma keeps_bind {A B : Type} (m : io A) (k : A -> io B) :
  keeps_reachable m -> (forall a, keeps_reachable (k a)) ->
  keeps_reachable (bind m k).
Proof.
  intros Hm Hk w H. unfold bind. specialize (Hm w H).
  destruct (m w) as [[a|e] w']; simpl in *; [now apply Hk | exact Hm].
Qed.

Lemma keeps_emit (m : message) : keeps_reachable (emit m).
Proof. intros w H. exact H. Qed.

Lemma keeps_input (p : string) : keeps_reachable (input p).
Proof. intros w H. unfold input. destruct (stdin w); exact H. Qed.

Lemma keeps_menu_action (choice : string) :
  keeps_reachable (menu_action choice).
Proof. intros w H. now apply reachable_action. Qed.

Lemma keeps_display_menu : keeps_reachable display_menu.
Proof.
  unfold display_menu, print.
  repeat (apply keeps_bind; [apply keeps_emit | intros _]).
  apply keeps_emit.
Qed.

(** The loop of [main] only runs menu actions: it stays among the
    reachable stores, for any number of rounds. *)
Lemma main_loop_reachable (fuel : nat) : keeps_reachable (main_loop fuel).
Proof.
  induction fuel as [|fuel IH]; [apply keeps_ret|].
  change (main_loop (S fuel))
    with (clear_screen ;;
          display_menu ;;
          choice <- input "Enter your choice: " ;;
          clear_screen ;;
          if (choice =? "0")%string then
            print "Exiting application." ;;
            ret true
          else
            menu_action choice ;;
            input (nl ++ "Press Enter to continue...") ;;
            main_loop fuel).
  apply keeps_bind; [apply keeps_emit | intros _].
  apply keeps_bind; [apply keeps_display_menu | intros _].
  apply keeps_bind; [apply keeps_input | intros choice].
  apply keeps_bind; [apply keeps_emit | intros _].
  destruct (choice =? "0")%string.
  - apply keeps_bind; [apply keeps_emit | intros _; apply keeps_ret].
  - apply keeps_bind; [apply keeps_menu_action | intros _].
    apply keeps_bind; [apply keeps_input | intros _; exact IH].
Qed.

Lemma ex_store1_reachable : reachable ex_store1.
Proof. apply reachable_action. apply reachable_empty. Qed.

Lemma ex_store2_reachable : reachable ex_store2.
Proof.
  unfold ex_store2.
  apply (reachable_action "7"
           (ex_world ex_store1 ["ada lovelace"; "50.00"; ""; ""; ""; "first"])).
  exact ex_store1_reachable.
Qed.

Lemma ex_store3_reachable : reachable ex_store3.
Proof.
  apply (reachable_action "5" (ex_world ex_store2 ["Bob"; "bob@example.org"])).
  exact ex_store2_reachable.
Qed.

Lemma ex_store4_reachable : reachable ex_store4.
Proof.
  apply (reachable_action "6" (ex_world ex_store3 ["Spring Gala"; "2024-05-01"])).
  exact ex_store3_reachable.
Qed.

Lemma ex_store5_reachable : reachable ex_store5.
Proof.
  apply (reachable_action "7"
           (ex_world ex_store4
              ["Ada Lovelace"; "20"; "2024-05-01 18:30:00"; "bob";
               "spring gala"; "at the gala"])).
  exact ex_store4_reachable.
Qed.

(** C9.  In every run of [add_donor] in which the entered name is empty
    (nothing, or white space only, which [strip] empties), no row is inserted:
    the store after the run is the store before it. *)
Theorem add_donor_empty_name_inserts_nothing
  (w : world) (l1 : string) (rest : list string) :
  stdin w = l1 :: rest ->
  PyStr.strip l1 = EmptyString ->
  final_db add_donor w = db w.
Proof.
  destruct w as [s inp out pn sn]. simpl. intros -> Hempty.
  unfold add_donor. io_unfold. cbv beta iota zeta. simpl.
  destruct rest as [|l2 rest]; simpl; [reflexivity|].
  rewrite Hempty. reflexivity.
Qed.

Lemma add_donor_empty_name_inserts_nothing_witness :
  stdin (ex_world ex_store1 [""; "nobody@example.org"])
  = "" :: ["nobody@example.org"]
  /\ PyStr.strip "" = EmptyString
  /\ final_db add_donor (ex_world ex_store1 [""; "nobody@example.org"])
     = db (ex_world ex_store1 [""; "nobody@example.org"]).
Proof.
  split; [reflexivity|]. split; [reflexivity|].
  apply (add_donor_empty_name_inserts_nothing
           (ex_world ex_store1 [""; "nobody@example.org"])
           "" ["nobody@example.org"]); reflexivity.
Defined.

(** [delete_donor] changes the store only when the identifier is a number,
    names an existing donor, and the confirmation is "yes" in some case. *)
Lemma delete_donor_changes_only_confirmed (w : world) :
  final_db delete_donor w = db w
  \/ exists (l0 l1 : string) (rest : list string) (id : Z) (d : donor),
       stdin w = l0 :: l1 :: rest
       /\ PyStr.int l0 = Some id
       /\ select_donor (db w) id = Some d
       /\ PyStr.lower l1 = "yes".
Proof.
  destruct w as [s inp out pn sn]. unfold delete_donor. io_unfold.
  cbv beta iota zeta. simpl.
  destruct inp as [|l0 inp]; simpl; auto.
  destruct (PyStr.int l0) as [n|] eqn:En; simpl; auto.
  destruct (Sql.fits_int64 n); simpl; auto.
  destruct (select_donor s n) as [d|] eqn:Ed; simpl; auto.
  destruct inp as [|l1 rest]; simpl; auto.
  destruct (PyStr.lower l1 =? "yes")%string eqn:Ey; simpl; auto.
  right. exists l0, l1, rest, n, d.
  apply String.eqb_eq in Ey. auto.
Qed.

(** C8.  [delete_donor] mutates the store only after an affirmative
    confirmation: when the identifier entered is not a number, or names no
    existing donor, or the confirmation is anything but "yes" (in any letter
    case), no row is deleted and the store is unchanged. *)
Theorem delete_donor_requires_confirmation
  (w : world) (l0 : string) (rest : list string) :
  stdin w = l0 :: rest ->
  (PyStr.int l0 = None
   \/ (exists id, PyStr.int l0 = Some id /\ select_donor (db w) id = None)
   \/ (exists l1 rest', rest = l1 :: rest' /\ PyStr.lower l1 <> "yes")) ->
  final_db delete_donor w = db w.
Proof.
  intros Hin Hcase.
  destruct (delete_donor_changes_only_confirmed w)
    as [E | (l0' & l1 & rest' & id & d & Hin' & Hint & Hsel & Hyes)];
    [exact E|].
  rewrite Hin in Hin'. injection Hin' as -> ->.
  destruct Hcase as [Hn | [(id' & Hi & Hs) | (l1' & r' & Hr & Hne)]].
  - congruence.
  - rewrite Hint in Hi. injection Hi as ->. congruence.
  - injection Hr as -> ->. contradiction.
Qed.

Lemma delete_donor_requires_confirmation_witness :
  stdin (ex_world ex_store2 ["1"; "y"]) = "1" :: ["y"]
  /\ PyStr.lower "y" <> "yes"
  /\ final_db delete_donor (ex_world ex_store2 ["1"; "y"]) = ex_store2.
Proof.
  split; [reflexivity|]. split; [discriminate|].
  apply (delete_donor_requires_confirmation
           (ex_world ex_store2 ["1"; "y"]) "1" ["y"]); [reflexivity|].
  right. right. exists "y", []. split; [reflexivity | discriminate].
Defined.

Lemma last_snoc {A : Type} (l : list A) (x d : A) : last (l ++ [x]) d = x.
Proof. apply last_last. Qed.

(** C6.  [update_donor] looks the identifier up before it changes anything:
    for an identifier of no donor it reports so, reads no further input and
    leaves the store unchanged.  For an existing donor, with the new name
    and the new contact info both left blank, it runs no update: the store,
    and with it the donor's row (name, contact_info, created_at), is the
    same after as before, and "No changes specified." is the last thing
    printed. *)
Theorem update_donor_blank_is_noop
  (w : world) (l0 : string) (rest : list string) (id : Z) :
  stdin w = l0 :: rest ->
  PyStr.int l0 = Some id ->
  Sql.fits_int64 id = true ->
  match select_donor (db w) id with
  | None =>
      final_db update_donor w = db w
      /\ stdin (snd (update_donor w)) = rest
      /\ last (printed update_donor w) (Text "")
         = Text ("Donor with ID " ++ str_of_Z id ++ " not found.")
  | Some d =>
      forall (l1 l2 : string) (rest' : list string),
        rest = l1 :: l2 :: rest' ->
        PyStr.strip l1 = EmptyString ->
        PyStr.strip l2 = EmptyString ->
        final_db update_donor w = db w
        /\ select_donor (final_db update_donor w) id = Some d
        /\ last (printed update_donor w) (Text "")
           = Text "No changes specified."
  end.
Proof.
  destruct w as [s inp out pn sn]. simpl. intros -> Hint Hfit.
  destruct (select_donor s id) as [d|] eqn:Hsel.
  - intros l1 l2 rest' -> H1 H2.
    unfold update_donor. io_unfold. cbv beta iota zeta. simpl.
    rewrite Hint. simpl. rewrite Hfit. simpl. rewrite Hsel. simpl.
    rewrite H1, H2. simpl.
    split; [reflexivity|]. split; [exact Hsel | apply last_snoc].
  - unfold update_donor. io_unfold. cbv beta iota zeta. simpl.
    rewrite Hint. simpl. rewrite Hfit. simpl. rewrite Hsel. simpl.
    split; [reflexivity|]. split; [reflexivity | apply last_snoc].
Qed.

Lemma update_donor_blank_is_noop_witness :
  final_db update_donor (ex_world ex_store2 ["1"; "  "; ""]) = ex_store2
  /\ last (printed update_donor (ex_world ex_store2 ["1"; "  "; ""])) (Text "")
     = Text "No changes specified.".
Proof.
  pose proof (update_donor_blank_is_noop
                (ex_world ex_store2 ["1"; "  "; ""]) "1" ["  "; ""] 1
                eq_refl eq_refl eq_refl) as H.
  change (select_donor (db (ex_world ex_store2 ["1"; "  "; ""])) 1)
    with (Some (mkDonor 1 "Ada Lovelace" "ada@example.org" ex_now)) in H.
  destruct (H "  " "" [] eq_refl eq_refl eq_refl) as [H1 [_ H3]].
  split; [exact H1 | exact H3].
Defined.

Lemma insert_volunteer_duplicate (s : store) (name contact_info : string) :
  In name (map volunteer_name (Volunteers s)) ->
  insert_volunteer s name contact_info
  = SqlError (Sql.IntegrityError "UNIQUE constraint failed: Volunteers.name").
Proof.
  intros Hin. unfold insert_volunteer.
  destruct (existsb _ _) eqn:E; [reflexivity|].
  apply existsb_name_false in E. contradiction.
Qed.

Lemma insert_event_duplicate (s : store) (name : string) (date : option string) :
  In name (map event_name (Events s)) ->
  insert_event s name date
  = SqlError (Sql.IntegrityError "UNIQUE constraint failed: Events.name").
Proof.
  intros Hin. unfold insert_event.
  destruct (existsb _ _) eqn:E; [reflexivity|].
  apply existsb_name_false in E. contradiction.
Qed.

Lemma add_volunteer_duplicate (w : world) (l1 : string) (rest : list string) :
  stdin w = l1 :: rest ->
  In (PyStr.strip l1) (map volunteer_name (Volunteers (db w))) ->
  final_db add_volunteer w = db w.
Proof.
  destruct w as [s inp out pn sn]. simpl. intros -> Hin.
  unfold add_volunteer. io_unfold. cbv beta iota zeta. simpl.
  destruct rest as [|l2 rest]; simpl; [reflexivity|].
  destruct (nonempty (PyStr.strip l1)); simpl; [|reflexivity].
  rewrite (insert_volunteer_duplicate s _ _ Hin). reflexivity.
Qed.

Lemma add_event_duplicate (w : world) (l1 : string) (rest : list string) :
  stdin w = l1 :: rest ->
  In (PyStr.strip l1) (map event_name (Events (db w))) ->
  final_db add_event w = db w.
Proof.
  destruct w as [s inp out pn sn]. simpl. intros -> Hin.
  unfold add_event. io_unfold. cbv beta iota zeta. simpl.
  destruct rest as [|l2 rest]; simpl; [reflexivity|].
  destruct (nonempty (PyStr.strip l1)); simpl; [|reflexivity].
  match goal with |- context [if ?b then _ else _] => destruct b end;
    simpl; [reflexivity|].
  rewrite (insert_event_duplicate s _ _ Hin). reflexivity.
Qed.

(** C7.  In every reachable store no two volunteers have the same name and
    no two events have the same name, names compared exactly (case
    included).  Adding a volunteer, or an event, whose name is already in
    its table fails on the UNIQUE constraint whatever the other column
    holds, and the run leaves the store, and so the first row, as it was. *)
Theorem duplicate_names_are_rejected
  (w : world) (l1 : string) (rest : list string) :
  reachable (db w) ->
  stdin w = l1 :: rest ->
  NoDup (map volunteer_name (Volunteers (db w)))
  /\ NoDup (map event_name (Events (db w)))
  /\ (In (PyStr.strip l1) (map volunteer_name (Volunteers (db w))) ->
      (forall c, exists e,
           insert_volunteer (db w) (PyStr.strip l1) c
           = SqlError (Sql.IntegrityError e))
      /\ final_db add_volunteer w = db w)
  /\ (In (PyStr.strip l1) (map event_name (Events (db w))) ->
      (forall d, exists e,
           insert_event (db w) (PyStr.strip l1) d
           = SqlError (Sql.IntegrityError e))
      /\ final_db add_event w = db w).
Proof.
  intros Hr Hin.
  destruct (reachable_names_unique _ Hr) as [Hv He].
  split; [exact Hv|]. split; [exact He|]. split.
  - intros Hdup. split.
    + intros c. eexists. now apply insert_volunteer_duplicate.
    + now apply (add_volunteer_duplicate w l1 rest).
  - intros Hdup. split.
    + intros d. eexists. now apply insert_event_duplicate.
    + now apply (add_event_duplicate w l1 rest).
Qed.

Lemma ex_world_db (s : store) (lines : list string) :
  db (ex_world s lines) = s.
Proof. reflexivity. Qed.

Lemma duplicate_names_are_rejected_witness :
  reachable (db (ex_world ex_store5 ["Bob"; "another Bob"]))
  /\ stdin (ex_world ex_store5 ["Bob"; "another Bob"]) = "Bob" :: ["another Bob"]
  /\ In (PyStr.strip "Bob")
        (map volunteer_name
             (Volunteers (db (ex_world ex_store5 ["Bob"; "another Bob"]))))
  /\ final_db add_volunteer (ex_world ex_store5 ["Bob"; "another Bob"])
     = db (ex_world ex_store5 ["Bob"; "another Bob"]).
Proof.
  assert (Hr : reachable (db (ex_world ex_store5 ["Bob"; "another Bob"]))).
  { rewrite ex_world_db. exact ex_store5_reachable. }
  assert (Hin : In (PyStr.strip "Bob")
                   (map volunteer_name
                        (Volunteers
                           (db (ex_world ex_store5 ["Bob"; "another Bob"]))))).
  { vm_compute. left. reflexivity. }
  split; [exact Hr|]. split; [reflexivity|]. split; [exact Hin|].
  destruct (duplicate_names_are_rejected
              (ex_world ex_store5 ["Bob"; "another Bob"]) "Bob" ["another Bob"]
              Hr eq_refl) as (_ & _ & Hv & _).
  exact (proj2 (Hv Hin)).
Defined.

Example ex_store5_value :
  ex_store5
  = mkStore
      [mkDonor 1 "Ada Lovelace" "ada@example.org" ex_now]
      [mkVolunteer 1 "Bob" "bob@example.org"]
      [mkEvent 1 "Spring Gala" (Some "2024-05-01")]
      [mkDonation 1 1 (S754_finite false 7036874417766400 (-47)) ex_now
                  None None "first";
       mkDonation 2 1 (S754_finite false 5629499534213120 (-48))
                  "2024-05-01 18:30:00" (Some 1) (Some 1) "at the gala"]
      1 1 1 2.
Proof. vm_compute. reflexivity. Qed.

(** Names that differ by case only are different names for the UNIQUE
    constraint: a volunteer "bob" is added next to "Bob". *)
Example unique_is_case_sensitive :
  map volunteer_name
      (Volunteers (final_db add_volunteer (ex_world ex_store5 ["bob"; ""])))
  = ["Bob"; "bob"].
Proof. vm_compute. reflexivity. Qed.


Lemma delete_donor_confirmed (w : world) (l0 l1 : string)
  (rest : list string) (id : Z) (d : donor) :
  stdin w = l0 :: l1 :: rest ->
  PyStr.int l0 = Some id ->
  Sql.fits_int64 id = true ->
  select_donor (db w) id = Some d ->
  PyStr.lower l1 = "yes" ->
  final_db delete_donor w
  = mkStore (filter (fun x => negb (donor_id x =? id)) (Donors (db w)))
            (Volunteers (db w)) (Events (db w))
            (filter (fun x => negb (donation_donor_id x =? id))
                    (Donations (db w)))
            (seq_Donors (db w)) (seq_Volunteers (db w)) (seq_Events (db w))
            (seq_Donations (db w)).
Proof.
  destruct w as [s inp out pn sn]. simpl. intros -> Hint Hfit Hsel Hyes.
  unfold delete_donor. io_unfold. cbv beta iota zeta. simpl.
  rewrite Hint. simpl. rewrite Hfit. simpl. rewrite Hsel. simpl.
  rewrite Hyes. simpl.
  destruct (0 <? _); reflexivity.
Qed.






(** *** What a clean name looks like *)

Lemma lstrip_length (s : string) :
  (String.length (PyStr.lstrip s) <= String.length s)%nat.
Proof.
  induction s as [|c s IH]; simpl; [lia|].
  destruct (PyStr.isspace c); simpl; lia.
Qed.

Lemma rstrip_length (s : string) :
  (String.length (PyStr.rstrip s) <= String.length s)%nat.
Proof.
  induction s as [|c s IH]; simpl; [lia|].
  destruct (PyStr.rstrip s); [destruct (PyStr.isspace c)|]; simpl in *; lia.
Qed.

Lemma lstrip_same_length (s : string) :
  String.length (PyStr.lstrip s) = String.length s -> starts_clean s.
Proof.
  destruct s as [|c s]; simpl; [trivial|].
  destruct (PyStr.isspace c); [|reflexivity].
  pose proof (lstrip_length s). lia.
Qed.

Lemma rstrip_trailing_space (pre : string) (c : ascii) :
  PyStr.isspace c = true ->
  PyStr.rstrip (pre ++ String c EmptyString) = PyStr.rstrip pre.
Proof.
  intros Hc. induction pre as [|d pre IH]; simpl; [now rewrite Hc|].
  now rewrite IH.
Qed.

Lemma append_length (a b : string) :
  String.length (a ++ b) = (String.length a + String.length b)%nat.
Proof. induction a as [|c a IH]; simpl; [reflexivity | now rewrite IH]. Qed.

(** A name that [strip] leaves alone neither starts nor ends with white
    space. *)
Lemma stripped_no_surrounding_space (n : string) :
  PyStr.strip n = n ->
  (forall c r, n = String c r -> PyStr.isspace c = false)
  /\ (forall pre c, n = pre ++ String c EmptyString ->
                    PyStr.isspace c = false).
Proof.
  unfold PyStr.strip. intros H.
  assert (Hl : PyStr.lstrip n = n).
  { apply lstrip_fixed, lstrip_same_length.
    pose proof (lstrip_length n). pose proof (rstrip_length (PyStr.lstrip n)).
    rewrite H in *. lia. }
  rewrite Hl in H. split.
  - intros c r ->. simpl in Hl.
    destruct (PyStr.isspace c) eqn:E; [|reflexivity].
    pose proof (lstrip_length r) as L. rewrite Hl in L. simpl in L. lia.
  - intros pre c ->.
    destruct (PyStr.isspace c) eqn:E; [|reflexivity].
    rewrite (rstrip_trailing_space pre c E) in H.
    pose proof (rstrip_length pre) as L. rewrite H, append_length in L.
    simpl in L. lia.
Qed.

Lemma add_donation_blank_donor (w : world) (l1 : string) (rest : list string) :
  names_clean (db w) ->
  stdin w = l1 :: rest ->
  PyStr.strip l1 = EmptyString ->
  final_db add_donation w = db w.
Proof.
  destruct w as [s inp out pn sn]. simpl. intros [Hd _] -> Hempty.
  unfold add_donation. io_unfold. cbv beta iota zeta. simpl.
  rewrite Hempty.
  destruct (find _ _) as [[id nm]|] eqn:E; simpl; [|reflexivity].
  exfalso. apply find_some in E. destruct E as [Hin Hm].
  apply in_map_iff in Hin. destruct Hin as [d [Hd1 Hd2]].
  injection Hd1 as <- <-.
  unfold name_matches in Hm. simpl in Hm. apply String.eqb_eq in Hm.
  destruct (Hd d Hd2) as [Hne _].
  destruct (donor_name d); [congruence | discriminate].
Qed.

Lemma add_volunteer_empty_name (w : world) (l1 : string) (rest : list string) :
  stdin w = l1 :: rest -> PyStr.strip l1 = EmptyString ->
  final_db add_volunteer w = db w.
Proof.
  destruct w as [s inp out pn sn]. simpl. intros -> Hempty.
  unfold add_volunteer. io_unfold. cbv beta iota zeta. simpl.
  destruct rest as [|l2 rest]; simpl; [reflexivity|].
  rewrite Hempty. reflexivity.
Qed.

Lemma add_event_empty_name (w : world) (l1 : string) (rest : list string) :
  stdin w = l1 :: rest -> PyStr.strip l1 = EmptyString ->
  final_db add_event w = db w.
Proof.
  destruct w as [s inp out pn sn]. simpl. intros -> Hempty.
  unfold add_event. io_unfold. cbv beta iota zeta. simpl.
  destruct rest as [|l2 rest]; simpl; [reflexivity|].
  rewrite Hempty. reflexivity.
Qed.

Lemma add_donor_empty_name (w : world) (l1 : string) (rest : list string) :
  stdin w = l1 :: rest -> PyStr.strip l1 = EmptyString ->
  final_db add_donor w = db w.
Proof.
  destruct w as [s inp out pn sn]. simpl. intros -> Hempty.
  unfold add_donor. io_unfold. cbv beta iota zeta. simpl.
  destruct rest as [|l2 rest]; simpl; [reflexivity|].
  rewrite Hempty. reflexivity.
Qed.

(** The three functions that add a named row see the entered name only
    through its stripped form. *)
Lemma add_named_row_strips (s : store) (l1 : string) (rest : list string)
  (out : list message) (pn sn : string) :
  add_donor (mkWorld s (PyStr.strip l1 :: rest) out pn sn)
  = add_donor (mkWorld s (l1 :: rest) out pn sn)
  /\ add_volunteer (mkWorld s (PyStr.strip l1 :: rest) out pn sn)
     = add_volunteer (mkWorld s (l1 :: rest) out pn sn)
  /\ add_event (mkWorld s (PyStr.strip l1 :: rest) out pn sn)
     = add_event (mkWorld s (l1 :: rest) out pn sn).
Proof.
  unfold add_donor, add_volunteer, add_event. io_unfold.
  cbv beta iota zeta. simpl.
  rewrite !strip_idem. repeat split; reflexivity.
Qed.

Lemma resolve_optional_strip (s : store) (t c l : string) :
  resolve_optional s t c (PyStr.strip l) = resolve_optional s t c l.
Proof. unfold resolve_optional. now rewrite strip_idem. Qed.

Lemma add_donation_strips (s : store) (l1 l2 l3 l4 l5 l6 now : string) :
  add_donation_result s (PyStr.strip l1) l2 l3 (PyStr.strip l4)
                      (PyStr.strip l5) l6 now
  = add_donation_result s l1 l2 l3 l4 l5 l6 now.
Proof.
  unfold add_donation_result.
  now rewrite strip_idem, !resolve_optional_strip.
Qed.

(** C10.  Every name entered at a prompt is stripped before it is checked
    and stored.  (1) [add_donor], [add_volunteer] and [add_event] behave on
    an entered name exactly as on its stripped form, and so does
    [add_donation] on the donor, volunteer and event names entered.  (2) A
    name of white space only is treated as the empty name: the three adding
    functions insert nothing, and on a reachable store [add_donation] finds
    no donor and inserts nothing.  (3) In every reachable store each donor,
    volunteer and event name is non-empty, is left alone by [strip], and
    neither starts nor ends with a white-space character. *)
Theorem entered_names_are_stripped :
  (forall (s : store) (l1 : string) (rest : list string)
          (out : list message) (pn sn : string),
      add_donor (mkWorld s (PyStr.strip l1 :: rest) out pn sn)
      = add_donor (mkWorld s (l1 :: rest) out pn sn)
      /\ add_volunteer (mkWorld s (PyStr.strip l1 :: rest) out pn sn)
         = add_volunteer (mkWorld s (l1 :: rest) out pn sn)
      /\ add_event (mkWorld s (PyStr.strip l1 :: rest) out pn sn)
         = add_event (mkWorld s (l1 :: rest) out pn sn))
  /\ (forall (s : store) (l1 l2 l3 l4 l5 l6 : string) (rest : list string)
             (out : list message) (pn sn : string),
         final_db add_donation
           (mkWorld s (PyStr.strip l1 :: l2 :: l3 :: PyStr.strip l4
                       :: PyStr.strip l5 :: l6 :: rest) out pn sn)
         = final_db add_donation
             (mkWorld s (l1 :: l2 :: l3 :: l4 :: l5 :: l6 :: rest) out pn sn))
  /\ (forall (w : world) (l1 : string) (rest : list string),
         stdin w = l1 :: rest ->
         all_space l1 = true ->
         final_db add_donor w = db w
         /\ final_db add_volunteer w = db w
         /\ final_db add_event w = db w
         /\ (reachable (db w) -> final_db add_donation w = db w))
  /\ (forall (s : store) (n : string),
         reachable s ->
         In n (map donor_name (Donors s))
         \/ In n (map volunteer_name (Volunteers s))
         \/ In n (map event_name (Events s)) ->
         n <> EmptyString
         /\ PyStr.strip n = n
         /\ (forall c r, n = String c r -> PyStr.isspace c = false)
         /\ (forall pre c, n = pre ++ String c EmptyString ->
                           PyStr.isspace c = false)).
Proof.
  split; [|split; [|split]].
  - intros. apply add_named_row_strips.
  - intros. rewrite !add_donation_db. apply add_donation_strips.
  - intros w l1 rest Hin Hsp. apply strip_all_space in Hsp.
    split; [now apply (add_donor_empty_name w l1 rest)|].
    split; [now apply (add_volunteer_empty_name w l1 rest)|].
    split; [now apply (add_event_empty_name w l1 rest)|].
    intros Hr. apply (add_donation_blank_donor w l1 rest); try assumption.
    now apply reachable_names_clean.
  - intros s n Hr Hn.
    destruct (reachable_names_clean s Hr) as [Hd [Hv He]].
    assert (Hc : clean_name n).
    { destruct Hn as [Hn|[Hn|Hn]]; apply in_map_iff in Hn;
        destruct Hn as [x [<- Hx]]; auto. }
    destruct Hc as [Hne Hs].
    split; [exact Hne|]. split; [exact Hs|].
    now apply stripped_no_surrounding_space.
Qed.

Lemma entered_names_are_stripped_witness :
  stdin (ex_world ex_store5 ["  	 "; "x"]) = "  	 " :: ["x"]
  /\ all_space "  	 " = true
  /\ reachable (db (ex_world ex_store5 ["  	 "; "x"]))
  /\ In "Spring Gala" (map event_name (Events ex_store5))
  /\ final_db add_donor (ex_world ex_store5 ["  	 "; "x"])
     = db (ex_world ex_store5 ["  	 "; "x"])
  /\ final_db add_donation (ex_world ex_store5 ["  	 "; "x"])
     = db (ex_world ex_store5 ["  	 "; "x"])
  /\ PyStr.strip "Spring Gala" = "Spring Gala".
Proof.
  destruct entered_names_are_stripped as (_ & _ & H3 & H4).
  assert (Hr : reachable (db (ex_world ex_store5 ["  	 "; "x"]))).
  { rewrite ex_world_db. exact ex_store5_reachable. }
  assert (Hin : In "Spring Gala" (map event_name (Events ex_store5))).
  { vm_compute. left. reflexivity. }
  destruct (H3 (ex_world ex_store5 ["  	 "; "x"]) "  	 " ["x"]
               eq_refl eq_refl) as (Ha & _ & _ & Hd).
  destruct (H4 ex_store5 "Spring Gala" ex_store5_reachable
               (or_intror (or_intror Hin))) as (_ & Hs & _).
  split; [reflexivity|]. split; [reflexivity|].
  split; [exact Hr|]. split; [exact Hin|].
  split; [exact Ha|]. split; [exact (Hd Hr) | exact Hs].
Defined.

Lemma name_matches_ignoring_case (name : string) (row : Z * string) :
  name_matches name row = eq_ignoring_case (snd row) name.
Proof.
  unfold name_matches. apply eq_true_iff_eq.
  rewrite String.eqb_eq. apply sql_lower_eq_iff.
Qed.

(** C4 as stated fails: the comparison folds the letters A..Z only.  The
    donor stored under the name with the capital accented letter has a name
    equal to the one with the small accented letter ignoring letter case
    ([str.lower] makes them equal), and [find_id_by_name] does not find it:
    [add_donation] for that name reports the donor as not found and adds
    nothing. *)
Lemma find_id_by_name_accented_letter_counterexample :
  map (fun d => (donor_id d, donor_name d)) (Donors ex_store_emile1)
  = [(1, name_Emile)]
  /\ eq_ignoring_letter_case name_Emile name_emile = true
  /\ fst (find_id_by_name "Donors" "donor" name_emile
                          (ex_world ex_store_emile1 []))
     = Ret None
  /\ fst (find_id_by_name "Donors" "donor" name_Emile
                          (ex_world ex_store_emile1 []))
     = Ret (Some 1)
  /\ final_db add_donation
              (ex_world ex_store_emile1 [name_emile; "5"; ""; ""; ""; ""])
     = ex_store_emile1.
Proof. vm_compute. repeat split; reflexivity. Qed.

(** The scan of [Volunteers] is in the order of the names, not of the
    identifiers: with the volunteers [bob] (1) and [Bob] (2) on file, a
    lookup of [bob] returns 2. *)
Example find_id_by_name_scans_name_index :
  map (fun v => (volunteer_id v, volunteer_name v)) (Volunteers ex_store_bobs)
  = [(1, "bob"); (2, "Bob")]
  /\ id_name_rows ex_store_bobs "Volunteers" "volunteer"
     = Some [(2, "Bob"); (1, "bob")]
  /\ fst (find_id_by_name "Volunteers" "volunteer" "bob"
                          (ex_world ex_store_bobs []))
     = Ret (Some 2).
Proof. vm_compute. repeat split; reflexivity. Qed.

(** C4, amended.  [find_id_by_name] scans, for each of the three tables the
    program names, the pairs of identifier and name of exactly the table's
    rows.  It returns an identifier exactly when some row has a name equal
    to the given one ignoring the case of the letters A..Z (the whole name,
    character by character, any other character compared as it is), the
    identifier is that of such a row, and it returns [None] otherwise; it
    changes nothing.  In the scenario of the specification the donation
    added for "ada lovelace" references the donor stored as
    "Ada Lovelace". *)
Theorem find_id_by_name_matches_ignoring_case :
  (forall s : store,
      id_name_rows s "Donors" "donor"
      = Some (map (fun d => (donor_id d, donor_name d)) (Donors s))
      /\ (exists rows,
             id_name_rows s "Volunteers" "volunteer" = Some rows
             /\ forall id n,
                 In (id, n) rows
                 <-> exists v, In v (Volunteers s)
                               /\ volunteer_id v = id /\ volunteer_name v = n)
      /\ (exists rows,
             id_name_rows s "Events" "event" = Some rows
             /\ forall id n,
                 In (id, n) rows
                 <-> exists e, In e (Events s)
                               /\ event_id e = id /\ event_name e = n))
  /\ (forall (w : world) (table_name column_name name : string)
             (rows : list (Z * string)),
         id_name_rows (db w) table_name column_name = Some rows ->
         let r := fst (find_id_by_name table_name column_name name w) in
         (forall id, r = Ret (Some id) ->
                     exists n, In (id, n) rows
                               /\ eq_ignoring_case n name = true)
         /\ ((exists id n, In (id, n) rows /\ eq_ignoring_case n name = true)
             -> exists id, r = Ret (Some id))
         /\ (r = Ret None <->
             forall id n, In (id, n) rows -> eq_ignoring_case n name = false)
         /\ snd (find_id_by_name table_name column_name name w) = w)
  /\ (exists (d : donation) (dn : donor),
         Donations ex_store2 = [d]
         /\ Donors ex_store2 = [dn]
         /\ donor_name dn = "Ada Lovelace"
         /\ donation_donor_id d = donor_id dn).
Proof.
  split; [|split].
  - intros s. split; [reflexivity|]. split.
    + eexists. split; [reflexivity|]. intros id n.
      rewrite sort_by_In, in_map_iff. split.
      * intros [v [E Hv]]. injection E as <- <-. now exists v.
      * intros [v [Hv [<- <-]]]. now exists v.
    + eexists. split; [reflexivity|]. intros id n.
      rewrite sort_by_In, in_map_iff. split.
      * intros [e [E He]]. injection E as <- <-. now exists e.
      * intros [e [He [<- <-]]]. now exists e.
  - intros w t c name rows Hrows r. subst r.
    unfold find_id_by_name. io_unfold. cbv beta iota zeta. rewrite Hrows.
    simpl.
    split; [|split; [|split]]; [| | |reflexivity].
    + intros id H. injection H as H.
      destruct (find _ _) as [[i n]|] eqn:E; [|discriminate].
      injection H as ->. apply find_some in E. destruct E as [E1 E2].
      exists n. split; [exact E1|].
      now rewrite name_matches_ignoring_case in E2.
    + intros (id & n & Hin & Hm).
      destruct (find _ _) as [[i n']|] eqn:E; [now exists i|].
      apply (find_none _ _ E) in Hin.
      rewrite name_matches_ignoring_case in Hin. simpl in Hin. congruence.
    + split.
      * intros H id n Hin. injection H as H.
        destruct (find _ _) as [[i n']|] eqn:E; [discriminate|].
        apply (find_none _ _ E) in Hin.
        now rewrite name_matches_ignoring_case in Hin.
      * intros H. destruct (find _ _) as [[i n']|] eqn:E; [|reflexivity].
        apply find_some in E. destruct E as [E1 E2].
        rewrite name_matches_ignoring_case in E2. simpl in E2.
        rewrite (H i n' E1) in E2. discriminate.
  - exists (mkDonation 1 1 (S754_finite false 7036874417766400 (-47)) ex_now
                      None None "first"),
           (mkDonor 1 "Ada Lovelace" "ada@example.org" ex_now).
    vm_compute. repeat split; reflexivity.
Qed.

Lemma find_id_by_name_matches_ignoring_case_witness :
  id_name_rows (db (ex_world ex_store5 [])) "Donors" "donor"
  = Some [(1, "Ada Lovelace")]
  /\ fst (find_id_by_name "Donors" "donor" "ADA lovelace" (ex_world ex_store5 []))
     = Ret (Some 1)
  /\ eq_ignoring_case "Ada Lovelace" "ADA lovelace" = true
  /\ fst (find_id_by_name "Donors" "donor" "Ada" (ex_world ex_store5 []))
     = Ret None.
Proof.
  destruct find_id_by_name_matches_ignoring_case as (_ & H & _).
  assert (Hrows : id_name_rows (db (ex_world ex_store5 [])) "Donors" "donor"
                  = Some [(1, "Ada Lovelace")]).
  { vm_compute. reflexivity. }
  destruct (H (ex_world ex_store5 []) "Donors" "donor" "ADA lovelace" _ Hrows)
    as (_ & H2 & _).
  destruct (H (ex_world ex_store5 []) "Donors" "donor" "Ada" _ Hrows)
    as (_ & _ & H3 & _).
  split; [exact Hrows|]. split; [|split; [reflexivity|]].
  - destruct H2 as [id Hid].
    + exists 1, "Ada Lovelace". split; [left; reflexivity | reflexivity].
    + rewrite Hid. f_equal. f_equal.
      assert (Hc : fst (find_id_by_name "Donors" "donor" "ADA lovelace"
                          (ex_world ex_store5 [])) = Ret (Some 1)).
      { vm_compute. reflexivity. }
      rewrite Hc in Hid. injection Hid as <-. reflexivity.
  - apply H3. intros id n [Hin|[]]. injection Hin as <- <-. reflexivity.
Defined.

(** *** The order of stored dates *)

Lemma digit_count_nonneg (s : string) : 0 <= digit_count s.
Proof.
  induction s as [|c s IH]; cbn [digit_count]; [lia|].
  destruct (PyStr.isdigit c); lia.
Qed.

Lemma digit_val_range (c : ascii) :
  PyStr.isdigit c = true -> 0 <= PyStr.digit_val c <= 9.
Proof.
  unfold PyStr.isdigit, PyStr.in_range, PyStr.digit_val.
  intros H. apply andb_true_iff in H. destruct H as [H1 H2].
  apply N.leb_le in H1, H2. lia.
Qed.

Lemma digits_number_bound (s : string) :
  0 <= digits_number s < 10 ^ digit_count s.
Proof.
  induction s as [|c s IH]; cbn [digit_count digits_number]; [lia|].
  destruct (PyStr.isdigit c) eqn:E; [|exact IH].
  pose proof (digit_val_range c E). pose proof (digit_count_nonneg s).
  rewrite Z.pow_add_r by lia. change (10 ^ 1) with 10. nia.
Qed.

Lemma fits_layout_digit_count (pat a b : string) :
  fits_layout pat a = true -> fits_layout pat b = true ->
  digit_count a = digit_count b.
Proof.
  revert a b. induction pat as [|p pat IH]; intros [|c a] [|d b];
    cbn [fits_layout digit_count digits_number String.compare];
    try discriminate; [reflexivity|].
  intros Ha Hb. apply andb_true_iff in Ha, Hb.
  destruct Ha as [Ha1 Ha2], Hb as [Hb1 Hb2].
  rewrite (IH a b Ha2 Hb2).
  destruct (p =? "d")%char.
  - now rewrite Ha1, Hb1.
  - apply Ascii.eqb_eq in Ha1, Hb1. now subst.
Qed.

Lemma ascii_compare_digits (c d : ascii) :
  Ascii.compare c d = Z.compare (PyStr.digit_val c) (PyStr.digit_val d).
Proof.
  unfold Ascii.compare, PyStr.digit_val, PyStr.code.
  destruct (N.compare_spec (N_of_ascii c) (N_of_ascii d));
    symmetry; [apply Z.compare_eq_iff | apply Z.compare_lt_iff
               | apply Z.compare_gt_iff]; lia.
Qed.

Lemma ascii_compare_refl (c : ascii) : Ascii.compare c c = Eq.
Proof. unfold Ascii.compare. apply N.compare_refl. Qed.

(** Two texts of one layout compare as the numbers their digits spell. *)
Lemma fits_layout_compare (pat a b : string) :
  fits_layout pat a = true -> fits_layout pat b = true ->
  String.compare a b = Z.compare (digits_number a) (digits_number b).
Proof.
  revert a b. induction pat as [|p pat IH]; intros [|c a] [|d b];
    cbn [fits_layout digit_count digits_number String.compare];
    try discriminate; [reflexivity|].
  intros Ha Hb. apply andb_true_iff in Ha, Hb.
  destruct Ha as [Ha1 Ha2], Hb as [Hb1 Hb2].
  pose proof (fits_layout_digit_count pat a b Ha2 Hb2) as Hk.
  pose proof (digits_number_bound a) as Ba.
  pose proof (digits_number_bound b) as Bb.
  rewrite <- Hk in Bb.
  destruct (p =? "d")%char.
  - rewrite Ha1, Hb1, ascii_compare_digits, <- Hk.
    pose proof (digit_val_range c Ha1). pose proof (digit_val_range d Hb1).
    assert (0 < 10 ^ digit_count a).
    { apply Z.pow_pos_nonneg; [lia | apply digit_count_nonneg]. }
    destruct (Z.compare_spec (PyStr.digit_val c) (PyStr.digit_val d))
      as [E|L|G].
    + rewrite E, (IH a b Ha2 Hb2).
      destruct (Z.compare_spec (digits_number a) (digits_number b));
        symmetry; [apply Z.compare_eq_iff | apply Z.compare_lt_iff
                   | apply Z.compare_gt_iff]; lia.
    + symmetry. apply Z.compare_lt_iff. nia.
    + symmetry. apply Z.compare_gt_iff. nia.
  - apply Ascii.eqb_eq in Ha1, Hb1. subst c d.
    rewrite ascii_compare_refl.
    destruct (PyStr.isdigit p); [|now apply IH].
    rewrite (IH a b Ha2 Hb2), <- Hk.
    destruct (Z.compare_spec (digits_number a) (digits_number b));
      symmetry; [apply Z.compare_eq_iff | apply Z.compare_lt_iff
                 | apply Z.compare_gt_iff]; lia.
Qed.

Lemma padded_leb (a b : string) :
  padded_timestamp a = true -> padded_timestamp b = true ->
  String.leb a b = true <-> digits_number a <= digits_number b.
Proof.
  intros Ha Hb. unfold String.leb.
  rewrite (fits_layout_compare _ a b Ha Hb).
  destruct (Z.compare_spec (digits_number a) (digits_number b));
    split; intros; try reflexivity; try discriminate; lia.
Qed.

Lemma StronglySorted_weaken {A : Type} (R R' : A -> A -> Prop) (l : list A) :
  (forall x y, In x l -> In y l -> R x y -> R' x y) ->
  StronglySorted R l -> StronglySorted R' l.
Proof.
  intros H Hs. induction Hs as [|x l Hs IH Hall]; constructor.
  - apply IH. intros y z Hy Hz. apply H; now right.
  - rewrite Forall_forall in *. intros y Hy.
    apply H; [now left | now right | now apply Hall].
Qed.

Lemma join_donation_date (s : store) (d : donation) (r : search_row) :
  join_donation s d = Some r -> sr_donation_date r = donation_date d.
Proof.
  unfold join_donation. destruct (select_donor _ _); [|discriminate].
  intros H. injection H as <-. reflexivity.
Qed.

(** *** The search *)

Lemma joined_rows_In (s : store) (ds : list donation) (r : search_row) :
  In r (joined_rows s ds)
  <-> exists d, In d ds /\ join_donation s d = Some r.
Proof.
  induction ds as [|d ds IH]; simpl.
  - split; [intros [] | intros [d [[] _]]].
  - destruct (join_donation s d) as [r0|] eqn:E; simpl; rewrite ?IH.
    + split.
      * intros [<-|[d' [H1 H2]]]; [exists d; auto | exists d'; auto].
      * intros [d' [[<-|H1] H2]]; [left; congruence | right; exists d'; auto].
    + split.
      * intros [d' [H1 H2]]. exists d'. auto.
      * intros [d' [[<-|H1] H2]]; [congruence | exists d'; auto].
Qed.

Lemma search_query_contains (s : store) (col : search_row -> option string)
  (term : string) :
  wildcard_free term = true ->
  nul_free term = true ->
  search_query s col term
  = sort_by date_desc
            (filter (fun r => column_contains (col r) term)
                    (joined_rows s (Donations s))).
Proof.
  intros Hw Hz. unfold search_query. f_equal. apply filter_ext.
  intros r. now apply where_like_contains.
Qed.

(** The length [LIKE] tests is that of the term and its two [%]. *)
Lemma lower_char_bytes (c : ascii) :
  (PyStr.code (Sql.lower_char c) <? 128)%N = (PyStr.code c <? 128)%N.
Proof.
  apply eqb_prop.
  exact (by_chars (fun c => Bool.eqb (PyStr.code (Sql.lower_char c) <? 128)%N
                                     (PyStr.code c <? 128)%N)
                  ltac:(vm_compute; reflexivity) c).
Qed.

Lemma utf8_length_lower (t : string) :
  Sql.utf8_length (Sql.lower t) = Sql.utf8_length t.
Proof.
  induction t as [|c t IH]; [reflexivity|].
  change (Sql.lower (String c t))
    with (String (Sql.lower_char c) (Sql.lower t)).
  cbn [Sql.utf8_length]. now rewrite IH, lower_char_bytes.
Qed.

Lemma utf8_length_append (a b : string) :
  Sql.utf8_length (a ++ b) = (Sql.utf8_length a + Sql.utf8_length b)%N.
Proof.
  induction a as [|c a IH]; [reflexivity|].
  change (String c a ++ b) with (String c (a ++ b)).
  cbn [Sql.utf8_length]. rewrite IH. lia.
Qed.

Lemma search_accepts_short_term (s : store) (term : string) :
  (Sql.utf8_length term <= 49998)%N -> search_refused s term = false.
Proof.
  intros H. unfold search_refused.
  destruct (joined_rows s (Donations s)); [reflexivity|].
  unfold Sql.like_refuses, Sql.like_pattern_limit.
  rewrite utf8_length_lower, !utf8_length_append.
  change (Sql.utf8_length "%") with 1%N.
  apply N.ltb_ge. lia.
Qed.

Lemma display_results_prints (headers : list string)
  (rows : list (list Sql.value)) (title : string) (w : world) :
  printed (display_results headers rows title) w
  = (stdout w ++
     match rows with
     | [] => [Text (nl ++ "--- No " ++ PyStr.lower title ++ " found. ---")]
     | _ => [Text (nl ++ "--- " ++ title ++ " ---");
             Rows headers rows;
             Text "---------------"]
     end)%list.
Proof.
  destruct w as [s inp out pn sn].
  destruct rows as [|r rows]; unfold display_results; io_unfold;
    cbv beta iota zeta; unfold stdout, snd; [reflexivity|].
  rewrite <- !app_assoc. reflexivity.
Qed.

(** [search_donations] with a valid choice and a non-empty term ends in
    [display_results] on the rows of the query, or in the error line when
    the query fails. *)
Lemma search_donations_displays (s : store) (choice l1 : string)
  (rest : list string) (out : list message) (pn sn : string)
  (col : search_row -> option string) :
  search_column choice = Some col ->
  nonempty (PyStr.strip l1) = true ->
  exists out',
    search_donations (mkWorld s (choice :: l1 :: rest) out pn sn)
    = (if search_refused s (PyStr.strip l1)
       then print search_error_line
       else display_results search_headers
              (map search_values (search_query s col (PyStr.strip l1)))
              (search_title choice (PyStr.strip l1)))
        (mkWorld s rest out' pn sn).
Proof.
  intros Hcol Hne.
  destruct (search_refused s (PyStr.strip l1)) eqn:Href; eexists;
    unfold search_donations; io_unfold; cbv beta iota zeta;
    unfold stdin, stdout, db, py_now, sql_now;
    rewrite Hne, Hcol; change (negb true) with false;
    cbv beta iota zeta; rewrite Href; reflexivity.
Qed.

Lemma search_donations_prints (w : world) (choice l1 : string)
  (rest : list string) (col : search_row -> option string) :
  stdin w = choice :: l1 :: rest ->
  search_column choice = Some col ->
  nonempty (PyStr.strip l1) = true ->
  exists pre,
    printed search_donations w
    = (pre ++
       if search_refused (db w) (PyStr.strip l1)
       then [Text search_error_line]
       else
         match search_query (db w) col (PyStr.strip l1) with
         | [] =>
             [Text (nl ++ "--- No "
                    ++ PyStr.lower (search_title choice (PyStr.strip l1))
                    ++ " found. ---")]
         | _ :: _ =>
             [Text (nl ++ "--- " ++ search_title choice (PyStr.strip l1)
                    ++ " ---");
              Rows search_headers
                   (map search_values
                        (search_query (db w) col (PyStr.strip l1)));
              Text "---------------"]
         end)%list.
Proof.
  destruct w as [s inp out pn sn]. unfold stdin, db. intros -> Hcol Hne.
  destruct (search_donations_displays s choice l1 rest out pn sn col Hcol Hne)
    as [out' E].
  exists out'. unfold printed at 1. rewrite E.
  destruct (search_refused s (PyStr.strip l1)); [reflexivity|].
  change (stdout (snd (display_results ?h ?r ?t ?w0)))
    with (printed (display_results h r t) w0).
  rewrite display_results_prints. unfold stdout at 1.
  destruct (search_query s col (PyStr.strip l1)); reflexivity.
Qed.

(** *** Adding a donation *)

Lemma flt_zero_fle (a : PyStr.pyfloat) :
  PyStr.flt PyStr.fzero a = true -> PyStr.fle a PyStr.fzero = false.
Proof. destruct a as [[]|[]| |[] m e]; cbv; congruence. Qed.

Lemma flt_zero_bind (a : PyStr.pyfloat) :
  PyStr.flt PyStr.fzero a = true -> Sql.bind_real a = Some a.
Proof. destruct a as [[]|[]| |[] m e]; cbv; congruence. Qed.

Lemma fle_zero_cases (a : PyStr.pyfloat) :
  PyStr.fle a PyStr.fzero = false ->
  PyStr.flt PyStr.fzero a = true \/ Sql.bind_real a = None.
Proof. destruct a as [[]|[]| |[] m e]; cbv; auto; congruence. Qed.

Lemma find_fst_some {A : Type} (f : Z * A -> bool) (l : list (Z * A)) (id : Z) :
  option_map fst (find f l) = Some id -> In id (map fst l).
Proof.
  destruct (find f l) as [[i n]|] eqn:E; simpl; [|discriminate].
  intros H. injection H as <-. apply find_some in E.
  apply in_map_iff. exists (i, n). split; [reflexivity | apply E].
Qed.

Lemma resolve_donor_exists (s : store) (n : string) (id : Z) :
  resolve s "Donors" "donor" n = Some id ->
  references (select_donor s) (Some id) = true.
Proof.
  intros H. apply find_fst_some in H. rewrite map_map in H. simpl in H.
  apply in_map_iff in H. destruct H as [d [H1 H2]].
  unfold references.
  destruct (select_donor s id) eqn:E; [reflexivity|].
  exfalso. revert E. apply select_donor_some. now exists d.
Qed.

Lemma resolve_volunteer_exists (s : store) (l : string) :
  references (select_volunteer s)
             (resolve_optional s "Volunteers" "volunteer" l) = true.
Proof.
  unfold resolve_optional. destruct (nonempty _); [|reflexivity].
  destruct (resolve _ _ _ _) as [id|] eqn:H; [|reflexivity].
  apply find_fst_some in H. apply in_map_iff in H.
  destruct H as [[i nm] [H0 H]]. cbn [fst] in H0. subst i.
  apply sort_by_In in H. apply in_map_iff in H. destruct H as [v [H1 H2]].
  injection H1 as H1 _.
  unfold references, select_volunteer.
  destruct (find _ _) eqn:E; [reflexivity|].
  apply (find_none _ _ E) in H2. simpl in H2. lia.
Qed.

Lemma resolve_event_exists (s : store) (l : string) :
  references (select_event s)
             (resolve_optional s "Events" "event" l) = true.
Proof.
  unfold resolve_optional. destruct (nonempty _); [|reflexivity].
  destruct (resolve _ _ _ _) as [id|] eqn:H; [|reflexivity].
  apply find_fst_some in H. apply in_map_iff in H.
  destruct H as [[i nm] [H0 H]]. cbn [fst] in H0. subst i.
  apply sort_by_In in H. apply in_map_iff in H. destruct H as [v [H1 H2]].
  injection H1 as H1 _.
  unfold references, select_event.
  destruct (find _ _) eqn:E; [reflexivity|].
  apply (find_none _ _ E) in H2. simpl in H2. lia.
Qed.

Lemma add_donation_result_accepted (s : store) (l1 l2 l3 l4 l5 l6 now : string)
  (id : Z) (a : PyStr.pyfloat) :
  resolve s "Donors" "donor" (PyStr.strip l1) = Some id ->
  PyStr.float l2 = Some a ->
  PyStr.flt PyStr.fzero a = true ->
  date_accepted l3 = true ->
  add_donation_result s l1 l2 l3 l4 l5 l6 now
  = with_donation s (new_donation s id a l3 l4 l5 l6 now).
Proof.
  intros Hr Hf Hpos Hd. unfold add_donation_result.
  rewrite Hr, Hf, (flt_zero_fle a Hpos), Hd.
  unfold insert_donation. rewrite (flt_zero_bind a Hpos), Hpos. simpl negb.
  cbv iota.
  rewrite (resolve_donor_exists s _ id Hr), resolve_volunteer_exists,
    resolve_event_exists.
  reflexivity.
Qed.

Lemma add_donation_result_rejected (s : store) (l1 l2 l3 l4 l5 l6 now : string) :
  ~ (exists id a,
        resolve s "Donors" "donor" (PyStr.strip l1) = Some id
        /\ PyStr.float l2 = Some a
        /\ PyStr.flt PyStr.fzero a = true
        /\ date_accepted l3 = true) ->
  add_donation_result s l1 l2 l3 l4 l5 l6 now = s.
Proof.
  intros Hn. unfold add_donation_result.
  destruct (resolve s "Donors" "donor" (PyStr.strip l1)) as [id|] eqn:Hr;
    [|reflexivity].
  destruct (PyStr.float l2) as [a|] eqn:Hf; [|reflexivity].
  destruct (PyStr.fle a PyStr.fzero) eqn:Hle; [reflexivity|].
  destruct (date_accepted l3) eqn:Hd; [|reflexivity].
  destruct (fle_zero_cases a Hle) as [Hpos|Hnan].
  - exfalso. apply Hn. exists id, a. auto.
  - unfold insert_donation. rewrite Hnan. reflexivity.
Qed.

Lemma with_donation_changes (s : store) (row : donation) :
  with_donation s row <> s.
Proof.
  intros H. apply (f_equal (fun x => List.length (Donations x))) in H.
  simpl in H. rewrite length_app in H. simpl in H. lia.
Qed.

(** C1 as stated fails: a donor that resolves and an amount greater than
    0 do not suffice, the date answer must be accepted too.  With donor
    "Ada Lovelace" on file, amount "50" and date "tomorrow", nothing is
    inserted. *)
Lemma add_donation_bad_date_counterexample :
  fst (find_id_by_name "Donors" "donor" (PyStr.strip "Ada Lovelace")
         (ex_world ex_store1
            ["Ada Lovelace"; "50"; "tomorrow"; ""; ""; ""]))
  = Ret (Some 1)
  /\ PyStr.float "50" = Some (S754_finite false 7036874417766400 (-47))
  /\ PyStr.flt PyStr.fzero (S754_finite false 7036874417766400 (-47)) = true
  /\ final_db add_donation
       (ex_world ex_store1 ["Ada Lovelace"; "50"; "tomorrow"; ""; ""; ""])
     = ex_store1
  /\ Donations ex_store1 = [].
Proof. vm_compute. repeat split; reflexivity. Qed.

(** C1, amended.  When all six prompts of [add_donation] are answered, a
    donation row is committed if and only if the donor name resolves to an
    existing donor, the amount parses as a number greater than 0, and the
    date answer is blank or well-formed for [%Y-%m-%d %H:%M:%S]; the row
    committed is the one built from the answers.  In every other case,
    the input ending before the sixth answer included, no row is inserted
    and the store is unchanged.  (Resolving is what [find_id_by_name]
    returns.) *)
Theorem add_donation_commits_iff_accepted :
  (forall (s : store) (l1 l2 l3 l4 l5 l6 : string) (rest : list string)
          (out : list message) (pn sn : string),
      let w := mkWorld s (l1 :: l2 :: l3 :: l4 :: l5 :: l6 :: rest) out pn sn in
      let accepted :=
        exists id a,
          resolve s "Donors" "donor" (PyStr.strip l1) = Some id
          /\ PyStr.float l2 = Some a
          /\ PyStr.flt PyStr.fzero a = true
          /\ date_accepted l3 = true in
      (final_db add_donation w <> s <-> accepted)
      /\ (forall id a,
             resolve s "Donors" "donor" (PyStr.strip l1) = Some id ->
             PyStr.float l2 = Some a ->
             PyStr.flt PyStr.fzero a = true ->
             date_accepted l3 = true ->
             final_db add_donation w
             = with_donation s (new_donation s id a l3 l4 l5 l6 pn))
      /\ (~ accepted -> final_db add_donation w = s))
  /\ (forall w : world,
         (List.length (stdin w) < 6)%nat -> final_db add_donation w = db w)
  /\ (forall (w : world) (t c n : string),
         fst (find_id_by_name t c n w) = Ret (resolve (db w) t c n)).
Proof.
  split; [|split].
  - intros s l1 l2 l3 l4 l5 l6 rest out pn sn w accepted. subst w.
    rewrite add_donation_db.
    assert (Hacc : forall id a,
               resolve s "Donors" "donor" (PyStr.strip l1) = Some id ->
               PyStr.float l2 = Some a ->
               PyStr.flt PyStr.fzero a = true ->
               date_accepted l3 = true ->
               add_donation_result s l1 l2 l3 l4 l5 l6 pn
               = with_donation s (new_donation s id a l3 l4 l5 l6 pn)).
    { intros. now apply add_donation_result_accepted. }
    assert (Hrej : ~ accepted -> add_donation_result s l1 l2 l3 l4 l5 l6 pn = s).
    { apply add_donation_result_rejected. }
    split; [|split; assumption].
    split.
    + intros Hch.
      destruct (resolve s "Donors" "donor" (PyStr.strip l1)) as [id|] eqn:Hr;
        [|exfalso; apply Hch, Hrej; intros (i & a & H & _); discriminate].
      destruct (PyStr.float l2) as [a|] eqn:Hf;
        [|exfalso; apply Hch, Hrej; intros (i & a & _ & H & _); discriminate].
      destruct (PyStr.flt PyStr.fzero a) eqn:Hp;
        [|exfalso; apply Hch, Hrej; intros (i & a' & _ & H1 & H2 & _);
          congruence].
      destruct (date_accepted l3) eqn:Hd;
        [|exfalso; apply Hch, Hrej; intros (i & a' & _ & _ & _ & H);
          discriminate].
      exists id, a. auto.
    + intros (id & a & Hr & Hf & Hp & Hd).
      rewrite (Hacc id a Hr Hf Hp Hd). apply with_donation_changes.
  - apply add_donation_short.
  - intros w t c n. apply find_id_by_name_resolve.
Qed.

Lemma add_donation_commits_iff_accepted_witness :
  resolve ex_store1 "Donors" "donor" (PyStr.strip " ada lovelace ") = Some 1
  /\ PyStr.float "12.5" = Some (S754_finite false 7036874417766400 (-49))
  /\ PyStr.flt PyStr.fzero (S754_finite false 7036874417766400 (-49)) = true
  /\ date_accepted "2024-02-29 08:00:00" = true
  /\ final_db add_donation
       (mkWorld ex_store1
          [" ada lovelace "; "12.5"; "2024-02-29 08:00:00"; ""; ""; "leap day"]
          [] ex_now ex_now)
     = with_donation ex_store1
         (new_donation ex_store1 1 (S754_finite false 7036874417766400 (-49))
                       "2024-02-29 08:00:00" "" "" "leap day" ex_now).
Proof.
  assert (H1 : resolve ex_store1 "Donors" "donor" (PyStr.strip " ada lovelace ")
               = Some 1) by (vm_compute; reflexivity).
  assert (H2 : PyStr.float "12.5"
               = Some (S754_finite false 7036874417766400 (-49)))
    by (vm_compute; reflexivity).
  assert (H3 : PyStr.flt PyStr.fzero (S754_finite false 7036874417766400 (-49))
               = true) by reflexivity.
  assert (H4 : date_accepted "2024-02-29 08:00:00" = true)
    by (vm_compute; reflexivity).
  repeat (split; [assumption|]).
  destruct add_donation_commits_iff_accepted as [H _].
  pose proof (H ex_store1 " ada lovelace " "12.5" "2024-02-29 08:00:00" "" ""
                "leap day" [] [] ex_now ex_now) as H'.
  cbv zeta in H'. destruct H' as (_ & H' & _).
  exact (H' 1 _ H1 H2 H3 H4).
Defined.

Ltac in_out :=
  repeat first [ apply in_or_app; right; left; reflexivity
               | apply in_or_app; left ].

Lemma resolve_donors_find (s : store) (n : string) :
  resolve s "Donors" "donor" n
  = option_map fst (find (name_matches n)
                         (map (fun d => (donor_id d, donor_name d)) (Donors s))).
Proof. reflexivity. Qed.

Lemma resolve_volunteers_find (s : store) (n : string) :
  resolve s "Volunteers" "volunteer" n
  = option_map fst
      (find (name_matches n)
            (sort_by by_name
               (map (fun v => (volunteer_id v, volunteer_name v))
                    (Volunteers s)))).
Proof. reflexivity. Qed.

Lemma resolve_events_find (s : store) (n : string) :
  resolve s "Events" "event" n
  = option_map fst
      (find (name_matches n)
            (sort_by by_name
               (map (fun e => (event_id e, event_name e)) (Events s)))).
Proof. reflexivity. Qed.

(** The warnings of [add_donation] for accepted donor, amount and date. *)
Lemma add_donation_warnings (s : store) (l1 l2 l3 l4 l5 l6 : string)
  (rest : list string) (out : list message) (pn sn : string)
  (id : Z) (a : PyStr.pyfloat) :
  resolve s "Donors" "donor" (PyStr.strip l1) = Some id ->
  PyStr.float l2 = Some a ->
  PyStr.flt PyStr.fzero a = true ->
  date_accepted l3 = true ->
  let w := mkWorld s (l1 :: l2 :: l3 :: l4 :: l5 :: l6 :: rest) out pn sn in
  (nonempty (PyStr.strip l4) = true ->
   resolve s "Volunteers" "volunteer" (PyStr.strip l4) = None ->
   In (Text ("Warning: Volunteer '" ++ PyStr.strip l4
             ++ "' not found. Donation will be added without volunteer link."))
      (printed add_donation w))
  /\ (nonempty (PyStr.strip l5) = true ->
      resolve s "Events" "event" (PyStr.strip l5) = None ->
      In (Text ("Warning: Event '" ++ PyStr.strip l5
                ++ "' not found. Donation will be added without event link."))
         (printed add_donation w)).
Proof.
  intros Hr Hf Hp Hd w. subst w.
  rewrite resolve_donors_find in Hr.
  rewrite resolve_volunteers_find, resolve_events_find.
  unfold date_accepted in Hd.
  unfold add_donation. io_unfold. cbv beta iota zeta. simpl.
  destruct (find (name_matches (PyStr.strip l1)) _) as [[i n]|];
    [|discriminate].
  simpl in Hr. injection Hr as ->. simpl.
  rewrite Hf. simpl. rewrite (flt_zero_fle a Hp). simpl.
  split.
  - intros H4 Hv.
    destruct (find (name_matches (PyStr.strip l4)) _) as [[? ?]|] eqn:E4;
      [discriminate|].
    destruct (nonempty (PyStr.strip l3));
      [destruct (PyTime.strptime _ _); [|discriminate]|];
      simpl; rewrite H4; simpl; rewrite E4; simpl;
      destruct (nonempty (PyStr.strip l5)); simpl;
      try destruct (find (name_matches (PyStr.strip l5)) _) as [[? ?]|];
      simpl;
      match goal with
      | |- context [insert_donation ?a ?b ?c ?d ?e ?f ?g] =>
          destruct (insert_donation a b c d e f g)
      end; simpl; in_out.
  - intros H5 He.
    destruct (find (name_matches (PyStr.strip l5)) _) as [[? ?]|] eqn:E5;
      [discriminate|].
    destruct (nonempty (PyStr.strip l3));
      [destruct (PyTime.strptime _ _); [|discriminate]|];
      simpl;
      destruct (nonempty (PyStr.strip l4)); simpl;
      try destruct (find (name_matches (PyStr.strip l4)) _) as [[? ?]|];
      simpl; rewrite H5; simpl; rewrite E5; simpl;
      match goal with
      | |- context [insert_donation ?a ?b ?c ?d ?e ?f ?g] =>
          destruct (insert_donation a b c d e f g)
      end; simpl; in_out.
Qed.

Lemma add_donation_unknown_donor (w : world) (l1 : string)
  (rest : list string) :
  stdin w = l1 :: rest ->
  resolve (db w) "Donors" "donor" (PyStr.strip l1) = None ->
  final_db add_donation w = db w
  /\ stdin (snd (add_donation w)) = rest
  /\ last (printed add_donation w) (Text "")
     = Text ("Donor '" ++ PyStr.strip l1
             ++ "' not found. Please add the donor first.").
Proof.
  destruct w as [s inp out pn sn]. unfold stdin, db. intros -> Hr.
  rewrite resolve_donors_find in Hr.
  unfold add_donation. io_unfold. cbv beta iota zeta. simpl.
  destruct (find (name_matches (PyStr.strip l1)) _) as [[i n]|];
    [discriminate|].
  simpl. split; [reflexivity|]. split; [reflexivity | apply last_snoc].
Qed.

(** C5.  In [add_donation], with the donor resolved, the amount a number
    greater than 0 and the date accepted, the donation is inserted whatever
    the volunteer and event answers are: each reference is the identifier
    the name resolves to, and is empty when the name is blank or does not
    resolve; a name given that does not resolve is reported by a warning.
    An unresolved donor name instead ends the run at once: it is reported,
    no further answer is read and nothing is inserted. *)
Theorem unresolved_volunteer_or_event_is_soft :
  (forall (s : store) (l1 l2 l3 l4 l5 l6 : string) (rest : list string)
          (out : list message) (pn sn : string) (id : Z) (a : PyStr.pyfloat),
      resolve s "Donors" "donor" (PyStr.strip l1) = Some id ->
      PyStr.float l2 = Some a ->
      PyStr.flt PyStr.fzero a = true ->
      date_accepted l3 = true ->
      let w := mkWorld s (l1 :: l2 :: l3 :: l4 :: l5 :: l6 :: rest) out pn sn in
      exists row,
        final_db add_donation w = with_donation s row
        /\ donation_donor_id row = id
        /\ amount row = a
        /\ donation_volunteer_id row
           = resolve_optional s "Volunteers" "volunteer" l4
        /\ donation_event_id row = resolve_optional s "Events" "event" l5
        /\ (nonempty (PyStr.strip l4) = true ->
            resolve s "Volunteers" "volunteer" (PyStr.strip l4) = None ->
            donation_volunteer_id row = None
            /\ In (Text ("Warning: Volunteer '" ++ PyStr.strip l4
                         ++ "' not found. Donation will be added without volunteer link."))
                  (printed add_donation w))
        /\ (nonempty (PyStr.strip l5) = true ->
            resolve s "Events" "event" (PyStr.strip l5) = None ->
            donation_event_id row = None
            /\ In (Text ("Warning: Event '" ++ PyStr.strip l5
                         ++ "' not found. Donation will be added without event link."))
                  (printed add_donation w)))
  /\ (forall (w : world) (l1 : string) (rest : list string),
         stdin w = l1 :: rest ->
         resolve (db w) "Donors" "donor" (PyStr.strip l1) = None ->
         final_db add_donation w = db w
         /\ stdin (snd (add_donation w)) = rest
         /\ last (printed add_donation w) (Text "")
            = Text ("Donor '" ++ PyStr.strip l1
                    ++ "' not found. Please add the donor first.")).
Proof.
  split.
  - intros s l1 l2 l3 l4 l5 l6 rest out pn sn id a Hr Hf Hp Hd w.
    destruct (add_donation_warnings s l1 l2 l3 l4 l5 l6 rest out pn sn id a
                Hr Hf Hp Hd) as [Wv We].
    exists (new_donation s id a l3 l4 l5 l6 pn). subst w.
    split.
    { rewrite add_donation_db. now apply add_donation_result_accepted. }
    split; [reflexivity|]. split; [reflexivity|].
    split; [reflexivity|]. split; [reflexivity|]. split.
    + intros H4 Hv. split; [|now apply Wv].
      unfold new_donation, resolve_optional. simpl. now rewrite H4.
    + intros H5 He. split; [|now apply We].
      unfold new_donation, resolve_optional. simpl. now rewrite H5.
  - apply add_donation_unknown_donor.
Qed.

Lemma unresolved_volunteer_or_event_is_soft_witness :
  resolve ex_store5 "Donors" "donor" (PyStr.strip "ada lovelace") = Some 1
  /\ PyStr.float "20" = Some (S754_finite false 5629499534213120 (-48))
  /\ PyStr.flt PyStr.fzero (S754_finite false 5629499534213120 (-48)) = true
  /\ date_accepted "" = true
  /\ nonempty (PyStr.strip "Carol") = true
  /\ resolve ex_store5 "Volunteers" "volunteer" (PyStr.strip "Carol") = None
  /\ (exists row,
         final_db add_donation
           (mkWorld ex_store5
              ["ada lovelace"; "20"; ""; "Carol"; "Spring Gala"; ""]
              [] ex_now ex_now)
         = with_donation ex_store5 row
         /\ donation_volunteer_id row = None
         /\ donation_event_id row
            = resolve_optional ex_store5 "Events" "event" "Spring Gala").
Proof.
  assert (H1 : resolve ex_store5 "Donors" "donor" (PyStr.strip "ada lovelace")
               = Some 1) by (vm_compute; reflexivity).
  assert (H2 : PyStr.float "20"
               = Some (S754_finite false 5629499534213120 (-48)))
    by (vm_compute; reflexivity).
  assert (H3 : PyStr.flt PyStr.fzero (S754_finite false 5629499534213120 (-48))
               = true) by reflexivity.
  assert (H4 : date_accepted "" = true) by reflexivity.
  assert (H5 : nonempty (PyStr.strip "Carol") = true) by reflexivity.
  assert (H6 : resolve ex_store5 "Volunteers" "volunteer" (PyStr.strip "Carol")
               = None) by (vm_compute; reflexivity).
  repeat (split; [assumption|]).
  destruct unresolved_volunteer_or_event_is_soft as [H _].
  pose proof (H ex_store5 "ada lovelace" "20" "" "Carol" "Spring Gala" ""
                [] [] ex_now ex_now 1 _ H1 H2 H3 H4) as H'.
  cbv zeta in H'. destruct H' as (row & E & _ & _ & _ & Ee & Hv & _).
  exists row. split; [exact E|]. split; [exact (proj1 (Hv H5 H6)) | exact Ee].
Defined.

(** *** The search, with the limit of [LIKE] *)

Lemma add_donor_inserts (w : world) (l1 l2 : string) (rest : list string) :
  stdin w = l1 :: l2 :: rest ->
  PyStr.strip l1 <> EmptyString ->
  let id := next_rowid (seq_Donors (db w)) (map donor_id (Donors (db w))) in
  final_db add_donor w
  = mkStore (Donors (db w)
             ++ [mkDonor id (PyStr.strip l1) (PyStr.strip l2) (sql_now w)])%list
            (Volunteers (db w)) (Events (db w)) (Donations (db w))
            id (seq_Volunteers (db w)) (seq_Events (db w))
            (seq_Donations (db w))
  /\ last (printed add_donor w) (Text "")
     = Text ("Donor '" ++ PyStr.strip l1 ++ "' added successfully (ID: "
             ++ str_of_Z id ++ ").").
Proof.
  destruct w as [s inp out pn sn]. unfold stdin, db, sql_now.
  intros -> Hne. cbv zeta. apply nonempty_true in Hne.
  unfold add_donor. io_unfold. cbv beta iota zeta. simpl.
  rewrite Hne. simpl. split; [reflexivity | apply last_snoc].
Qed.

Lemma prefix_refl (t : string) : String.prefix t t = true.
Proof.
  induction t as [|c t IH]; [reflexivity|].
  simpl. destruct (ascii_dec c c) as [_|N]; [exact IH | now destruct N].
Qed.

Lemma occurs_inb_self (t : string) : occurs_inb t t = true.
Proof.
  destruct t as [|c t]; [reflexivity|].
  cbn [occurs_inb]. now rewrite prefix_refl.
Qed.

(** A run of the letter [a]: clean as a name, and as many bytes as
    letters. *)
Lemma letters_rstrip (k : N) :
  PyStr.rstrip (N.iter (N.succ k) (String "a") EmptyString)
  = N.iter (N.succ k) (String "a") EmptyString.
Proof.
  induction k as [|k IH] using N.peano_ind; [reflexivity|].
  rewrite (N.iter_succ (N.succ k)).
  cbn [PyStr.rstrip]. rewrite IH. rewrite N.iter_succ. reflexivity.
Qed.

Lemma letters_length (k : N) :
  Sql.utf8_length (N.iter k (String "a") EmptyString) = k.
Proof.
  induction k as [|k IH] using N.peano_ind; [reflexivity|].
  rewrite N.iter_succ. cbn [Sql.utf8_length]. rewrite IH.
  change (if (PyStr.code "a" <? 128)%N then 1%N else 2%N) with 1%N. lia.
Qed.

Lemma long_name_facts :
  PyStr.strip long_name = long_name
  /\ long_name <> EmptyString
  /\ Sql.utf8_length long_name = 49999%N.
Proof.
  unfold long_name. split; [|split].
  - change 49999%N with (N.succ 49998).
    unfold PyStr.strip. rewrite N.iter_succ at 1.
    cbn [PyStr.lstrip]. change (PyStr.isspace "a") with false. cbv iota.
    rewrite <- N.iter_succ. apply letters_rstrip.
  - change 49999%N with (N.succ 49998). rewrite N.iter_succ. discriminate.
  - apply letters_length.
Qed.

(** A donor is added under a name that is too long for [LIKE], then a
    donation for that donor; the search for the name fails. *)
Lemma long_term_search (n : string) :
  PyStr.strip n = n ->
  n <> EmptyString ->
  (49998 < Sql.utf8_length n)%N ->
  let s1 := db (snd (menu_action "1" (ex_world empty_store [n; ""]))) in
  let s2 :=
    db (snd (menu_action "7" (ex_world s1 [n; "5"; ""; ""; ""; ""]))) in
  map sr_donor_name (joined_rows s2 (Donations s2)) = [n]
  /\ last (printed search_donations (ex_world s2 ["1"; n])) (Text "")
     = Text search_error_line.
Proof.
  intros Hs Hne Hlen s1 s2.
  assert (E1 : s1 = mkStore [mkDonor 1 n "" ex_now] [] [] [] 1 0 0 0).
  { subst s1. change (menu_action "1") with add_donor.
    destruct (add_donor_inserts (ex_world empty_store [n; ""]) n "" []
                                eq_refl) as [E _].
    { now rewrite Hs. }
    cbv zeta in E. unfold final_db in E. rewrite E, Hs. reflexivity. }
  assert (Hres : resolve s1 "Donors" "donor" (PyStr.strip n) = Some 1).
  { rewrite E1, Hs, resolve_donors_find. cbn [Donors map find].
    unfold name_matches. cbn [snd fst]. now rewrite String.eqb_refl. }
  assert (E2 : s2 = with_donation s1
                      (new_donation s1 1
                         (S754_finite false 5629499534213120 (-50))
                         "" "" "" "" ex_now)).
  { subst s2. change (menu_action "7") with add_donation.
    unfold ex_world, start.
    change (db (snd (add_donation ?w))) with (final_db add_donation w).
    rewrite add_donation_db.
    apply add_donation_result_accepted;
      [exact Hres | vm_compute; reflexivity | reflexivity | reflexivity]. }
  assert (Hrows : map sr_donor_name (joined_rows s2 (Donations s2)) = [n]).
  { rewrite E2, E1. reflexivity. }
  split; [exact Hrows|].
  destruct (search_donations_prints (ex_world s2 ["1"; n]) "1" n []
              (fun r => Some (sr_donor_name r)) eq_refl eq_refl) as [pre E].
  { rewrite Hs. now apply nonempty_true. }
  rewrite E, ex_world_db, Hs.
  assert (Href : search_refused s2 n = true).
  { unfold search_refused.
    destruct (joined_rows s2 (Donations s2)); [discriminate|].
    unfold Sql.like_refuses, Sql.like_pattern_limit.
    rewrite utf8_length_lower, !utf8_length_append.
    change (Sql.utf8_length "%") with 1%N.
    apply N.ltb_lt. lia. }
  rewrite Href. apply last_snoc.
Qed.

(** C3 as stated fails, in five ways.  The rows below are those of the
    donor search ([choice] "1").
    (1) The term is used as a [LIKE] pattern: the term [_] returns both
    donations of Ada Lovelace, whose name has no underscore.
    (2) [LIKE] reads the pattern up to its first NUL character: the term
    that is one NUL character returns both donations as well.
    (3) Only the letters A..Z are folded: the donation of the donor whose
    name starts with the capital accented letter is not returned for the
    same name with the small one, which it contains ignoring letter case.
    (4) The rows are ordered by the text of the stored date: the donation
    dated [2024-2-5 1:2:3], which [strptime] reads as 5 February, is listed
    before the one of 1 December of the same year.
    (5) [LIKE] refuses a pattern of more than 50000 bytes: the search for
    the donor whose name has 49999 letters, under that name, prints an
    error and no row, although that donor has a donation. *)
Lemma search_donations_counterexample :
  (map (fun r => (sr_donation_id r, sr_donor_name r))
       (search_query ex_store5 (fun r => Some (sr_donor_name r)) "_")
   = [(1, "Ada Lovelace"); (2, "Ada Lovelace")]
   /\ contains_ignoring_letter_case "_" "Ada Lovelace" = false)
  /\ (nonempty (PyStr.strip nul_term) = true
      /\ map (fun r => (sr_donation_id r, sr_donor_name r))
             (search_query ex_store5 (fun r => Some (sr_donor_name r))
                           (PyStr.strip nul_term))
         = [(1, "Ada Lovelace"); (2, "Ada Lovelace")]
      /\ contains_ignoring_letter_case nul_term "Ada Lovelace" = false)
  /\ (map sr_donor_name (joined_rows ex_store_emile2 (Donations ex_store_emile2))
      = [name_Emile]
      /\ contains_ignoring_letter_case name_emile name_Emile = true
      /\ search_query ex_store_emile2 (fun r => Some (sr_donor_name r))
                      name_emile
         = [])
  /\ (map sr_donation_date
          (search_query ex_store_dates2 (fun r => Some (sr_donor_name r))
                        "ada")
      = ["2024-2-5 1:2:3"; "2024-12-01 00:00:00"]
      /\ PyTime.strptime "2024-2-5 1:2:3" "%Y-%m-%d %H:%M:%S"
         = Some (PyTime.mkFields 2024 2 5 1 2 3)
      /\ PyTime.strptime "2024-12-01 00:00:00" "%Y-%m-%d %H:%M:%S"
         = Some (PyTime.mkFields 2024 12 1 0 0 0))
  /\ (map sr_donor_name (joined_rows ex_store_long2 (Donations ex_store_long2))
      = [long_name]
      /\ contains_ignoring_letter_case long_name long_name = true
      /\ last (printed search_donations
                       (ex_world ex_store_long2 ["1"; long_name]))
              (Text "")
         = Text search_error_line).
Proof.
  split; [vm_compute; split; reflexivity|].
  split; [vm_compute; repeat split; reflexivity|].
  split; [vm_compute; repeat split; reflexivity|].
  split; [vm_compute; repeat split; reflexivity|].
  destruct long_name_facts as (Hs & Hne & Hlen).
  pose proof (long_term_search long_name Hs Hne) as H.
  rewrite Hlen in H. specialize (H eq_refl). cbv zeta in H.
  destruct H as [H1 H2].
  split; [exact H1|]. split; [|exact H2].
  apply occurs_inb_self.
Qed.

(** C3, amended.  For a non-empty search term without the wildcards [%]
    and [_] and without a NUL character, and a valid choice of axis, the
    rows of the query of [search_donations] are exactly the donations
    (joined to their donor) whose name on the chosen axis, read up to its
    first NUL character, contains the term ignoring the case of the letters
    A..Z, each once, ordered by the text of the stored donation date
    descending; that order is newest first when every stored date is a
    zero-padded timestamp.  [search_donations] prints these rows, unless
    the query fails because the term is too long for [LIKE], which takes a
    term of more than 49998 bytes and a donation in the store; then it
    prints the error.  It changes nothing in the store.  On the donor axis
    a donation without volunteer and without event whose donor's name
    contains the term is among the rows. *)
Theorem search_donations_contains_term
  (w : world) (choice l1 : string) (rest : list string)
  (col : search_row -> option string) :
  stdin w = choice :: l1 :: rest ->
  search_column choice = Some col ->
  nonempty (PyStr.strip l1) = true ->
  wildcard_free (PyStr.strip l1) = true ->
  nul_free (PyStr.strip l1) = true ->
  let term := PyStr.strip l1 in
  let res := search_query (db w) col term in
  Permutation res
    (filter (fun r => column_contains (col r) term)
            (joined_rows (db w) (Donations (db w))))
  /\ (forall r, In r res <->
                exists d n,
                  In d (Donations (db w))
                  /\ join_donation (db w) d = Some r
                  /\ col r = Some n
                  /\ occurs_in (Sql.lower term)
                               (Sql.lower (Sql.until_nul n)))
  /\ StronglySorted
       (fun a b => String.leb (sr_donation_date b) (sr_donation_date a) = true)
       res
  /\ ((forall d, In d (Donations (db w)) ->
                 padded_timestamp (donation_date d) = true) ->
      StronglySorted
        (fun a b => digits_number (sr_donation_date b)
                    <= digits_number (sr_donation_date a))
        res)
  /\ (exists pre,
         printed search_donations w
         = (pre ++
            if search_refused (db w) term
            then [Text search_error_line]
            else
              match res with
              | [] =>
                  [Text (nl ++ "--- No "
                         ++ PyStr.lower (search_title choice term)
                         ++ " found. ---")]
              | _ :: _ =>
                  [Text (nl ++ "--- " ++ search_title choice term ++ " ---");
                   Rows search_headers (map search_values res);
                   Text "---------------"]
              end)%list)
  /\ ((Sql.utf8_length term <= 49998)%N \/ Donations (db w) = [] ->
      search_refused (db w) term = false)
  /\ final_db search_donations w = db w
  /\ (choice = "1" ->
      forall d dn,
        In d (Donations (db w)) ->
        donation_volunteer_id d = None ->
        donation_event_id d = None ->
        select_donor (db w) (donation_donor_id d) = Some dn ->
        contains_ci term (donor_name dn) = true ->
        exists r, In r res
                  /\ sr_donation_id r = donation_id d
                  /\ sr_volunteer_name r = None
                  /\ sr_event_name r = None).
Proof.
  intros Hin Hcol Hne Hw Hz term res.
  assert (Hres : res = sort_by date_desc
                         (filter (fun r => column_contains (col r) term)
                                 (joined_rows (db w) (Donations (db w))))).
  { subst res. now apply search_query_contains. }
  assert (Hperm : Permutation res
                    (filter (fun r => column_contains (col r) term)
                            (joined_rows (db w) (Donations (db w))))).
  { rewrite Hres. apply Permutation_sym, sort_by_perm. }
  assert (Hmem : forall r,
             In r res <->
             In r (joined_rows (db w) (Donations (db w)))
             /\ column_contains (col r) term = true).
  { intros r.
    pose proof (filter_In (fun r => column_contains (col r) term) r
                          (joined_rows (db w) (Donations (db w)))) as F.
    cbv beta in F. rewrite <- F. split; intros H.
    - exact (Permutation_in _ Hperm H).
    - exact (Permutation_in _ (Permutation_sym Hperm) H). }
  assert (Hsorted : StronglySorted (fun a b => date_desc a b = true) res).
  { rewrite Hres.
    apply (sort_by_sorted _ date_desc date_desc_total date_desc_trans). }
  split; [exact Hperm|].
  split; [|split; [|split; [|split; [|split; [|split]]]]].
  - intros r. rewrite Hmem, joined_rows_In. split.
    + intros [[d [Hd Hj]] Hc]. unfold column_contains in Hc.
      destruct (col r) as [n|] eqn:En; [|discriminate].
      exists d, n. repeat split; try assumption.
      now apply occurs_inb_spec.
    + intros (d & n & Hd & Hj & Hn & Ho). split; [now exists d|].
      unfold column_contains. rewrite Hn. now apply occurs_inb_spec.
  - exact Hsorted.
  - intros Hpad.
    apply (StronglySorted_weaken (fun a b => date_desc a b = true));
      [|exact Hsorted].
    assert (Hrow : forall r, In r res ->
                             padded_timestamp (sr_donation_date r) = true).
    { intros r Hr. apply Hmem in Hr. destruct Hr as [Hr _].
      apply joined_rows_In in Hr. destruct Hr as (d & Hd & Hj).
      rewrite (join_donation_date _ _ _ Hj). now apply Hpad. }
    intros x y Hx Hy Hxy. unfold date_desc in Hxy.
    apply (padded_leb _ _ (Hrow y Hy) (Hrow x Hx)). exact Hxy.
  - now apply (search_donations_prints w choice l1 rest col).
  - intros [Hlen|Hnone]; [now apply search_accepts_short_term|].
    unfold search_refused. now rewrite Hnone.
  - apply search_donations_db.
  - intros -> d dn Hd Hv He Hsel Hc.
    injection Hcol as <-.
    exists (mkSearchRow (donation_id d) (donor_name dn) (amount d)
                        (donation_date d) None None (notes d)).
    split; [|repeat split].
    apply Hmem. split; [|exact Hc].
    apply joined_rows_In. exists d. split; [exact Hd|].
    unfold join_donation. now rewrite Hsel, Hv, He.
Qed.

Lemma search_donations_contains_term_witness :
  stdin (ex_world ex_store5 ["3"; " GALA "]) = "3" :: " GALA " :: []
  /\ search_column "3" = Some sr_event_name
  /\ nonempty (PyStr.strip " GALA ") = true
  /\ wildcard_free (PyStr.strip " GALA ") = true
  /\ nul_free (PyStr.strip " GALA ") = true
  /\ map sr_donation_id (search_query ex_store5 sr_event_name "GALA") = [2]
  /\ Permutation
       (search_query (db (ex_world ex_store5 ["3"; " GALA "])) sr_event_name
                     (PyStr.strip " GALA "))
       (filter (fun r => column_contains (sr_event_name r)
                                         (PyStr.strip " GALA "))
               (joined_rows (db (ex_world ex_store5 ["3"; " GALA "]))
                            (Donations (db (ex_world ex_store5 ["3"; " GALA "]))))).
Proof.
  repeat (split; [vm_compute; reflexivity|]).
  pose proof (search_donations_contains_term
                (ex_world ex_store5 ["3"; " GALA "]) "3" " GALA " []
                sr_event_name eq_refl eq_refl eq_refl eq_refl eq_refl) as H.
  cbv zeta in H. exact (proj1 H).
Defined.

(** ** Further properties of the program *)

Lemma add_donor_action (w : world) :
  action_step (db w) (final_db add_donor w).
Proof.
  destruct w as [s inp out pn sn]. unfold add_donor. io_unfold. simpl.
  destruct inp as [|l1 [|l2 rest]]; simpl; try apply act_none.
  destruct (nonempty (PyStr.strip l1)) eqn:E; simpl; [|apply act_none].
  eapply act_add_donor; [apply strip_clean, E | reflexivity].
Qed.

Lemma update_donor_action (w : world) :
  action_step (db w) (final_db update_donor w).
Proof.
  destruct w as [s inp out pn sn]. unfold update_donor. io_unfold. simpl.
  destruct inp as [|l0 inp]; simpl; try apply act_none.
  destruct (PyStr.int l0) as [n|]; simpl; try apply act_none.
  destruct (Sql.fits_int64 n); simpl; try apply act_none.
  destruct (select_donor s n) as [d|] eqn:Hsel; simpl; try apply act_none.
  destruct inp as [|l1 [|l2 rest]]; simpl; try apply act_none.
  destruct (nonempty (PyStr.strip l1)) eqn:E1;
    destruct (nonempty (PyStr.strip l2)) eqn:E2; simpl; try apply act_none;
    destruct (0 <? _); simpl;
    (eapply (act_update_donor s _ _ n);
     [rewrite Hsel; discriminate | | reflexivity]);
    intros x Hx; inversion Hx; subst; now apply strip_clean.
Qed.

Lemma delete_donor_action (w : world) :
  action_step (db w) (final_db delete_donor w).
Proof.
  destruct w as [s inp out pn sn]. unfold delete_donor. io_unfold. simpl.
  destruct inp as [|l0 inp]; simpl; try apply act_none.
  destruct (PyStr.int l0) as [n|]; simpl; try apply act_none.
  destruct (Sql.fits_int64 n); simpl; try apply act_none.
  destruct (select_donor s n) as [d|] eqn:Hsel; simpl; try apply act_none.
  destruct inp as [|l1 rest]; simpl; try apply act_none.
  destruct (PyStr.lower l1 =? "yes")%string; simpl; try apply act_none.
  destruct (0 <? _); simpl;
    (eapply (act_delete_donor s n); [rewrite Hsel; discriminate | reflexivity]).
Qed.

Lemma add_volunteer_action (w : world) :
  action_step (db w) (final_db add_volunteer w).
Proof.
  destruct w as [s inp out pn sn]. unfold add_volunteer. io_unfold. simpl.
  destruct inp as [|l1 [|l2 rest]]; simpl; try apply act_none.
  destruct (nonempty (PyStr.strip l1)) eqn:E; simpl; try apply act_none.
  destruct (insert_volunteer s (PyStr.strip l1) (PyStr.strip l2))
    as [s' id|e] eqn:Ei; simpl.
  - eapply act_add_volunteer; [apply strip_clean, E | exact Ei].
  - destruct (Sql.is_integrity e); simpl; apply act_none.
Qed.

Lemma add_event_action (w : world) :
  action_step (db w) (final_db add_event w).
Proof.
  destruct w as [s inp out pn sn]. unfold add_event. io_unfold. simpl.
  destruct inp as [|l1 [|l2 rest]]; simpl; try apply act_none.
  destruct (nonempty (PyStr.strip l1)) eqn:E; simpl; try apply act_none.
  destruct (nonempty (PyStr.strip l2)) eqn:E2; simpl.
  - destruct (PyTime.strptime (PyStr.strip l2) "%Y-%m-%d") eqn:Ed; simpl;
      try apply act_none.
    destruct (insert_event s (PyStr.strip l1) (Some (PyStr.strip l2)))
      as [s' id|e] eqn:Ei; simpl.
    + apply (act_add_event s (PyStr.strip l1) (Some (PyStr.strip l2)) s' id);
        [apply strip_clean, E | | exact Ei].
      simpl. split; [now apply nonempty_true | congruence].
    + destruct (Sql.is_integrity e); simpl; apply act_none.
  - destruct (insert_event s (PyStr.strip l1) None) as [s' id|e] eqn:Ei; simpl.
    + apply (act_add_event s (PyStr.strip l1) None s' id);
        [apply strip_clean, E | exact I | exact Ei].
    + destruct (Sql.is_integrity e); simpl; apply act_none.
Qed.

Lemma add_donation_action (w : world) :
  action_step (db w) (final_db add_donation w).
Proof.
  destruct (add_donation_step w) as [E|E].
  - rewrite E. apply act_none.
  - destruct (Nat.lt_ge_cases (List.length (stdin w)) 6) as [Hlt|Hge].
    + rewrite (add_donation_short w Hlt). apply act_none.
    + destruct w as [s inp out pn sn].
      destruct inp as [|l1 [|l2 [|l3 [|l4 [|l5 [|l6 rest]]]]]];
        try (simpl in Hge; lia).
      rewrite add_donation_db. unfold add_donation_result.
      destruct (resolve _ _ _ _); try apply act_none.
      destruct (PyStr.float l2); try apply act_none.
      destruct (PyStr.fle _ _); try apply act_none.
      destruct (date_accepted l3); try apply act_none.
      destruct (insert_donation _ _ _ _ _ _ _) eqn:Ei; try apply act_none.
      eapply act_add_donation. exact Ei.
Qed.

Lemma menu_action_action (choice : string) (w : world) :
  action_step (db w) (final_db (menu_action choice) w).
Proof.
  unfold menu_action.
  repeat match goal with
         | |- context [if ?b then _ else _] => destruct b
         end.
  - apply add_donor_action.
  - rewrite view_donors_db. apply act_none.
  - apply update_donor_action.
  - apply delete_donor_action.
  - apply add_volunteer_action.
  - apply add_event_action.
  - apply add_donation_action.
  - rewrite search_donations_db. apply act_none.
  - rewrite print_db. apply act_none.
Qed.

Lemma reachable_ind_action (P : store -> Prop) :
  P empty_store ->
  (forall s s', P s -> action_step s s' -> P s') ->
  forall s, reachable s -> P s.
Proof.
  intros H0 Hstep s Hr. induction Hr as [|choice w Hr IH]; [exact H0|].
  exact (Hstep _ _ IH (menu_action_action choice w)).
Qed.

(** *** Primary keys *)

Lemma max_rowid_ge (ids : list Z) (id : Z) :
  In id ids -> id <= max_rowid ids.
Proof.
  induction ids as [|x ids IH]; simpl; [intros []|].
  intros [->|H]; [lia | specialize (IH H); lia].
Qed.

Lemma max_rowid_nonneg (ids : list Z) : 0 <= max_rowid ids.
Proof. induction ids as [|x ids IH]; simpl; lia. Qed.

Lemma keys_ok_snoc (ids : list Z) (seq : Z) :
  keys_ok ids seq ->
  keys_ok (ids ++ [next_rowid seq ids]) (next_rowid seq ids).
Proof.
  intros (Hn & H0 & Hb). unfold next_rowid. split; [|split].
  - apply NoDup_snoc; [exact Hn|].
    intros Hin. apply max_rowid_ge in Hin. lia.
  - pose proof (max_rowid_nonneg ids). lia.
  - intros id Hin. apply in_app_or in Hin.
    pose proof (max_rowid_nonneg ids).
    destruct Hin as [Hin|[<-|[]]]; [|lia].
    specialize (Hb id Hin). lia.
Qed.

Lemma next_rowid_succ (ids : list Z) (seq : Z) :
  keys_ok ids seq -> next_rowid seq ids = seq + 1.
Proof.
  intros (_ & H0 & Hb). unfold next_rowid.
  assert (H : max_rowid ids <= seq).
  { clear -H0 Hb. induction ids as [|x ids IH]; simpl; [lia|].
    assert (x <= seq) by (apply Hb; now left).
    assert (max_rowid ids <= seq) by (apply IH; intros; apply Hb; now right).
    lia. }
  lia.
Qed.

Lemma map_filter_incl {A B : Type} (f : A -> B) (p : A -> bool) (l : list A)
  (y : B) :
  In y (map f (filter p l)) -> In y (map f l).
Proof.
  intros H. apply in_map_iff in H. destruct H as [x [<- Hx]].
  apply filter_In in Hx. apply in_map, Hx.
Qed.

Lemma filter_keeps_keys_distinct {R : Type} (key : R -> Z) (keep : R -> bool)
  (rows : list R) (Hdistinct : NoDup (map key rows)) :
  NoDup (map key (filter keep rows)).
Proof.
  revert Hdistinct. induction rows as [|r rows IH]; cbn [map filter].
  - intros _. apply NoDup_nil.
  - intros Hd. apply NoDup_cons_iff in Hd. destruct Hd as [Hr Hrows].
    destruct (keep r); cbn [map]; [|exact (IH Hrows)].
    apply NoDup_cons; [|exact (IH Hrows)].
    intros Hin. exact (Hr (map_filter_incl key keep rows _ Hin)).
Qed.

Lemma keys_ok_filter {A : Type} (f : A -> Z) (p : A -> bool) (l : list A)
  (seq : Z) :
  keys_ok (map f l) seq -> keys_ok (map f (filter p l)) seq.
Proof.
  intros (Hn & H0 & Hb). split; [now apply filter_keeps_keys_distinct|].
  split; [exact H0|].
  intros id Hin. apply Hb. exact (map_filter_incl f p l _ Hin).
Qed.

Lemma primary_keys_ok_step (s s' : store) :
  primary_keys_ok s -> action_step s s' -> primary_keys_ok s'.
Proof.
  unfold primary_keys_ok. intros (Hd & Hv & He & Hn) Hs.
  destruct Hs as [| name c now s' id _ E | name c id s' n _ _ E | id s' n _ E
                 | name c s' id _ E | name dt s' id _ _ E
                 | dn a dt v e nt s' id E].
  - auto.
  - injection E as <- _. simpl. rewrite map_app. simpl.
    split; [now apply keys_ok_snoc | auto].
  - injection E as <- _. simpl. rewrite map_map.
    rewrite (map_ext (fun x => donor_id
                                 (if donor_id x =? id
                                  then set_donor name c x else x)) donor_id);
      [auto|].
    intros x. destruct (donor_id x =? id); reflexivity.
  - injection E as <- _. simpl.
    split; [now apply keys_ok_filter|].
    split; [exact Hv|]. split; [exact He | now apply keys_ok_filter].
  - unfold insert_volunteer in E. destruct (existsb _ _); [discriminate|].
    injection E as <- _. simpl. rewrite map_app. simpl.
    split; [exact Hd|]. split; [now apply keys_ok_snoc | auto].
  - unfold insert_event in E. destruct (existsb _ _); [discriminate|].
    injection E as <- _. simpl. rewrite map_app. simpl.
    split; [exact Hd|]. split; [exact Hv|].
    split; [now apply keys_ok_snoc | exact Hn].
  - unfold insert_donation in E. destruct a as [a|]; [|discriminate].
    destruct (negb _); [discriminate|].
    destruct (_ && _); [|discriminate].
    injection E as <- _. simpl. rewrite map_app. simpl.
    split; [exact Hd|]. split; [exact Hv|].
    split; [exact He | now apply keys_ok_snoc].
Qed.

Lemma reachable_primary_keys_ok (s : store) :
  reachable s -> primary_keys_ok s.
Proof.
  apply reachable_ind_action.
  - repeat split; simpl in *; try apply NoDup_nil; try lia; contradiction.
  - apply primary_keys_ok_step.
Qed.

Lemma find_unique_key {A : Type} (f : A -> Z) (l : list A) (x : A) :
  NoDup (map f l) -> In x l ->
  find (fun y => f y =? f x) l = Some x.
Proof.
  induction l as [|y l IH]; simpl; [intros _ []|].
  intros Hn Hin. inversion Hn as [|? ? Hy Hl]; subst.
  destruct Hin as [->|Hin]; [now rewrite Z.eqb_refl|].
  destruct (f y =? f x) eqn:E; [|now apply IH].
  exfalso. apply Hy. apply Z.eqb_eq in E. rewrite E. now apply in_map.
Qed.

(** X1.  In every reachable store the identifiers of each table are
    pairwise distinct, positive and at most the table's [AUTOINCREMENT]
    counter, so a lookup by identifier returns the one row that has it. *)
Theorem primary_keys_identify_rows (s : store) :
  reachable s ->
  primary_keys_ok s
  /\ (forall d, In d (Donors s) -> select_donor s (donor_id d) = Some d)
  /\ (forall v, In v (Volunteers s) ->
                select_volunteer s (volunteer_id v) = Some v)
  /\ (forall e, In e (Events s) -> select_event s (event_id e) = Some e).
Proof.
  intros Hr. pose proof (reachable_primary_keys_ok s Hr) as H.
  split; [exact H|].
  destruct H as ((Hd & _) & (Hv & _) & (He & _) & _).
  split; [|split]; intros x Hx.
  - now apply (find_unique_key donor_id).
  - now apply (find_unique_key volunteer_id).
  - now apply (find_unique_key event_id).
Qed.

Lemma primary_keys_identify_rows_witness :
  reachable ex_store5
  /\ NoDup (map donation_id (Donations ex_store5))
  /\ select_volunteer ex_store5 1 = Some (mkVolunteer 1 "Bob" "bob@example.org").
Proof.
  destruct (primary_keys_identify_rows ex_store5 ex_store5_reachable)
    as ((_ & _ & _ & Hn & _) & _ & Hv & _).
  split; [exact ex_store5_reachable|]. split; [exact Hn|].
  assert (Hin : In (mkVolunteer 1 "Bob" "bob@example.org")
                   (Volunteers ex_store5)).
  { vm_compute. left. reflexivity. }
  exact (Hv _ Hin).
Defined.

(** *** Adding and deleting donors *)

Lemma select_donor_in (s : store) (id : Z) (d : donor) :
  select_donor s id = Some d -> In d (Donors s) /\ donor_id d = id.
Proof.
  unfold select_donor. intros H. apply find_some in H.
  destruct H as [H1 H2]. split; [exact H1 | lia].
Qed.

(** X2.  On a reachable store, [add_donor] with a non-empty name always
    inserts, whether or not a donor of that name exists: the new row is
    appended with the stripped name and contact info and the current
    timestamp, its identifier is one more than the [AUTOINCREMENT] counter
    and larger than every identifier in the table, the other tables are
    untouched, and the identifier is reported. *)
Theorem add_donor_appends_fresh_row
  (w : world) (l1 l2 : string) (rest : list string) :
  reachable (db w) ->
  stdin w = l1 :: l2 :: rest ->
  PyStr.strip l1 <> EmptyString ->
  let id := seq_Donors (db w) + 1 in
  Donors (final_db add_donor w)
  = (Donors (db w)
     ++ [mkDonor id (PyStr.strip l1) (PyStr.strip l2) (sql_now w)])%list
  /\ (forall d, In d (Donors (db w)) -> donor_id d < id)
  /\ seq_Donors (final_db add_donor w) = id
  /\ Volunteers (final_db add_donor w) = Volunteers (db w)
  /\ Events (final_db add_donor w) = Events (db w)
  /\ Donations (final_db add_donor w) = Donations (db w)
  /\ last (printed add_donor w) (Text "")
     = Text ("Donor '" ++ PyStr.strip l1 ++ "' added successfully (ID: "
             ++ str_of_Z id ++ ").").
Proof.
  intros Hr Hin Hne id.
  destruct (reachable_primary_keys_ok _ Hr) as (Hk & _).
  destruct (add_donor_inserts w l1 l2 rest Hin Hne) as [E P].
  cbv zeta in E, P. rewrite (next_rowid_succ _ _ Hk) in E, P.
  rewrite E. simpl. repeat split; try reflexivity; try exact P.
  intros d Hd. destruct Hk as (_ & _ & Hb).
  specialize (Hb (donor_id d) (in_map donor_id _ _ Hd)). subst id. lia.
Qed.

Lemma add_donor_appends_fresh_row_witness :
  reachable (db (ex_world ex_store5 ["Ada Lovelace"; ""]))
  /\ stdin (ex_world ex_store5 ["Ada Lovelace"; ""]) = "Ada Lovelace" :: "" :: []
  /\ PyStr.strip "Ada Lovelace" <> EmptyString
  /\ map donor_name
         (Donors (final_db add_donor (ex_world ex_store5 ["Ada Lovelace"; ""])))
     = ["Ada Lovelace"; "Ada Lovelace"]
  /\ seq_Donors (final_db add_donor (ex_world ex_store5 ["Ada Lovelace"; ""]))
     = seq_Donors (db (ex_world ex_store5 ["Ada Lovelace"; ""])) + 1.
Proof.
  assert (Hr : reachable (db (ex_world ex_store5 ["Ada Lovelace"; ""]))).
  { rewrite ex_world_db. exact ex_store5_reachable. }
  assert (Hne : PyStr.strip "Ada Lovelace" <> EmptyString) by discriminate.
  pose proof (add_donor_appends_fresh_row
                (ex_world ex_store5 ["Ada Lovelace"; ""]) "Ada Lovelace" "" []
                Hr eq_refl Hne) as H.
  cbv zeta in H. destruct H as (_ & _ & Hs & _).
  split; [exact Hr|]. split; [reflexivity|]. split; [exact Hne|].
  split; [vm_compute; reflexivity | exact Hs].
Defined.

(** X3.  The identifier of a deleted donor is not used again: after a
    confirmed [delete_donor] on a reachable store, a following [add_donor]
    gives its row a larger identifier, and no donor of the store has the
    deleted one. *)
Theorem deleted_donor_id_is_not_reused
  (w w' : world) (l0 l1 : string) (rest : list string) (id : Z) (d : donor)
  (n c : string) (rest' : list string) :
  reachable (db w) ->
  stdin w = l0 :: l1 :: rest ->
  PyStr.int l0 = Some id ->
  Sql.fits_int64 id = true ->
  select_donor (db w) id = Some d ->
  PyStr.lower l1 = "yes" ->
  db w' = final_db delete_donor w ->
  stdin w' = n :: c :: rest' ->
  PyStr.strip n <> EmptyString ->
  (exists d', In d' (Donors (final_db add_donor w'))
              /\ donor_name d' = PyStr.strip n
              /\ id < donor_id d')
  /\ (forall x, In x (Donors (final_db add_donor w')) -> donor_id x <> id).
Proof.
  intros Hr Hin Hint Hfit Hsel Hyes Hdb Hin' Hne.
  pose proof (delete_donor_confirmed w l0 l1 rest id d
                Hin Hint Hfit Hsel Hyes) as Edel.
  assert (Hr' : reachable (db w')).
  { rewrite Hdb. unfold final_db.
    change delete_donor with (menu_action "4"). now apply reachable_action. }
  pose proof (add_donor_appends_fresh_row w' n c rest' Hr' Hin' Hne) as H.
  cbv zeta in H. destruct H as (Hd & Hlt & _).
  destruct (reachable_primary_keys_ok _ Hr) as ((_ & _ & Hb) & _).
  destruct (select_donor_in _ _ _ Hsel) as [Hind Hid].
  assert (Hbound : id <= seq_Donors (db w')).
  { rewrite Hdb, Edel. simpl. rewrite <- Hid.
    apply Hb. now apply in_map. }
  split.
  - eexists. rewrite Hd. split; [apply in_or_app; right; left; reflexivity|].
    simpl. split; [reflexivity | lia].
  - intros x Hx. rewrite Hd in Hx. apply in_app_or in Hx.
    destruct Hx as [Hx|[<-|[]]]; [|simpl; lia].
    rewrite Hdb, Edel in Hx. simpl in Hx.
    apply filter_In in Hx. destruct Hx as [_ Hx].
    apply negb_true_iff, Z.eqb_neq in Hx. exact Hx.
Qed.

Lemma deleted_donor_id_is_not_reused_witness :
  reachable (db (ex_world ex_store5 ["1"; "yes"]))
  /\ select_donor (db (ex_world ex_store5 ["1"; "yes"])) 1
     = Some (mkDonor 1 "Ada Lovelace" "ada@example.org" ex_now)
  /\ (forall x,
         In x (Donors
                 (final_db add_donor
                    (ex_world (final_db delete_donor
                                 (ex_world ex_store5 ["1"; "yes"]))
                              ["Grace Hopper"; ""]))) ->
         donor_id x <> 1).
Proof.
  assert (Hr : reachable (db (ex_world ex_store5 ["1"; "yes"]))).
  { rewrite ex_world_db. exact ex_store5_reachable. }
  assert (Hsel : select_donor (db (ex_world ex_store5 ["1"; "yes"])) 1
                 = Some (mkDonor 1 "Ada Lovelace" "ada@example.org" ex_now)).
  { vm_compute. reflexivity. }
  split; [exact Hr|]. split; [exact Hsel|].
  refine (proj2 (deleted_donor_id_is_not_reused
                   (ex_world ex_store5 ["1"; "yes"])
                   (ex_world (final_db delete_donor
                                (ex_world ex_store5 ["1"; "yes"]))
                             ["Grace Hopper"; ""])
                   "1" "yes" [] 1
                   (mkDonor 1 "Ada Lovelace" "ada@example.org" ex_now)
                   "Grace Hopper" "" []
                   Hr eq_refl eq_refl eq_refl Hsel eq_refl
                   (ex_world_db _ _) eq_refl _)).
  discriminate.
Defined.

(** *** Constraints of the donations table *)

Lemma amounts_positive_step (s s' : store) :
  amounts_positive s -> action_step s s' -> amounts_positive s'.
Proof.
  unfold amounts_positive. intros H Hs.
  destruct Hs as [| name c now s' id _ E | name c id s' n _ _ E | id s' n _ E
                 | name c s' id _ E | name dt s' id _ _ E
                 | dn a dt v e nt s' id E].
  - exact H.
  - injection E as <- _. exact H.
  - injection E as <- _. exact H.
  - injection E as <- _. simpl. intros d Hd.
    apply filter_In in Hd. now apply H.
  - unfold insert_volunteer in E. destruct (existsb _ _); [discriminate|].
    injection E as <- _. exact H.
  - unfold insert_event in E. destruct (existsb _ _); [discriminate|].
    injection E as <- _. exact H.
  - unfold insert_donation in E. destruct a as [a|]; [|discriminate].
    destruct (PyStr.flt PyStr.fzero a) eqn:Hp; [|discriminate].
    simpl in E. destruct (_ && _); [|discriminate].
    injection E as <- _. simpl. intros d Hd.
    apply in_app_or in Hd. destruct Hd as [Hd|[<-|[]]]; [now apply H|].
    exact Hp.
Qed.

Lemma find_app_some {A : Type} (f : A -> bool) (l l' : list A) :
  find f l <> None -> find f (l ++ l') <> None.
Proof.
  induction l as [|x l IH]; simpl; [congruence|].
  destruct (f x); [congruence | exact IH].
Qed.

Lemma references_app {A : Type} (f : Z -> A -> bool) (l l' : list A)
  (fk : option Z) :
  references (fun id => find (f id) l) fk = true ->
  references (fun id => find (f id) (l ++ l')) fk = true.
Proof.
  unfold references. destruct fk as [id|]; [|trivial].
  intros H. pose proof (find_app_some (f id) l l') as F.
  destruct (find (f id) l); [|discriminate].
  destruct (find (f id) (l ++ l')); [reflexivity|].
  exfalso. apply F; [discriminate | reflexivity].
Qed.

Lemma links_exist_step (s s' : store) :
  links_exist s -> action_step s s' -> links_exist s'.
Proof.
  unfold links_exist. intros H Hs.
  destruct Hs as [| name c now s' id _ E | name c id s' n _ _ E | id s' n _ E
                 | name c s' id _ E | name dt s' id _ _ E
                 | dn a dt v e nt s' id E].
  - exact H.
  - injection E as <- _. exact H.
  - injection E as <- _. exact H.
  - injection E as <- _. simpl. intros d Hd.
    apply filter_In in Hd. destruct Hd as [Hd _]. exact (H d Hd).
  - unfold insert_volunteer in E. destruct (existsb _ _); [discriminate|].
    injection E as <- _. simpl. intros d Hd.
    destruct (H d Hd) as [H1 H2]. split; [|exact H2].
    unfold select_volunteer. simpl.
    exact (references_app (fun id v => volunteer_id v =? id) _ _ _ H1).
  - unfold insert_event in E. destruct (existsb _ _); [discriminate|].
    injection E as <- _. simpl. intros d Hd.
    destruct (H d Hd) as [H1 H2]. split; [exact H1|].
    unfold select_event. simpl.
    exact (references_app (fun id v => event_id v =? id) _ _ _ H2).
  - unfold insert_donation in E. destruct a as [a|]; [|discriminate].
    destruct (negb _); [discriminate|].
    destruct (references (select_donor s) (Some dn)
              && references (select_volunteer s) v
              && references (select_event s) e) eqn:R; [|discriminate].
    injection E as <- _. simpl. intros d Hd.
    apply in_app_or in Hd. destruct Hd as [Hd|[<-|[]]]; [exact (H d Hd)|].
    simpl. apply andb_true_iff in R. destruct R as [R Re].
    apply andb_true_iff in R. destruct R as [_ Rv]. now split.
Qed.

Lemma event_dates_ok_step (s s' : store) :
  event_dates_ok s -> action_step s s' -> event_dates_ok s'.
Proof.
  unfold event_dates_ok. intros H Hs.
  destruct Hs as [| name c now s' id _ E | name c id s' n _ _ E | id s' n _ E
                 | name c s' id _ E | name dt s' id _ Hdt E
                 | dn a dt v e nt s' id E].
  - exact H.
  - injection E as <- _. exact H.
  - injection E as <- _. exact H.
  - injection E as <- _. exact H.
  - unfold insert_volunteer in E. destruct (existsb _ _); [discriminate|].
    injection E as <- _. exact H.
  - unfold insert_event in E. destruct (existsb _ _); [discriminate|].
    injection E as <- _. simpl. intros x Hx.
    apply in_app_or in Hx. destruct Hx as [Hx|[<-|[]]]; [now apply H|].
    exact Hdt.
  - unfold insert_donation in E. destruct a as [a|]; [|discriminate].
    destruct (negb _); [discriminate|].
    destruct (_ && _); [|discriminate].
    injection E as <- _. exact H.
Qed.

(** X4.  In every reachable store each donation has an amount greater
    than 0 (so neither zero, negative nor a NaN), and its volunteer and
    event references are empty or name a row of their table. *)
Theorem donations_satisfy_constraints (s : store) (d : donation) :
  reachable s ->
  In d (Donations s) ->
  PyStr.flt PyStr.fzero (amount d) = true
  /\ amount d <> S754_nan
  /\ (forall v, donation_volunteer_id d = Some v ->
                exists r, In r (Volunteers s) /\ volunteer_id r = v)
  /\ (forall e, donation_event_id d = Some e ->
                exists r, In r (Events s) /\ event_id r = e).
Proof.
  intros Hr Hd.
  assert (Ha : amounts_positive s).
  { apply (reachable_ind_action amounts_positive);
      [intros x [] | apply amounts_positive_step | exact Hr]. }
  assert (Hl : links_exist s).
  { apply (reachable_ind_action links_exist);
      [intros x [] | apply links_exist_step | exact Hr]. }
  specialize (Ha d Hd). destruct (Hl d Hd) as [Hv He].
  split; [exact Ha|]. split; [intros E; rewrite E in Ha; discriminate|].
  split.
  - intros v Ev. rewrite Ev in Hv. unfold references, select_volunteer in Hv.
    destruct (find _ _) as [r|] eqn:F; [|discriminate].
    apply find_some in F. exists r. split; [apply F | lia].
  - intros e Ee. rewrite Ee in He. unfold references, select_event in He.
    destruct (find _ _) as [r|] eqn:F; [|discriminate].
    apply find_some in F. exists r. split; [apply F | lia].
Qed.

Lemma donations_satisfy_constraints_witness :
  reachable ex_store5
  /\ In (mkDonation 2 1 (S754_finite false 5629499534213120 (-48))
                    "2024-05-01 18:30:00" (Some 1) (Some 1) "at the gala")
        (Donations ex_store5)
  /\ exists r, In r (Events ex_store5) /\ event_id r = 1.
Proof.
  assert (Hin : In (mkDonation 2 1 (S754_finite false 5629499534213120 (-48))
                      "2024-05-01 18:30:00" (Some 1) (Some 1) "at the gala")
                   (Donations ex_store5)).
  { vm_compute. right. left. reflexivity. }
  split; [exact ex_store5_reachable|]. split; [exact Hin|].
  destruct (donations_satisfy_constraints ex_store5 _ ex_store5_reachable Hin)
    as (_ & _ & _ & He).
  exact (He 1 eq_refl).
Defined.

(** *** Events *)

Lemma insert_event_fresh (s : store) (name : string) (date : option string) :
  ~ In name (map event_name (Events s)) ->
  insert_event s name date
  = SqlOk (mkStore (Donors s) (Volunteers s)
                   (Events s
                    ++ [mkEvent (next_rowid (seq_Events s)
                                            (map event_id (Events s)))
                                name date])%list
                   (Donations s)
                   (seq_Donors s) (seq_Volunteers s)
                   (next_rowid (seq_Events s) (map event_id (Events s)))
                   (seq_Donations s))
          (next_rowid (seq_Events s) (map event_id (Events s))).
Proof.
  intros H. unfold insert_event.
  apply existsb_name_false in H. now rewrite H.
Qed.

(** X5.  [add_event] checks the date before it writes: a non-blank date
    that is not a valid [YYYY-MM-DD] calendar date is reported and nothing is
    inserted; a new name with a blank date is stored with a NULL date, with
    a valid date it is stored with the date as entered (stripped).  So in
    every reachable store an event's date is NULL or a valid calendar
    date. *)
Theorem add_event_validates_date :
  (forall (w : world) (l1 l2 : string) (rest : list string),
      stdin w = l1 :: l2 :: rest ->
      PyStr.strip l1 <> EmptyString ->
      (PyStr.strip l2 <> EmptyString ->
       PyTime.strptime (PyStr.strip l2) "%Y-%m-%d" = None ->
       final_db add_event w = db w
       /\ last (printed add_event w) (Text "")
          = Text "Invalid date format. Please use YYYY-MM-DD.")
      /\ (~ In (PyStr.strip l1) (map event_name (Events (db w))) ->
          PyStr.strip l2 = EmptyString
          \/ PyTime.strptime (PyStr.strip l2) "%Y-%m-%d" <> None ->
          exists id,
            Events (final_db add_event w)
            = (Events (db w)
               ++ [mkEvent id (PyStr.strip l1)
                           (if nonempty (PyStr.strip l2)
                            then Some (PyStr.strip l2) else None)])%list))
  /\ (forall (s : store) (e : event),
         reachable s -> In e (Events s) ->
         match event_date e with
         | None => True
         | Some d => d <> EmptyString
                     /\ PyTime.strptime d "%Y-%m-%d" <> None
         end).
Proof.
  split.
  - intros w l1 l2 rest Hin Hne.
    destruct w as [s inp out pn sn]. unfold stdin, db in *. subst inp.
    apply nonempty_true in Hne. split.
    + intros Hd Hbad. apply nonempty_true in Hd.
      unfold add_event. io_unfold. cbv beta iota zeta. simpl.
      rewrite Hne, Hd, Hbad. simpl.
      split; [reflexivity | apply last_snoc].
    + intros Hfresh Hok.
      unfold add_event. io_unfold. cbv beta iota zeta. simpl.
      rewrite Hne. simpl.
      assert (Hb : nonempty (PyStr.strip l2)
                   && match PyTime.strptime (PyStr.strip l2) "%Y-%m-%d" with
                      | Some _ => false
                      | None => true
                      end = false).
      { destruct Hok as [Hok|Hok].
        - rewrite Hok. reflexivity.
        - destruct (PyTime.strptime _ _); [apply andb_false_r | congruence]. }
      rewrite Hb. simpl.
      rewrite (insert_event_fresh s _ _ Hfresh). simpl.
      eexists. reflexivity.
  - intros s e Hr He.
    assert (H : event_dates_ok s).
    { apply (reachable_ind_action event_dates_ok);
        [intros x [] | apply event_dates_ok_step | exact Hr]. }
    exact (H e He).
Qed.

Lemma add_event_validates_date_witness :
  stdin (ex_world ex_store5 ["Autumn Fair"; "2023-02-29"])
  = "Autumn Fair" :: "2023-02-29" :: []
  /\ PyStr.strip "Autumn Fair" <> EmptyString
  /\ PyStr.strip "2023-02-29" <> EmptyString
  /\ PyTime.strptime (PyStr.strip "2023-02-29") "%Y-%m-%d" = None
  /\ final_db add_event (ex_world ex_store5 ["Autumn Fair"; "2023-02-29"])
     = db (ex_world ex_store5 ["Autumn Fair"; "2023-02-29"])
  /\ reachable ex_store5
  /\ In (mkEvent 1 "Spring Gala" (Some "2024-05-01")) (Events ex_store5)
  /\ PyTime.strptime "2024-05-01" "%Y-%m-%d" <> None.
Proof.
  destruct add_event_validates_date as [HA HC].
  assert (H1 : PyStr.strip "Autumn Fair" <> EmptyString) by discriminate.
  assert (H2 : PyStr.strip "2023-02-29" <> EmptyString) by discriminate.
  assert (H3 : PyTime.strptime (PyStr.strip "2023-02-29") "%Y-%m-%d" = None)
    by (vm_compute; reflexivity).
  assert (Hin : In (mkEvent 1 "Spring Gala" (Some "2024-05-01"))
                   (Events ex_store5)).
  { vm_compute. left. reflexivity. }
  destruct (HA (ex_world ex_store5 ["Autumn Fair"; "2023-02-29"])
               "Autumn Fair" "2023-02-29" [] eq_refl H1) as [Hbad _].
  split; [reflexivity|]. split; [exact H1|]. split; [exact H2|].
  split; [exact H3|]. split; [exact (proj1 (Hbad H2 H3))|].
  split; [exact ex_store5_reachable|]. split; [exact Hin|].
  exact (proj2 (HC ex_store5 _ ex_store5_reachable Hin)).
Defined.

(** *** Updating and listing donors *)

Lemma find_map_update (id : Z) (g : donor -> donor) (l : list donor) :
  (forall d, donor_id (g d) = donor_id d) ->
  forall id',
    find (fun d => donor_id d =? id')
         (map (fun d => if donor_id d =? id then g d else d) l)
    = option_map (fun d => if donor_id d =? id then g d else d)
                 (find (fun d => donor_id d =? id') l).
Proof.
  intros Hg id'. induction l as [|x l IH]; simpl; [reflexivity|].
  assert (E : donor_id (if donor_id x =? id then g x else x) = donor_id x).
  { destruct (donor_id x =? id); [apply Hg | reflexivity]. }
  rewrite E. destruct (donor_id x =? id'); [reflexivity | exact IH].
Qed.

Lemma filter_length_pos {A : Type} (f : A -> bool) (l : list A) (x : A) :
  find f l = Some x -> (0 <? Z.of_nat (List.length (filter f l))) = true.
Proof.
  induction l as [|y l IH]; simpl; [discriminate|].
  destruct (f y); simpl; [intros _; apply Z.ltb_lt; lia | exact IH].
Qed.

(** X6.  [update_donor] on an existing donor with a new name or new
    contact info (or both) rewrites exactly the columns answered in that
    donor's row: the identifier and [created_at] stay, a blank answer keeps
    the old value, every other donor and every other table is unchanged,
    and the success is reported. *)
Theorem update_donor_rewrites_named_columns
  (w : world) (l0 l1 l2 : string) (rest : list string) (id : Z) (d : donor) :
  stdin w = l0 :: l1 :: l2 :: rest ->
  PyStr.int l0 = Some id ->
  Sql.fits_int64 id = true ->
  select_donor (db w) id = Some d ->
  PyStr.strip l1 <> EmptyString \/ PyStr.strip l2 <> EmptyString ->
  let s' := final_db update_donor w in
  select_donor s' id
  = Some (mkDonor id
                  (if nonempty (PyStr.strip l1)
                   then PyStr.strip l1 else donor_name d)
                  (if nonempty (PyStr.strip l2)
                   then PyStr.strip l2 else donor_contact_info d)
                  (donor_created_at d))
  /\ (forall id', id' <> id -> select_donor s' id' = select_donor (db w) id')
  /\ map donor_id (Donors s') = map donor_id (Donors (db w))
  /\ Volunteers s' = Volunteers (db w)
  /\ Events s' = Events (db w)
  /\ Donations s' = Donations (db w)
  /\ last (printed update_donor w) (Text "")
     = Text ("Donor ID " ++ str_of_Z id ++ " updated successfully.").
Proof.
  destruct w as [s inp out pn sn]. unfold stdin, db.
  intros -> Hint Hfit Hsel Hne.
  destruct (select_donor_in _ _ _ Hsel) as [_ Hid].
  set (oname := if nonempty (PyStr.strip l1)
                then Some (PyStr.strip l1) else None).
  set (ocontact := if nonempty (PyStr.strip l2)
                   then Some (PyStr.strip l2) else None).
  assert (E : final_db update_donor
                (mkWorld s (l0 :: l1 :: l2 :: rest) out pn sn)
              = mkStore (map (fun x => if donor_id x =? id
                                       then set_donor oname ocontact x else x)
                             (Donors s))
                        (Volunteers s) (Events s) (Donations s)
                        (seq_Donors s) (seq_Volunteers s) (seq_Events s)
                        (seq_Donations s)
              /\ last (printed update_donor
                         (mkWorld s (l0 :: l1 :: l2 :: rest) out pn sn))
                      (Text "")
                 = Text ("Donor ID " ++ str_of_Z id ++ " updated successfully.")).
  { subst oname ocontact.
    unfold update_donor. io_unfold. cbv beta iota zeta. simpl.
    rewrite Hint. simpl. rewrite Hfit. simpl. rewrite Hsel. simpl.
    pose proof (filter_length_pos _ _ _ Hsel) as Hpos.
    destruct (nonempty (PyStr.strip l1)) eqn:E1;
      destruct (nonempty (PyStr.strip l2)) eqn:E2; simpl;
      try (rewrite Hpos; simpl; split; [reflexivity | apply last_snoc]).
    exfalso. apply nonempty_false in E1, E2. tauto. }
  destruct E as [E P]. cbv zeta. rewrite E. unfold select_donor. simpl.
  split; [|split; [|split; [|repeat split; try reflexivity; exact P]]].
  - rewrite (find_map_update id (set_donor oname ocontact)) by reflexivity.
    fold (select_donor s id). rewrite Hsel. simpl.
    rewrite Hid, Z.eqb_refl. unfold set_donor. rewrite Hid.
    subst oname ocontact.
    destruct (nonempty (PyStr.strip l1)), (nonempty (PyStr.strip l2));
      reflexivity.
  - intros id' Hne'.
    rewrite (find_map_update id (set_donor oname ocontact)) by reflexivity.
    destruct (find (fun x => donor_id x =? id') (Donors s)) as [x|] eqn:F;
      [|reflexivity].
    simpl. apply find_some in F. destruct F as [_ F].
    apply Z.eqb_eq in F. rewrite F.
    apply Z.eqb_neq in Hne'. now rewrite Hne'.
  - rewrite map_map. apply map_ext. intros x.
    destruct (donor_id x =? id); reflexivity.
Qed.

Lemma update_donor_rewrites_named_columns_witness :
  stdin (ex_world ex_store5 ["1"; "Ada King"; ""]) = "1" :: "Ada King" :: "" :: []
  /\ PyStr.int "1" = Some 1
  /\ Sql.fits_int64 1 = true
  /\ select_donor (db (ex_world ex_store5 ["1"; "Ada King"; ""])) 1
     = Some (mkDonor 1 "Ada Lovelace" "ada@example.org" ex_now)
  /\ PyStr.strip "Ada King" <> EmptyString
  /\ select_donor (final_db update_donor
                     (ex_world ex_store5 ["1"; "Ada King"; ""])) 1
     = Some (mkDonor 1 "Ada King" "ada@example.org" ex_now).
Proof.
  assert (Hsel : select_donor (db (ex_world ex_store5 ["1"; "Ada King"; ""])) 1
                 = Some (mkDonor 1 "Ada Lovelace" "ada@example.org" ex_now)).
  { vm_compute. reflexivity. }
  assert (Hne : PyStr.strip "Ada King" <> EmptyString) by discriminate.
  pose proof (update_donor_rewrites_named_columns
                (ex_world ex_store5 ["1"; "Ada King"; ""]) "1" "Ada King" ""
                [] 1 _ eq_refl eq_refl eq_refl Hsel (or_introl Hne)) as H.
  cbv zeta in H. destruct H as (H & _).
  repeat (split; [first [reflexivity | exact Hsel | exact Hne]|]).
  exact H.
Defined.

Lemma donor_name_leb_total (x y : donor) :
  String.leb (donor_name x) (donor_name y) = true
  \/ String.leb (donor_name y) (donor_name x) = true.
Proof. apply String.leb_total. Qed.

Lemma donor_name_leb_trans (x y z : donor) :
  String.leb (donor_name x) (donor_name y) = true ->
  String.leb (donor_name y) (donor_name z) = true ->
  String.leb (donor_name x) (donor_name z) = true.
Proof. apply string_leb_trans. Qed.

Lemma view_donors_eq (s : store) (inp : list string) (out : list message)
  (pn sn : string) :
  view_donors (mkWorld s inp out pn sn)
  = display_results ["donor_id"; "name"; "contact_info"; "created_at"]
      (map donor_values (donors_by_name s)) "All Donors"
      (mkWorld s inp (out ++ [Text (nl ++ "--- View All Donors ---")])%list
               pn sn).
Proof. reflexivity. Qed.

(** X7.  [view_donors] changes nothing and prints every donor once, in
    ascending order of name (compared character by character, so capitals
    come before small letters); for an empty table it prints the notice
    that there are none. *)
Theorem view_donors_lists_by_name (w : world) :
  final_db view_donors w = db w
  /\ stdin (snd (view_donors w)) = stdin w
  /\ Permutation (donors_by_name (db w)) (Donors (db w))
  /\ StronglySorted
       (fun a b => String.leb (donor_name a) (donor_name b) = true)
       (donors_by_name (db w))
  /\ printed view_donors w
     = ((stdout w ++ [Text (nl ++ "--- View All Donors ---")])
        ++ match map donor_values (donors_by_name (db w)) with
           | [] => [Text (nl ++ "--- No " ++ PyStr.lower "All Donors"
                          ++ " found. ---")]
           | _ :: _ =>
               [Text (nl ++ "--- " ++ "All Donors" ++ " ---");
                Rows ["donor_id"; "name"; "contact_info"; "created_at"]
                     (map donor_values (donors_by_name (db w)));
                Text "---------------"]
           end)%list.
Proof.
  split; [apply view_donors_db|]. split.
  { destruct w as [s inp out pn sn]. unfold view_donors, display_results.
    io_unfold. cbv beta iota zeta. unfold db, stdin, snd.
    destruct (map donor_values _); reflexivity. }
  split; [apply Permutation_sym, sort_by_perm|]. split.
  { apply (sort_by_sorted _ _ donor_name_leb_total donor_name_leb_trans). }
  destruct w as [s inp out pn sn]. unfold printed.
  rewrite view_donors_eq.
  change (stdout (snd (display_results ?h ?r ?t ?w0)))
    with (printed (display_results h r t) w0).
  rewrite display_results_prints. reflexivity.
Qed.

Example view_donors_capitals_first :
  map donor_name
      (donors_by_name
         (final_db add_donor
            (ex_world (final_db add_donor (ex_world ex_store5 ["bob"; ""]))
                      ["Zoe"; ""])))
  = ["Ada Lovelace"; "Zoe"; "bob"].
Proof. vm_compute. reflexivity. Qed.

(** *** Guards of the search and of the menu *)

(** X8.  [search_donations] never changes the store.  It rejects an empty
    (or white-space) search term before it looks at the choice, and rejects
    every choice other than "1", "2" and "3" (compared as entered, a
    surrounding space included) without running a query. *)
Theorem search_donations_rejects_bad_input
  (w : world) (choice l1 : string) (rest : list string) :
  stdin w = choice :: l1 :: rest ->
  final_db search_donations w = db w
  /\ stdin (snd (search_donations w)) = rest
  /\ (PyStr.strip l1 = EmptyString ->
      last (printed search_donations w) (Text "")
      = Text "Search term cannot be empty.")
  /\ (PyStr.strip l1 <> EmptyString ->
      choice <> "1" -> choice <> "2" -> choice <> "3" ->
      last (printed search_donations w) (Text "") = Text "Invalid choice.").
Proof.
  intros Hin. split; [apply search_donations_db|].
  destruct w as [s inp out pn sn]. unfold stdin at 1 in Hin. subst inp.
  split; [|split].
  - unfold search_donations, display_results. io_unfold.
    cbv beta iota zeta. simpl.
    destruct (nonempty (PyStr.strip l1)); simpl; [|reflexivity].
    destruct (search_column choice); simpl; [|reflexivity].
    destruct (search_refused s (PyStr.strip l1)); [reflexivity|].
    destruct (map search_values _); reflexivity.
  - intros He. unfold search_donations. io_unfold. cbv beta iota zeta. simpl.
    rewrite He. simpl. apply last_snoc.
  - intros Hne H1 H2 H3. apply nonempty_true in Hne.
    assert (Hc : search_column choice = None).
    { unfold search_column.
      apply String.eqb_neq in H1, H2, H3. now rewrite H1, H2, H3. }
    unfold search_donations. io_unfold. cbv beta iota zeta. simpl.
    rewrite Hne, Hc. simpl. apply last_snoc.
Qed.

Lemma search_donations_rejects_bad_input_witness :
  stdin (ex_world ex_store5 [" 1"; "Ada"]) = " 1" :: "Ada" :: []
  /\ PyStr.strip "Ada" <> EmptyString
  /\ last (printed search_donations (ex_world ex_store5 [" 1"; "Ada"]))
          (Text "")
     = Text "Invalid choice.".
Proof.
  assert (Hne : PyStr.strip "Ada" <> EmptyString) by discriminate.
  destruct (search_donations_rejects_bad_input
              (ex_world ex_store5 [" 1"; "Ada"]) " 1" "Ada" [] eq_refl)
    as (_ & _ & _ & H).
  split; [reflexivity|]. split; [exact Hne|].
  apply H; [exact Hne | discriminate | discriminate | discriminate].
Defined.

Lemma display_menu_eq (s : store) (inp : list string) (out : list message)
  (pn sn : string) :
  display_menu (mkWorld s inp out pn sn)
  = (Ret tt,
     mkWorld s inp (fold_left (fun acc m => (acc ++ [m])%list) menu_lines out)
             pn sn).
Proof. reflexivity. Qed.

Lemma main_loop_step (fuel : nat) (s : store) (choice : string)
  (rest : list string) (out : list message) (pn sn : string) :
  exists out',
    main_loop (S fuel) (mkWorld s (choice :: rest) out pn sn)
    = (if (choice =? "0")%string then
         print "Exiting application." ;;
         ret true
       else
         menu_action choice ;;
         input (nl ++ "Press Enter to continue...") ;;
         main_loop fuel)
        (mkWorld s rest out' pn sn).
Proof.
  pose proof (display_menu_eq s (choice :: rest) (out ++ [ClearScreen])%list
                              pn sn) as E1.
  eexists.
  change (main_loop (S fuel))
    with (clear_screen ;;
          display_menu ;;
          choice <- input "Enter your choice: " ;;
          clear_screen ;;
          if (choice =? "0")%string then
            print "Exiting application." ;;
            ret true
          else
            menu_action choice ;;
            input (nl ++ "Press Enter to continue...") ;;
            main_loop fuel).
  unfold bind at 1. unfold clear_screen at 1. unfold emit at 1.
  cbv beta iota. unfold db at 1, stdin at 1, stdout at 1, py_now at 1,
    sql_now at 1.
  unfold bind at 1. rewrite E1. cbv beta iota.
  unfold bind at 1. unfold input at 1. cbv beta iota zeta.
  unfold db at 1, stdin at 1, stdout at 1, py_now at 1, sql_now at 1.
  cbv beta iota.
  unfold bind at 1. unfold clear_screen at 1. unfold emit at 1.
  cbv beta iota. unfold db at 1, stdin at 1, stdout at 1, py_now at 1,
    sql_now at 1.
  reflexivity.
Qed.

(** X9.  One round of the main loop.  On choice "0" the program prints
    its farewell and stops with the store unchanged, reading only that one
    line.  On a choice outside "0".."8" it reports the invalid choice,
    changes nothing, and waits for Enter before the next round. *)
Theorem main_loop_exit_and_invalid_choice
  (fuel : nat) (s : store) (rest : list string) (out : list message)
  (pn sn : string) :
  (exists out',
      main_loop (S fuel) (mkWorld s ("0" :: rest) out pn sn)
      = (Ret true,
         mkWorld s rest (out' ++ [Text "Exiting application."])%list pn sn))
  /\ (forall choice enter rest',
         rest = enter :: rest' ->
         choice <> "0" -> choice <> "1" -> choice <> "2" -> choice <> "3" ->
         choice <> "4" -> choice <> "5" -> choice <> "6" -> choice <> "7" ->
         choice <> "8" ->
         exists out',
           main_loop (S fuel) (mkWorld s (choice :: rest) out pn sn)
           = main_loop fuel (mkWorld s rest' out' pn sn)
           /\ In (Text "Invalid choice. Please try again.") out').
Proof.
  split.
  - destruct (main_loop_step fuel s "0" rest out pn sn) as [out' E].
    exists out'. rewrite E. reflexivity.
  - intros choice enter rest' -> H0 H1 H2 H3 H4 H5 H6 H7 H8.
    destruct (main_loop_step fuel s choice (enter :: rest') out pn sn)
      as [out' E].
    eexists. rewrite E.
    apply String.eqb_neq in H0, H1, H2, H3, H4, H5, H6, H7, H8.
    rewrite H0. unfold menu_action.
    rewrite H1, H2, H3, H4, H5, H6, H7, H8.
    split; [reflexivity|].
    apply in_or_app. left. apply in_or_app. right. left. reflexivity.
Qed.

Lemma main_loop_exit_and_invalid_choice_witness :
  exists out',
    main_loop 2 (mkWorld ex_store5 ["9"; ""; "0"] [] ex_now ex_now)
    = main_loop 1 (mkWorld ex_store5 ["0"] out' ex_now ex_now)
    /\ In (Text "Invalid choice. Please try again.") out'.
Proof.
  destruct (main_loop_exit_and_invalid_choice
              1 ex_store5 [""; "0"] [] ex_now ex_now) as [_ H].
  apply (H "9" "" ["0"]); [reflexivity | discriminate ..].
Defined.

(** X10.  Whatever the input and however many rounds it runs, [main]
    leaves a store that is reachable from the store it started on by menu
    actions; in particular every invariant of the reachable stores holds
    when the program stops, also when the input ends in the middle of an
    action. *)
Theorem main_stays_reachable (fuel : nat) (w : world) :
  reachable (db w) ->
  reachable (final_db (main fuel) w)
  /\ donors_exist (final_db (main fuel) w)
  /\ names_unique (final_db (main fuel) w)
  /\ primary_keys_ok (final_db (main fuel) w).
Proof.
  intros Hr.
  assert (H : reachable (final_db (main fuel) w)).
  { unfold final_db, main.
    apply (keeps_bind (print "Database tables checked/created successfully.")
                      (fun _ => main_loop fuel));
      [apply keeps_emit | intros _; apply main_loop_reachable | exact Hr]. }
  split; [exact H|].
  split; [now apply reachable_donors_exist|].
  split; [now apply reachable_names_unique | now apply reachable_primary_keys_ok].
Qed.

Lemma main_stays_reachable_witness :
  reachable (db (mkWorld empty_store
                   ["1"; "Ada Lovelace"; ""; ""; "7"; "Ada Lovelace"; "5"]
                   [] ex_now ex_now))
  /\ reachable
       (final_db (main 5)
          (mkWorld empty_store
             ["1"; "Ada Lovelace"; ""; ""; "7"; "Ada Lovelace"; "5"]
             [] ex_now ex_now)).
Proof.
  split; [exact reachable_empty|].
  exact (proj1 (main_stays_reachable 5
                  (mkWorld empty_store
                     ["1"; "Ada Lovelace"; ""; ""; "7"; "Ada Lovelace"; "5"]
                     [] ex_now ex_now)
                  reachable_empty)).
Defined.

(** *** Adding a row, then looking its name up *)

Lemma find_exists_some {A : Type} (f : A -> bool) (l : list A) (x : A) :
  In x l -> f x = true -> find f l <> None.
Proof.
  intros Hin Hf H. apply (find_none _ _ H) in Hin. congruence.
Qed.

Lemma name_matches_self (n : string) (id : Z) : name_matches n (id, n) = true.
Proof. unfold name_matches. apply String.eqb_refl. Qed.

Lemma resolve_found (rows : list (Z * string)) (n : string) (id : Z) :
  In (id, n) rows ->
  option_map fst (find (name_matches n) rows) <> None.
Proof.
  intros Hin H.
  pose proof (find_exists_some (name_matches n) rows (id, n) Hin
                               (name_matches_self n id)) as F.
  destruct (find (name_matches n) rows); [discriminate | now apply F].
Qed.

(** X11.  A name that was just entered at an adding prompt resolves
    afterwards.  After [add_donor] with a non-empty name, and after
    [add_volunteer] with a non-empty name whether the row was inserted or
    rejected as a duplicate, [find_id_by_name] returns an identifier for
    that name, so a following [add_donation] does not stop at it. *)
Theorem added_name_resolves
  (w : world) (l1 l2 : string) (rest : list string) :
  stdin w = l1 :: l2 :: rest ->
  PyStr.strip l1 <> EmptyString ->
  (forall w', db w' = final_db add_donor w ->
      exists id,
        fst (find_id_by_name "Donors" "donor" (PyStr.strip l1) w')
        = Ret (Some id))
  /\ (forall w', db w' = final_db add_volunteer w ->
         exists id,
           fst (find_id_by_name "Volunteers" "volunteer" (PyStr.strip l1) w')
           = Ret (Some id)).
Proof.
  intros Hin Hne. split; intros w' Hdb.
  - destruct (find_id_by_name_resolve "Donors" "donor" (PyStr.strip l1) w')
      as [E _].
    rewrite E, Hdb, resolve_donors_find.
    destruct (add_donor_inserts w l1 l2 rest Hin Hne) as [Ed _].
    cbv zeta in Ed. rewrite Ed. simpl.
    match goal with
    | |- exists id, Ret ?o = _ => destruct o as [id|] eqn:F
    end; [now exists id|].
    exfalso. revert F. eapply resolve_found.
    rewrite map_app. apply in_or_app. right. left. reflexivity.
  - destruct (find_id_by_name_resolve "Volunteers" "volunteer"
                (PyStr.strip l1) w') as [E _].
    rewrite E, Hdb, resolve_volunteers_find.
    assert (Hv : exists id,
               In (id, PyStr.strip l1)
                  (map (fun v => (volunteer_id v, volunteer_name v))
                       (Volunteers (final_db add_volunteer w)))).
    { destruct w as [s inp out pn sn]. unfold stdin in Hin. subst inp.
      apply nonempty_true in Hne.
      unfold add_volunteer. io_unfold. cbv beta iota zeta. simpl.
      rewrite Hne. simpl. unfold insert_volunteer.
      destruct (existsb _ _) eqn:X; simpl.
      - apply existsb_exists in X. destruct X as [v [Hv1 Hv2]].
        apply String.eqb_eq in Hv2. exists (volunteer_id v).
        apply in_map_iff. exists v. split; [now rewrite Hv2 | exact Hv1].
      - eexists. rewrite map_app. apply in_or_app. right. left. reflexivity. }
    destruct Hv as [i Hi].
    match goal with
    | |- exists id, Ret ?o = _ => destruct o as [id|] eqn:F
    end; [now exists id|].
    exfalso. revert F. eapply resolve_found. apply sort_by_In. exact Hi.
Qed.

Lemma added_name_resolves_witness :
  stdin (ex_world ex_store5 [" Carol "; ""]) = " Carol " :: "" :: []
  /\ PyStr.strip " Carol " <> EmptyString
  /\ exists id,
       fst (find_id_by_name "Volunteers" "volunteer" (PyStr.strip " Carol ")
              (ex_world (final_db add_volunteer
                           (ex_world ex_store5 [" Carol "; ""])) []))
       = Ret (Some id).
Proof.
  assert (Hne : PyStr.strip " Carol " <> EmptyString) by discriminate.
  split; [reflexivity|]. split; [exact Hne|].
  destruct (added_name_resolves (ex_world ex_store5 [" Carol "; ""])
              " Carol " "" [] eq_refl Hne) as [_ H].
  exact (H (ex_world (final_db add_volunteer
                        (ex_world ex_store5 [" Carol "; ""])) [])
           (ex_world_db _ _)).
Defined.

(** *** Adding a donation, then searching for it *)

Lemma like_star_intro (q s : string) :
  Sql.like_chars q s = true -> Sql.like_chars (String "%" q) s = true.
Proof. intros H. rewrite like_percent, H. reflexivity. Qed.

Lemma like_cons (c : ascii) (q : string) (d : ascii) (s : string) :
  Sql.like_chars (String c q) (String d s)
  = if (c =? "%")%char
    then Sql.like_chars q (String d s) || Sql.like_chars (String c q) s
    else if (c =? "_")%char then Sql.like_chars q s
         else (Sql.lower_char c =? Sql.lower_char d)%char
              && Sql.like_chars q s.
Proof.
  simpl. destruct (c =? "%")%char; [reflexivity|].
  destruct (c =? "_")%char; reflexivity.
Qed.

(** A pattern followed by [%] matches every string that starts with the
    pattern's own text, wildcards or not. *)
Lemma like_own_text (p x : string) :
  Sql.like_chars (p ++ "%") (p ++ x) = true.
Proof.
  induction p as [|c p IH].
  - apply like_percent_end.
  - change (String c p ++ "%") with (String c (p ++ "%")).
    change (String c p ++ x) with (String c (p ++ x)).
    rewrite like_cons.
    destruct (c =? "%")%char eqn:E1.
    + apply Ascii.eqb_eq in E1. subst c.
      rewrite (like_star_intro _ _ IH). apply orb_true_r.
    + destruct (c =? "_")%char; [exact IH|].
      now rewrite Ascii.eqb_refl, IH.
Qed.

(** A pattern matches its own text. *)
Lemma like_own_text_whole (p : string) : Sql.like_chars p p = true.
Proof.
  induction p as [|c p IH]; [reflexivity|].
  rewrite like_cons.
  destruct (c =? "%")%char eqn:E1.
  - apply Ascii.eqb_eq in E1. subst c.
    rewrite (like_star_intro _ _ IH). apply orb_true_r.
  - destruct (c =? "_")%char; [exact IH|].
    now rewrite Ascii.eqb_refl, IH.
Qed.

Lemma append_empty (s : string) : s ++ EmptyString = s.
Proof. induction s as [|c s IH]; simpl; [reflexivity | now rewrite IH]. Qed.

(** The search for a whole name finds it, a NUL character in the name or
    not: where [LIKE] cuts the pattern it cuts the name too. *)
Lemma where_like_same_name (n t : string) :
  Sql.lower n = Sql.lower t ->
  where_like (Some n) ("%" ++ t ++ "%") = true.
Proof.
  intros H. unfold where_like, Sql.like. rewrite !lower_append, H.
  change (Sql.lower "%") with "%".
  change ("%" ++ Sql.lower t ++ "%") with (String "%" (Sql.lower t ++ "%")).
  change (Sql.until_nul (String "%" (Sql.lower t ++ "%")))
    with (String "%" (Sql.until_nul (Sql.lower t ++ "%"))).
  apply like_star_intro. rewrite until_nul_append.
  destruct (nul_free (Sql.lower t)) eqn:Hz.
  - rewrite (until_nul_free _ Hz).
    change (Sql.until_nul "%") with "%".
    rewrite <- (append_empty (Sql.lower t)) at 2. apply like_own_text.
  - apply like_own_text_whole.
Qed.

Lemma resolve_donor_row (s : store) (n : string) (id : Z) :
  resolve s "Donors" "donor" n = Some id ->
  exists dn, In dn (Donors s) /\ donor_id dn = id
             /\ Sql.lower (donor_name dn) = Sql.lower n.
Proof.
  rewrite resolve_donors_find.
  destruct (find _ _) as [[i nm]|] eqn:F; simpl; [|discriminate].
  intros H. injection H as ->. apply find_some in F. destruct F as [F1 F2].
  apply in_map_iff in F1. destruct F1 as [dn [E Hin]].
  injection E as <- <-. exists dn. split; [exact Hin|]. split; [reflexivity|].
  unfold name_matches in F2. simpl in F2. now apply String.eqb_eq.
Qed.

Lemma lower_empty (a : string) : Sql.lower a = EmptyString -> a = EmptyString.
Proof. destruct a; [reflexivity | discriminate]. Qed.

(** X12.  A donation just added is found again under the name it was
    added for: on a reachable store, after an accepted [add_donation], the
    query of the donor search for the donor name as entered (whatever
    characters it has, the wildcards of [LIKE] and NUL included) has a row
    for the new donation, with the stored donor's name, the amount and the
    notes entered; and when the name is at most 49998 bytes long, so that
    [LIKE] takes the pattern, a following [search_donations] for it on the
    donor axis prints the rows of that query. *)
Theorem added_donation_is_found_by_donor_name
  (s : store) (l1 l2 l3 l4 l5 l6 : string) (rest : list string)
  (out : list message) (pn sn : string) (id : Z) (a : PyStr.pyfloat) :
  reachable s ->
  resolve s "Donors" "donor" (PyStr.strip l1) = Some id ->
  PyStr.float l2 = Some a ->
  PyStr.flt PyStr.fzero a = true ->
  date_accepted l3 = true ->
  let s' := final_db add_donation
              (mkWorld s (l1 :: l2 :: l3 :: l4 :: l5 :: l6 :: rest) out pn sn) in
  exists r dn,
    In r (search_query s' (fun r => Some (sr_donor_name r)) (PyStr.strip l1))
    /\ select_donor s id = Some dn
    /\ sr_donor_name r = donor_name dn
    /\ sr_donation_id r = seq_Donations s + 1
    /\ sr_amount r = a
    /\ sr_notes r = PyStr.strip l6
    /\ ((Sql.utf8_length (PyStr.strip l1) <= 49998)%N ->
        forall (w' : world) (rest' : list string),
          db w' = s' ->
          stdin w' = "1" :: l1 :: rest' ->
          In (Rows search_headers
                   (map search_values
                        (search_query s' (fun r => Some (sr_donor_name r))
                                      (PyStr.strip l1))))
             (printed search_donations w')).
Proof.
  intros Hr Hres Hf Hp Hd s'.
  destruct (resolve_donor_row s _ id Hres) as (dn & Hin & Hid & Hlow).
  destruct (reachable_primary_keys_ok s Hr) as ((Hn & _) & _ & _ & Hk).
  assert (Hsel : select_donor s id = Some dn).
  { rewrite <- Hid. now apply (find_unique_key donor_id). }
  assert (Es : s' = with_donation s (new_donation s id a l3 l4 l5 l6 pn)).
  { subst s'. rewrite add_donation_db. now apply add_donation_result_accepted. }
  assert (Hj : exists r,
             join_donation s' (new_donation s id a l3 l4 l5 l6 pn) = Some r
             /\ sr_donor_name r = donor_name dn
             /\ sr_donation_id r
                = next_rowid (seq_Donations s) (map donation_id (Donations s))
             /\ sr_amount r = a /\ sr_notes r = PyStr.strip l6).
  { unfold join_donation.
    assert (E : select_donor s' (donation_donor_id
                                   (new_donation s id a l3 l4 l5 l6 pn))
                = Some dn).
    { rewrite Es. exact Hsel. }
    rewrite E. eexists. split; [reflexivity|]. repeat split. }
  destruct Hj as (r & Hj & Hname & Hrid & Ham & Hnotes).
  assert (Hrow : In r (search_query s' (fun r => Some (sr_donor_name r))
                                    (PyStr.strip l1))).
  { unfold search_query. apply sort_by_In. apply filter_In. split.
    - apply joined_rows_In. exists (new_donation s id a l3 l4 l5 l6 pn).
      split; [|exact Hj]. rewrite Es. simpl.
      apply in_or_app. right. left. reflexivity.
    - rewrite Hname. now apply where_like_same_name. }
  exists r, dn. split; [exact Hrow|].
  split; [exact Hsel|]. split; [exact Hname|].
  split; [rewrite Hrid; now apply next_rowid_succ|].
  split; [exact Ham|]. split; [exact Hnotes|].
  intros Hlen w' rest' Hdb Hstdin.
  assert (Hne : nonempty (PyStr.strip l1) = true).
  { apply nonempty_true. intros E.
    destruct (reachable_names_clean s Hr) as (Hc & _).
    destruct (Hc dn Hin) as [Hc1 _]. apply Hc1.
    apply lower_empty. now rewrite Hlow, E. }
  destruct (search_donations_prints w' "1" l1 rest'
              (fun r => Some (sr_donor_name r)) Hstdin eq_refl Hne)
    as [pre E].
  rewrite E, Hdb, (search_accepts_short_term s' _ Hlen).
  destruct (search_query s' _ (PyStr.strip l1)) as [|r0 rows];
    [destruct Hrow|].
  apply in_or_app. right. right. left. reflexivity.
Qed.

Lemma added_donation_is_found_by_donor_name_witness :
  reachable ex_store5
  /\ resolve ex_store5 "Donors" "donor" (PyStr.strip "ADA LOVELACE") = Some 1
  /\ PyStr.float "7.5" = Some (S754_finite false 8444249301319680 (-50))
  /\ PyStr.flt PyStr.fzero (S754_finite false 8444249301319680 (-50)) = true
  /\ date_accepted "" = true
  /\ exists r,
       In r (search_query
               (final_db add_donation
                  (mkWorld ex_store5
                     ["ADA LOVELACE"; "7.5"; ""; ""; ""; "third"]
                     [] ex_now ex_now))
               (fun r => Some (sr_donor_name r)) (PyStr.strip "ADA LOVELACE"))
       /\ sr_donation_id r = seq_Donations ex_store5 + 1.
Proof.
  assert (H1 : resolve ex_store5 "Donors" "donor" (PyStr.strip "ADA LOVELACE")
               = Some 1) by (vm_compute; reflexivity).
  assert (H2 : PyStr.float "7.5"
               = Some (S754_finite false 8444249301319680 (-50)))
    by (vm_compute; reflexivity).
  assert (H3 : PyStr.flt PyStr.fzero (S754_finite false 8444249301319680 (-50))
               = true) by reflexivity.
  assert (H4 : date_accepted "" = true) by reflexivity.
  split; [exact ex_store5_reachable|].
  repeat (split; [assumption|]).
  pose proof (added_donation_is_found_by_donor_name
                ex_store5 "ADA LOVELACE" "7.5" "" "" "" "third" [] []
                ex_now ex_now 1 _ ex_store5_reachable H1 H2 H3 H4) as H.
  cbv zeta in H. destruct H as (r & dn & Hin & _ & _ & Hid & _).
  exists r. split; [exact Hin | exact Hid].
Defined.

(** *** Deleting a donor, then searching *)

Lemma NoDup_map_inj {A B : Type} (f : A -> B) (l : list A) (x y : A) :
  NoDup (map f l) -> In x l -> In y l -> f x = f y -> x = y.
Proof.
  induction l as [|z l IH]; simpl; [intros _ []|].
  intros Hn Hx Hy E. inversion Hn as [|? ? Hz Hl]; subst.
  destruct Hx as [->|Hx], Hy as [->|Hy]; auto.
  - exfalso. apply Hz. rewrite E. now apply in_map.
  - exfalso. apply Hz. rewrite <- E. now apply in_map.
Qed.

Lemma join_donation_id (s : store) (d : donation) (r : search_row) :
  join_donation s d = Some r -> sr_donation_id r = donation_id d.
Proof.
  unfold join_donation. destruct (select_donor _ _); [|discriminate].
  intros H. injection H as <-. reflexivity.
Qed.

(** X13.  The donations of a deleted donor are gone from every search:
    after a confirmed [delete_donor] on a reachable store, no search, on
    any axis and for any term, returns a row of a donation that belonged to
    the deleted donor, and every row it returns is of a donation that was
    there before. *)
Theorem deleted_donor_is_gone_from_search
  (w : world) (l0 l1 : string) (rest : list string) (id : Z) (d : donor) :
  reachable (db w) ->
  stdin w = l0 :: l1 :: rest ->
  PyStr.int l0 = Some id ->
  Sql.fits_int64 id = true ->
  select_donor (db w) id = Some d ->
  PyStr.lower l1 = "yes" ->
  forall (col : search_row -> option string) (term : string) (r : search_row),
    In r (search_query (final_db delete_donor w) col term) ->
    (exists x, In x (Donations (db w))
               /\ donation_id x = sr_donation_id r
               /\ donation_donor_id x <> id)
    /\ (forall x, In x (Donations (db w)) ->
                  donation_donor_id x = id ->
                  donation_id x <> sr_donation_id r).
Proof.
  intros Hr Hin Hint Hfit Hsel Hyes col term r Hres.
  destruct (reachable_primary_keys_ok _ Hr) as (_ & _ & _ & (Hn & _)).
  rewrite (delete_donor_confirmed w l0 l1 rest id d) in Hres by assumption.
  unfold search_query in Hres. apply sort_by_In in Hres.
  apply filter_In in Hres. destruct Hres as [Hres _].
  apply joined_rows_In in Hres. simpl in Hres.
  destruct Hres as (x & Hx & Hj).
  apply filter_In in Hx. destruct Hx as [Hx Hne].
  apply negb_true_iff, Z.eqb_neq in Hne.
  apply join_donation_id in Hj.
  split.
  - exists x. auto.
  - intros y Hy Hyid E. rewrite Hj in E.
    assert (y = x) by (apply (NoDup_map_inj donation_id _ _ _ Hn); auto).
    subst y. contradiction.
Qed.

Lemma ex_store7_reachable : reachable ex_store7.
Proof.
  apply (reachable_action "7"
           (ex_world ex_store6
              ["grace hopper"; "15"; "2024-05-01 19:00:00"; "Bob";
               "Spring Gala"; ""])).
  apply (reachable_action "1" (ex_world ex_store5 ["Grace Hopper"; ""])).
  exact ex_store5_reachable.
Qed.

Lemma deleted_donor_is_gone_from_search_witness :
  reachable (db (ex_world ex_store7 ["1"; "YES"]))
  /\ select_donor (db (ex_world ex_store7 ["1"; "YES"])) 1
     = Some (mkDonor 1 "Ada Lovelace" "ada@example.org" ex_now)
  /\ map (fun x => (donation_id x, donation_donor_id x)) (Donations ex_store7)
     = [(1, 1); (2, 1); (3, 2)]
  /\ map (fun r => (sr_donation_id r, sr_donor_name r))
         (search_query (final_db delete_donor (ex_world ex_store7 ["1"; "YES"]))
                       sr_event_name "gala")
     = [(3, "Grace Hopper")]
  /\ (forall r,
         In r (search_query
                 (final_db delete_donor (ex_world ex_store7 ["1"; "YES"]))
                 sr_event_name "gala") ->
         (exists x, In x (Donations (db (ex_world ex_store7 ["1"; "YES"])))
                    /\ donation_id x = sr_donation_id r
                    /\ donation_donor_id x <> 1)
         /\ (forall x,
                In x (Donations (db (ex_world ex_store7 ["1"; "YES"]))) ->
                donation_donor_id x = 1 ->
                donation_id x <> sr_donation_id r)).
Proof.
  assert (Hr : reachable (db (ex_world ex_store7 ["1"; "YES"]))).
  { rewrite ex_world_db. exact ex_store7_reachable. }
  assert (Hsel : select_donor (db (ex_world ex_store7 ["1"; "YES"])) 1
                 = Some (mkDonor 1 "Ada Lovelace" "ada@example.org" ex_now)).
  { vm_compute. reflexivity. }
  split; [exact Hr|]. split; [exact Hsel|].
  split; [vm_compute; reflexivity|].
  split; [vm_compute; reflexivity|].
  intros r Hin.
  exact (deleted_donor_is_gone_from_search
           (ex_world ex_store7 ["1"; "YES"]) "1" "YES" [] 1
           (mkDonor 1 "Ada Lovelace" "ada@example.org" ex_now)
           Hr eq_refl eq_refl eq_refl Hsel eq_refl
           sr_event_name "gala" r Hin).
Defined.

(** *** Adding a volunteer *)

(** X14.  On a reachable store, [add_volunteer] with a non-empty name
    that no volunteer has yet (compared exactly) appends one row with the
    stripped name and contact info and an identifier one more than the
    counter, larger than every identifier in the table; it touches no other
    table and reports the identifier. *)
Theorem add_volunteer_appends_fresh_row
  (w : world) (l1 l2 : string) (rest : list string) :
  reachable (db w) ->
  stdin w = l1 :: l2 :: rest ->
  PyStr.strip l1 <> EmptyString ->
  ~ In (PyStr.strip l1) (map volunteer_name (Volunteers (db w))) ->
  let id := seq_Volunteers (db w) + 1 in
  final_db add_volunteer w
  = mkStore (Donors (db w))
            (Volunteers (db w)
             ++ [mkVolunteer id (PyStr.strip l1) (PyStr.strip l2)])%list
            (Events (db w)) (Donations (db w))
            (seq_Donors (db w)) id (seq_Events (db w)) (seq_Donations (db w))
  /\ (forall v, In v (Volunteers (db w)) -> volunteer_id v < id)
  /\ last (printed add_volunteer w) (Text "")
     = Text ("Volunteer '" ++ PyStr.strip l1 ++ "' added successfully (ID: "
             ++ str_of_Z id ++ ").").
Proof.
  intros Hr Hin Hne Hfresh id.
  destruct (reachable_primary_keys_ok _ Hr) as (_ & Hk & _).
  pose proof (next_rowid_succ _ _ Hk) as Hnext. fold id in Hnext.
  destruct w as [s inp out pn sn]. unfold stdin, db in *. subst inp.
  apply nonempty_true in Hne. apply existsb_name_false in Hfresh.
  split; [|split].
  - unfold add_volunteer. io_unfold. cbv beta iota zeta. simpl.
    rewrite Hne. simpl. unfold insert_volunteer. rewrite Hfresh. simpl.
    rewrite Hnext. reflexivity.
  - intros v Hv. destruct Hk as (_ & _ & Hb).
    specialize (Hb (volunteer_id v) (in_map volunteer_id _ _ Hv)).
    subst id. lia.
  - unfold add_volunteer. io_unfold. cbv beta iota zeta. simpl.
    rewrite Hne. simpl. unfold insert_volunteer. rewrite Hfresh. simpl.
    rewrite Hnext. apply last_snoc.
Qed.

Lemma add_volunteer_appends_fresh_row_witness :
  reachable (db (ex_world ex_store5 [" bob "; " 555 "]))
  /\ stdin (ex_world ex_store5 [" bob "; " 555 "]) = " bob " :: " 555 " :: []
  /\ PyStr.strip " bob " <> EmptyString
  /\ ~ In (PyStr.strip " bob ")
          (map volunteer_name
               (Volunteers (db (ex_world ex_store5 [" bob "; " 555 "]))))
  /\ Volunteers (final_db add_volunteer (ex_world ex_store5 [" bob "; " 555 "]))
     = [mkVolunteer 1 "Bob" "bob@example.org"; mkVolunteer 2 "bob" "555"].
Proof.
  assert (Hr : reachable (db (ex_world ex_store5 [" bob "; " 555 "]))).
  { rewrite ex_world_db. exact ex_store5_reachable. }
  assert (Hne : PyStr.strip " bob " <> EmptyString) by discriminate.
  assert (Hf : ~ In (PyStr.strip " bob ")
                    (map volunteer_name
                         (Volunteers
                            (db (ex_world ex_store5 [" bob "; " 555 "]))))).
  { vm_compute. intros [H|[]]. discriminate. }
  split; [exact Hr|]. split; [reflexivity|]. split; [exact Hne|].
  split; [exact Hf|].
  pose proof (add_volunteer_appends_fresh_row
                (ex_world ex_store5 [" bob "; " 555 "]) " bob " " 555 " []
                Hr eq_refl Hne Hf) as H.
  cbv zeta in H. destruct H as (H & _). rewrite H.
  vm_compute. reflexivity.
Defined.

(** *** Uncaught exceptions *)

Ltac raise_cases :=
  repeat
    (simpl;
     match goal with
     | |- context [match ?l with [] => _ | _ :: _ => _ end] =>
         is_var l; destruct l
     | |- context [nonempty (PyStr.strip ?l)] =>
         destruct (nonempty (PyStr.strip l))
     | |- context [PyStr.int ?l] => destruct (PyStr.int l)
     | |- context [PyStr.float ?l] => destruct (PyStr.float l)
     | |- context [PyStr.fle ?a ?b] => destruct (PyStr.fle a b)
     | |- context [Sql.fits_int64 ?n] => destruct (Sql.fits_int64 n)
     | |- context [select_donor ?s ?n] => destruct (select_donor s n)
     | |- context [PyTime.strptime ?a ?b] => destruct (PyTime.strptime a b)
     | |- context [find ?f ?l] => destruct (find f l) as [[? ?]|]
     | |- context [String.eqb ?a ?b] => destruct (String.eqb a b)
     | |- context [search_column ?c] => destruct (search_column c)
     | |- context [insert_volunteer ?a ?b ?c] =>
         destruct (insert_volunteer a b c)
     | |- context [insert_event ?a ?b ?c] => destruct (insert_event a b c)
     | |- context [insert_donation ?a ?b ?c ?d ?e ?f ?g] =>
         destruct (insert_donation a b c d e f g)
     | |- context [Sql.is_integrity ?e] => destruct (Sql.is_integrity e)
     | |- context [Z.ltb ?a ?b] => destruct (Z.ltb a b)
     | |- context [map search_values ?l] => destruct (map search_values l)
     | |- context [map donor_values ?l] => destruct (map donor_values l)
     end);
  simpl; intros; first [discriminate | reflexivity].

Lemma add_donor_raise (w : world) (e : exn) :
  fst (add_donor w) = Raise e -> final_db add_donor w = db w.
Proof.
  destruct w as [s inp out pn sn]. unfold add_donor. io_unfold.
  cbv beta iota zeta. raise_cases.
Qed.

Lemma update_donor_raise (w : world) (e : exn) :
  fst (update_donor w) = Raise e -> final_db update_donor w = db w.
Proof.
  destruct w as [s inp out pn sn]. unfold update_donor. io_unfold.
  cbv beta iota zeta. raise_cases.
Qed.

Lemma delete_donor_raise (w : world) (e : exn) :
  fst (delete_donor w) = Raise e -> final_db delete_donor w = db w.
Proof.
  destruct w as [s inp out pn sn]. unfold delete_donor. io_unfold.
  cbv beta iota zeta. raise_cases.
Qed.

Lemma add_volunteer_raise (w : world) (e : exn) :
  fst (add_volunteer w) = Raise e -> final_db add_volunteer w = db w.
Proof.
  destruct w as [s inp out pn sn]. unfold add_volunteer. io_unfold.
  cbv beta iota zeta. raise_cases.
Qed.

Lemma add_event_raise (w : world) (e : exn) :
  fst (add_event w) = Raise e -> final_db add_event w = db w.
Proof.
  destruct w as [s inp out pn sn]. unfold add_event. io_unfold.
  cbv beta iota zeta. raise_cases.
Qed.

Lemma add_donation_raise (w : world) (e : exn) :
  fst (add_donation w) = Raise e -> final_db add_donation w = db w.
Proof.
  destruct w as [s inp out pn sn]. unfold add_donation. io_unfold.
  cbv beta iota zeta. raise_cases.
Qed.

Lemma search_donations_raise (w : world) (e : exn) :
  fst (search_donations w) = Raise e -> final_db search_donations w = db w.
Proof. intros _. apply search_donations_db. Qed.

(** X15.  No menu action leaves a half-done change behind when it ends in
    an uncaught exception (the input ending at a prompt, or an identifier
    too large for the database): whenever an action raises, the store is
    the store it started on.  [view_donors] never raises. *)
Theorem exceptions_leave_store_unchanged (choice : string) (w : world)
  (e : exn) :
  fst (menu_action choice w) = Raise e ->
  final_db (menu_action choice) w = db w
  /\ choice <> "2".
Proof.
  unfold menu_action.
  destruct (choice =? "1")%string eqn:E1;
    [intros H; split; [now apply (add_donor_raise w e)|];
     apply String.eqb_eq in E1; subst; discriminate|].
  destruct (choice =? "2")%string eqn:E2.
  { intros H. exfalso. revert H.
    destruct w as [s inp out pn sn]. rewrite view_donors_eq.
    unfold display_results. io_unfold.
    destruct (map donor_values _); discriminate. }
  apply String.eqb_neq in E2.
  repeat match goal with
         | |- context [if ?b then _ else _] => destruct b
         end; intros H; (split; [|exact E2]).
  - now apply (update_donor_raise w e).
  - now apply (delete_donor_raise w e).
  - now apply (add_volunteer_raise w e).
  - now apply (add_event_raise w e).
  - now apply (add_donation_raise w e).
  - apply search_donations_db.
  - reflexivity.
Qed.

Lemma exceptions_leave_store_unchanged_witness :
  fst (menu_action "7" (ex_world ex_store5 ["Ada Lovelace"; "50"; ""; "Bob"]))
  = Raise EOFError
  /\ final_db (menu_action "7")
       (ex_world ex_store5 ["Ada Lovelace"; "50"; ""; "Bob"])
     = db (ex_world ex_store5 ["Ada Lovelace"; "50"; ""; "Bob"]).
Proof.
  assert (H : fst (menu_action "7"
                     (ex_world ex_store5 ["Ada Lovelace"; "50"; ""; "Bob"]))
              = Raise EOFError) by (vm_compute; reflexivity).
  split; [exact H|].
  exact (proj1 (exceptions_leave_store_unchanged
                  "7" (ex_world ex_store5 ["Ada Lovelace"; "50"; ""; "Bob"])
                  EOFError H)).
Defined.

(** X16.  An identifier that is a number but does not fit a 64-bit
    integer cannot be bound to the lookup of [update_donor] and
    [delete_donor]: both raise [OverflowError], which nothing catches,
    before they read another line, and the store is unchanged. *)
Theorem oversized_identifier_raises
  (w : world) (l0 : string) (rest : list string) (n : Z) :
  stdin w = l0 :: rest ->
  PyStr.int l0 = Some n ->
  Sql.fits_int64 n = false ->
  fst (update_donor w) = Raise OverflowError
  /\ fst (delete_donor w) = Raise OverflowError
  /\ final_db update_donor w = db w
  /\ final_db delete_donor w = db w
  /\ stdin (snd (update_donor w)) = rest
  /\ stdin (snd (delete_donor w)) = rest.
Proof.
  destruct w as [s inp out pn sn]. unfold stdin at 1. intros -> Hint Hfit.
  unfold update_donor, delete_donor. io_unfold. cbv beta iota zeta. simpl.
  rewrite Hint. simpl. rewrite Hfit. simpl. repeat split.
Qed.

Lemma oversized_identifier_raises_witness :
  stdin (ex_world ex_store5 ["9223372036854775808"; "x"])
  = "9223372036854775808" :: ["x"]
  /\ PyStr.int "9223372036854775808" = Some 9223372036854775808
  /\ Sql.fits_int64 9223372036854775808 = false
  /\ fst (delete_donor (ex_world ex_store5 ["9223372036854775808"; "x"]))
     = Raise OverflowError.
Proof.
  split; [reflexivity|]. split; [vm_compute; reflexivity|].
  split; [vm_compute; reflexivity|].
  exact (proj1 (proj2 (oversized_identifier_raises
                         (ex_world ex_store5 ["9223372036854775808"; "x"])
                         "9223372036854775808" ["x"] 9223372036854775808
                         eq_refl
                         ltac:(vm_compute; reflexivity)
                         ltac:(vm_compute; reflexivity)))).
Defined.

(** *** Newest first *)

(** X17.  The search orders its rows by the stored date text.  When every
    stored donation date is a zero-padded timestamp
    [YYYY-MM-DD HH:MM:SS], that order is newest first: the rows are in
    descending order of the number YYYYMMDDHHMMSS their dates spell.  (For
    dates entered without padding, which [add_donation] also accepts and
    stores as entered, the text order need not be the order in time.) *)
Theorem search_is_newest_first_for_padded_dates
  (s : store) (col : search_row -> option string) (term : string) :
  (forall d, In d (Donations s) -> padded_timestamp (donation_date d) = true) ->
  StronglySorted
    (fun a b => digits_number (sr_donation_date b)
                <= digits_number (sr_donation_date a))
    (search_query s col term).
Proof.
  intros Hpad.
  assert (Hrow : forall r, In r (search_query s col term) ->
                           padded_timestamp (sr_donation_date r) = true).
  { intros r Hr. unfold search_query in Hr. apply sort_by_In in Hr.
    apply filter_In in Hr. destruct Hr as [Hr _].
    apply joined_rows_In in Hr. destruct Hr as (d & Hd & Hj).
    rewrite (join_donation_date _ _ _ Hj). now apply Hpad. }
  apply (StronglySorted_weaken (fun a b => date_desc a b = true)).
  - intros x y Hx Hy Hxy. unfold date_desc in Hxy.
    apply (padded_leb _ _ (Hrow y Hy) (Hrow x Hx)). exact Hxy.
  - unfold search_query.
    apply (sort_by_sorted _ date_desc date_desc_total date_desc_trans).
Qed.

Lemma search_is_newest_first_for_padded_dates_witness :
  (forall d, In d (Donations ex_store5) ->
             padded_timestamp (donation_date d) = true)
  /\ map (fun r => digits_number (sr_donation_date r))
         (search_query ex_store5 (fun r => Some (sr_donor_name r)) "ada")
     = [20240601120000; 20240501183000]
  /\ StronglySorted
       (fun a b => digits_number (sr_donation_date b)
                   <= digits_number (sr_donation_date a))
       (search_query ex_store5 (fun r => Some (sr_donor_name r)) "ada").
Proof.
  assert (H : forall d, In d (Donations ex_store5) ->
                        padded_timestamp (donation_date d) = true).
  { intros d Hd. rewrite ex_store5_value in Hd. simpl in Hd.
    destruct Hd as [<-|[<-|[]]]; vm_compute; reflexivity. }
  split; [exact H|]. split; [vm_compute; reflexivity|].
  exact (search_is_newest_first_for_padded_dates ex_store5 _ "ada" H).
Defined.

(** Without padding the text order is not the order in time: both dates
    are accepted, and 5 February sorts above 1 December of the same
    year. *)
Example unpadded_dates_sort_as_text :
  date_accepted "2024-2-5 1:2:3" = true
  /\ date_accepted "2024-12-01 00:00:00" = true
  /\ String.leb "2024-12-01 00:00:00" "2024-2-5 1:2:3" = true
  /\ padded_timestamp "2024-2-5 1:2:3" = false.
Proof. vm_compute. repeat split; reflexivity. Qed.
